(** * Finance permission system: hierarchy scope, batched queries, pagination

    A shallow embedding of the permission core of the repository:

    - [main.py]: the in-memory [PermissionService], [FinancialService] and
      [ApiGateway];
    - [database.py]: the SQLite-backed services;
    - [high_concurrency_pagination.py], [accurate_pagination.py],
      [optimized_cursor_pagination.py] and
      [alternative_permission_with_pagination.py]: the MySQL pagination
      strategies.

    Identifiers are integers ([Z]); a Python [dict] that is iterated is an
    association list in insertion order; a Python [set] is a duplicate-free
    list; an SQL table is the list of its rows in scan order.  Amounts
    are integers (hundredths, for a [DECIMAL(15,2)] column): only their
    order and equality are used. *)

From Stdlib Require Import ZArith String Ascii Bool Lia Arith.
From Stdlib Require Import List Permutation Sorting.Sorted.
Import ListNotations.
Open Scope Z_scope.
Set Warnings "-abstract-large-number".

(* ===================================================================== *)
(** * Python values shared by every module *)
(* ===================================================================== *)

(** Exceptions the modelled code can raise. *)
Inductive Exn : Type :=
| KeyError        (* dict[k] on a missing key *)
| TypeError       (* subscripting None *)
| ValueError      (* range() with a zero step *)
| ZeroDivisionError
| LoginRequired   (* Exception("请先登录") *)
| DatabaseError.  (* mysql.connector.Error / sqlite3 error *)

(** The outcome of a call: a value, a raised exception, or a loop that was
    still running when the step budget of the model ran out. *)
Inductive result (A : Type) : Type :=
| Ok (a : A)
| Raise (e : Exn)
| OutOfFuel.
Arguments Ok {A} a.
Arguments Raise {A} e.
Arguments OutOfFuel {A}.

Definition bind {A B : Type} (m : result A) (k : A -> result B) : result B :=
  match m with
  | Ok a => k a
  | Raise e => Raise e
  | OutOfFuel => OutOfFuel
  end.

Notation "x <- m ;; k" := (bind m (fun x => k))
  (at level 61, m at next level, right associativity).

Definition is_ok {A : Type} (m : result A) : bool :=
  match m with Ok _ => true | _ => false end.

(** [x in s] for a list or a set of integers. *)
Definition mem (x : Z) (s : list Z) : bool := existsb (Z.eqb x) s.

(** [s.add(x)] on a set. *)
Definition set_add (x : Z) (s : list Z) : list Z :=
  if mem x s then s else s ++ [x].

(** Keep the first row of every key, in order of first appearance: the
    [if k not in d: d[k] = row] idiom, a set comprehension, and
    [INSERT IGNORE] into a table with a primary key. [seen] holds the keys
    already present. *)
Fixpoint unique_by {A : Type} (key : A -> Z) (seen : list Z) (l : list A)
  : list A :=
  match l with
  | [] => []
  | x :: r =>
      if mem (key x) seen then unique_by key seen r
      else x :: unique_by key (key x :: seen) r
  end.

(** [set(l)] / [{e for e in l}]. *)
Definition to_set (l : list Z) : list Z := unique_by (fun x => x) [] l.

(** No integer occurs twice: the ids of a column under a primary key. *)
Fixpoint distinct (l : list Z) : bool :=
  match l with
  | [] => true
  | x :: r => negb (mem x r) && distinct r
  end.

(** [d[k]] on a dict kept as an association list. *)
Fixpoint lookup {A : Type} (k : Z) (d : list (Z * A)) : option A :=
  match d with
  | [] => None
  | (k', v) :: r => if k =? k' then Some v else lookup k r
  end.

Definition values {A : Type} (d : list (Z * A)) : list A := map snd d.

Definition opt_eqb (a : option Z) (b : Z) : bool :=
  match a with Some x => x =? b | None => false end.

(** Python's [l[start:stop]] with its treatment of negative and
    out-of-range bounds. *)
Definition clamp_index (len i : Z) : Z :=
  if i <? 0 then Z.max 0 (i + len) else Z.min i len.

Definition py_slice {A : Type} (l : list A) (start stop : Z) : list A :=
  let n := Z.of_nat (length l) in
  let a := clamp_index n start in
  let b := clamp_index n stop in
  firstn (Z.to_nat (b - a)) (skipn (Z.to_nat a) l).

(** [range(0, n, step)] followed by [l[i:i + step]]: the fixed-size
    partition every batched query uses, for a positive chunk size. *)
Fixpoint chunks_fuel {A : Type} (fuel : nat) (size : nat) (l : list A)
  : list (list A) :=
  match fuel with
  | O => []
  | S f =>
      match l with
      | [] => []
      | _ => firstn size l :: chunks_fuel f size (skipn size l)
      end
  end.

Definition chunks {A : Type} (size : Z) (l : list A) : list (list A) :=
  chunks_fuel (length l) (Z.to_nat size) l.

(** [l[:n]] for a count [n], and [LIMIT n]. *)
Definition take {A : Type} (n : Z) (l : list A) : list A :=
  firstn (Z.to_nat n) l.

(** [len(l)]. *)
Definition len {A : Type} (l : list A) : Z := Z.of_nat (length l).

(** Stable sort by an integer key, ascending or (with [reverse = true])
    descending; rows with equal keys keep their input order in both
    directions, as [list.sort(key=..., reverse=...)] does and as a stable
    [ORDER BY] over a scan does. *)
Definition key_lt (reverse : bool) (a b : Z) : bool :=
  if reverse then b <? a else a <? b.

Fixpoint insert_sorted {A : Type} (key : A -> Z) (reverse : bool)
  (x : A) (l : list A) : list A :=
  match l with
  | [] => [x]
  | y :: r =>
      if key_lt reverse (key y) (key x)
      then y :: insert_sorted key reverse x r
      else x :: y :: r
  end.

Fixpoint stable_sort {A : Type} (key : A -> Z) (reverse : bool) (l : list A)
  : list A :=
  match l with
  | [] => []
  | x :: r => insert_sorted key reverse x (stable_sort key reverse r)
  end.

(** [x] may stand before [y] in the order of [stable_sort]. *)
Definition in_order {A : Type} (key : A -> Z) (reverse : bool) (x y : A)
  : Prop :=
  key_lt reverse (key y) (key x) = false.

(** [s.upper()] on ASCII letters. *)
Definition upper_ascii (c : ascii) : ascii :=
  let n := nat_of_ascii c in
  if (Nat.leb 97 n && Nat.leb n 122)%bool then ascii_of_nat (n - 32) else c.

Fixpoint upper (s : string) : string :=
  match s with
  | EmptyString => EmptyString
  | String c r => String (upper_ascii c) (upper r)
  end.

(* ===================================================================== *)
(** * The records of [main.py] *)
(* ===================================================================== *)

Record User : Type := mkUser {
  u_id : Z;
  u_name : string;
  u_role : string;
  u_department : string;
  u_parent_id : option Z
}.

Record FinancialFund : Type := mkFund {
  fund_id : Z;
  handle_by : Z;
  order_id : Z;
  customer_id : Z;
  amount : Z
}.

Record Order : Type := mkOrder {
  o_order_id : Z;
  o_user_id : Z
}.

Record Customer : Type := mkCustomer {
  c_customer_id : Z;
  c_admin_user_id : Z
}.

(** The permission scope dict: keys ["handle_by"], ["order_ids"],
    ["customer_ids"] and, in [database.py], ["is_admin"]. *)
Record Scope : Type := mkScope {
  sc_handle_by : list Z;
  sc_order_ids : list Z;
  sc_customer_ids : list Z;
  sc_is_admin : bool
}.

(** The filter of all fund queries: handled by, or ordered by, or
    administered by somebody of the scope. *)
Definition in_scope (hs os cs : list Z) (f : FinancialFund) : bool :=
  mem (handle_by f) hs || mem (order_id f) os || mem (customer_id f) cs.

(* ===================================================================== *)
(** * [main.py] *)
(* ===================================================================== *)

Module Main.

Record PermissionService : Type := mkService {
  users : list (Z * User);
  financial_funds : list FinancialFund;
  orders : list (Z * Order);
  customers : list (Z * Customer)
}.

(** [PermissionService.__init__]. *)
Definition init : PermissionService := {|
  users := [ (1, mkUser 1 "超级管理员" "admin" "总部" None);
             (2, mkUser 2 "财务主管" "supervisor" "华东区" (Some 1));
             (3, mkUser 3 "财务专员" "staff" "华东区" (Some 2));
             (4, mkUser 4 "财务专员" "staff" "华南区" (Some 1)) ];
  financial_funds := [ mkFund 1001 3 2001 3001 50000;
                       mkFund 1002 2 2002 3002 80000;
                       mkFund 1003 3 2003 3003 60000 ];
  orders := [ (2001, mkOrder 2001 3); (2002, mkOrder 2002 2);
              (2003, mkOrder 2003 3) ];
  customers := [ (3001, mkCustomer 3001 3); (3002, mkCustomer 3002 2);
                 (3003, mkCustomer 3003 3) ]
|}.

(** The ids pushed by one pass of
    [for uid, user in self.users.items(): if user.parent_id == current]. *)
Definition children (us : list (Z * User)) (current : Z) : list Z :=
  map fst (filter (fun p => opt_eqb (u_parent_id (snd p)) current) us).

(** [get_subordinates]: the [while stack:] loop. [stack.pop()] takes the
    last element; each turn of the loop costs one unit of [fuel]. *)
Fixpoint subordinates_loop (fuel : nat) (us : list (Z * User))
  (stack subordinates : list Z) : result (list Z) :=
  match fuel with
  | O => OutOfFuel
  | S fuel' =>
      match stack with
      | [] => Ok subordinates
      | _ =>
          let current := last stack 0 in
          subordinates_loop fuel' us
            (removelast stack ++ children us current)
            (set_add current subordinates)
      end
  end.

Definition get_subordinates (fuel : nat) (svc : PermissionService)
  (user_id : Z) : result (list Z) :=
  subordinates_loop fuel (users svc) [user_id] [].

(** [self.users[k].id in subordinates], raising on a missing key. *)
Definition owner_in (us : list (Z * User)) (subs : list Z) (k : Z)
  : result bool :=
  match lookup k us with
  | Some u => Ok (mem (u_id u) subs)
  | None => Raise KeyError
  end.

(** A set comprehension whose condition can raise. *)
Fixpoint filter_r {A : Type} (p : A -> result bool) (l : list A)
  : result (list A) :=
  match l with
  | [] => Ok []
  | x :: r =>
      b <- p x ;;
      rest <- filter_r p r ;;
      Ok (if b then x :: rest else rest)
  end.

Definition get_accessible_data_scope (fuel : nat) (svc : PermissionService)
  (user : User) : result Scope :=
  if (u_role user =? "admin")%string then
    Ok (mkScope (to_set (map u_id (values (users svc))))
                (to_set (map o_order_id (values (orders svc))))
                (to_set (map c_customer_id (values (customers svc))))
                false)
  else if (u_role user =? "supervisor")%string then
    subordinates <- get_subordinates fuel svc (u_id user) ;;
    os <- filter_r (fun o => owner_in (users svc) subordinates (o_user_id o))
                   (values (orders svc)) ;;
    cs <- filter_r (fun c => owner_in (users svc) subordinates
                                      (c_admin_user_id c))
                   (values (customers svc)) ;;
    Ok (mkScope (to_set (map u_id (filter (fun u => mem (u_id u) subordinates)
                                          (values (users svc)))))
                (to_set (map o_order_id os))
                (to_set (map c_customer_id cs))
                false)
  else if (u_role user =? "staff")%string then
    Ok (mkScope [u_id user]
                (to_set (map o_order_id
                   (filter (fun o => o_user_id o =? u_id user)%Z
                           (values (orders svc)))))
                (to_set (map c_customer_id
                   (filter (fun c => c_admin_user_id c =? u_id user)%Z
                           (values (customers svc)))))
                false)
  else Ok (mkScope [] [] [] false).

(** [FinancialService.get_funds]. *)
Definition get_funds (fuel : nat) (svc : PermissionService) (user : User)
  : result (list FinancialFund) :=
  scope <- get_accessible_data_scope fuel svc user ;;
  Ok (filter (in_scope (sc_handle_by scope) (sc_order_ids scope)
                       (sc_customer_ids scope))
             (financial_funds svc)).

Record ApiGateway : Type := mkGateway {
  permission_svc : PermissionService;
  current_user : option User
}.

(** [ApiGateway.authenticate]: [next(generator, self.permission_svc.users[1])].
    The default is an argument of [next], so [users[1]] is evaluated, and
    can raise, before the search. *)
Definition authenticate (gw : ApiGateway) (role : string)
  : result ApiGateway :=
  match lookup 1 (users (permission_svc gw)) with
  | None => Raise KeyError
  | Some fallback =>
      let found := find (fun u => (u_role u =? role)%string)
                        (values (users (permission_svc gw))) in
      Ok (mkGateway (permission_svc gw)
            (Some (match found with Some u => u | None => fallback end)))
  end.

(** [ApiGateway.get_funds]. *)
Definition gateway_get_funds (fuel : nat) (gw : ApiGateway)
  : result (list FinancialFund) :=
  match current_user gw with
  | None => Raise LoginRequired
  | Some u => get_funds fuel (permission_svc gw) u
  end.

End Main.

(* ===================================================================== *)
(** * [database.py]: the SQLite services *)
(* ===================================================================== *)

(** The three permission dimensions, and the column each one filters. *)
Inductive Dimension : Type := ByHandler | ByOrder | ByCustomer.

Definition column (d : Dimension) : FinancialFund -> Z :=
  match d with
  | ByHandler => handle_by
  | ByOrder => order_id
  | ByCustomer => customer_id
  end.

Module Database.

(** The four tables of [setup_database], each in rowid order. *)
Record Db : Type := mkDb {
  users : list User;
  orders : list Order;
  customers : list Customer;
  financial_funds : list FinancialFund
}.

Definition row_eqb (a b : Z * Z) : bool :=
  (fst a =? fst b)%Z && (snd a =? snd b)%Z.

Definition row_mem (r : Z * Z) (l : list (Z * Z)) : bool :=
  existsb (row_eqb r) l.

(** The recursive arm of the CTE, run on one [(id, depth)] row:
    [SELECT u.id, s.depth + 1 FROM users u, subordinates s
     WHERE u.parent_id = s.id AND s.depth < 3]. *)
Definition recursive_select (us : list User) (row : Z * Z) : list (Z * Z) :=
  if (snd row <? 3)%Z then
    map (fun u => (u_id u, snd row + 1)%Z)
        (filter (fun u => opt_eqb (u_parent_id u) (fst row)) us)
  else [].

(** [UNION]: a row enters the queue only if no identical row was queued
    before. *)
Fixpoint fresh_rows (seen rows : list (Z * Z)) : list (Z * Z) :=
  match rows with
  | [] => []
  | r :: t =>
      if row_mem r seen then fresh_rows seen t
      else r :: fresh_rows (r :: seen) t
  end.

(** SQLite's evaluation of [WITH RECURSIVE ... UNION ... LIMIT n]: take a
    row off the queue, add it to the result, queue the new rows of the
    recursive arm; stop once [limit] rows are in the result. *)
Fixpoint recursive_cte (limit : nat) (us : list User)
  (queue seen : list (Z * Z)) : list (Z * Z) :=
  match limit with
  | O => []
  | S n =>
      match queue with
      | [] => []
      | row :: q =>
          let new := fresh_rows seen (recursive_select us row) in
          row :: recursive_cte n us (q ++ new) (new ++ seen)
      end
  end.

(** [DatabasePermissionService.get_subordinates]. *)
Definition get_subordinates (db : Db) (user_id : Z) : list Z :=
  set_add user_id
    (to_set (map fst (recursive_cte (Z.to_nat 1000) (users db)
                        [(user_id, 0)] [(user_id, 0)]))).

(** [... JOIN users u ON x = u.id JOIN temp_subordinates ts ON u.id = ts.id]:
    the owner is a user and a subordinate. *)
Definition owned_by (db : Db) (subordinates : list Z) (owner : Z) : bool :=
  mem owner (map u_id (users db)) && mem owner subordinates.

(** [DatabasePermissionService.get_accessible_data_scope]. *)
Definition get_accessible_data_scope (db : Db) (user : User) : Scope :=
  if (u_role user =? "admin")%string then
    mkScope (to_set (take 100 (map u_id (users db))))
            (to_set (take 100 (map o_order_id (orders db))))
            (to_set (take 100 (map c_customer_id (customers db))))
            true
  else if (u_role user =? "supervisor")%string then
    let subordinates := get_subordinates db (u_id user) in
    mkScope subordinates
            (to_set (take 1000 (map o_order_id
               (filter (fun o => owned_by db subordinates (o_user_id o))
                       (orders db)))))
            (to_set (take 1000 (map c_customer_id
               (filter (fun c => owned_by db subordinates (c_admin_user_id c))
                       (customers db)))))
            false
  else if (u_role user =? "staff")%string then
    mkScope [u_id user]
            (to_set (take 10000 (map o_order_id
               (filter (fun o => o_user_id o =? u_id user)%Z (orders db)))))
            (to_set (take 10000 (map c_customer_id
               (filter (fun c => c_admin_user_id c =? u_id user)%Z
                       (customers db)))))
            false
  else mkScope [] [] [] false.

(** One chunk: [SELECT ... WHERE field IN (chunk) LIMIT 1000]. *)
Definition chunk_query (funds : list FinancialFund) (d : Dimension)
  (chunk : list Z) : list FinancialFund :=
  take 1000 (filter (fun f => mem (column d f) chunk) funds).

(** The body of [execute_chunked_query]: extend, then leave the loop once
    1000 rows are collected. *)
Fixpoint chunked_loop (funds : list FinancialFund) (d : Dimension)
  (batches : list (list Z)) (results : list FinancialFund)
  : list FinancialFund :=
  match batches with
  | [] => results
  | chunk :: rest =>
      let results' := results ++ chunk_query funds d chunk in
      if 1000 <=? len results' then results'
      else chunked_loop funds d rest results'
  end.

Definition execute_chunked_query (funds : list FinancialFund)
  (d : Dimension) (id_list : list Z) (max_chunk_size : Z)
  : list FinancialFund :=
  chunked_loop funds d (chunks max_chunk_size id_list) [].

Definition max_vars : Z := 500.

(** [if ids:] on a list. *)
Definition nonempty (ids : list Z) : bool :=
  match ids with [] => false | _ => true end.

(** The rows gathered for a user who is not an admin. *)
Definition gather (funds : list FinancialFund) (scope : Scope)
  : list FinancialFund :=
  let r1 :=
    if nonempty (sc_handle_by scope)
    then execute_chunked_query funds ByHandler (sc_handle_by scope) max_vars
    else [] in
  let r2 :=
    if (len r1 <? 1000) && nonempty (sc_order_ids scope)
    then r1 ++ execute_chunked_query funds ByOrder (sc_order_ids scope)
                 max_vars
    else r1 in
  if (len r2 <? 1000) && nonempty (sc_customer_ids scope)
  then r2 ++ execute_chunked_query funds ByCustomer (sc_customer_ids scope)
               max_vars
  else r2.

(** The final loop of [get_funds]: skip the fund ids already seen, stop at
    1000 funds. *)
Fixpoint collect_funds (rows : list FinancialFund) (seen_ids : list Z)
  (filtered_funds : list FinancialFund) : list FinancialFund :=
  match rows with
  | [] => filtered_funds
  | row :: rest =>
      if mem (fund_id row) seen_ids then
        collect_funds rest seen_ids filtered_funds
      else
        let filtered' := filtered_funds ++ [row] in
        if 1000 <=? len filtered' then filtered'
        else collect_funds rest (fund_id row :: seen_ids) filtered'
  end.

(** [DatabaseFinancialService.get_funds]. For an admin the funds are read
    through [idx_funds_handle_by], that is in handler order. *)
Definition get_funds (db : Db) (user : User) : list FinancialFund :=
  let scope := get_accessible_data_scope db user in
  let all_results :=
    if sc_is_admin scope
    then take 1000 (stable_sort handle_by false (financial_funds db))
    else gather (financial_funds db) scope in
  collect_funds (take 2000 (stable_sort fund_id false all_results)) [] [].

(** [DatabaseApiGateway.authenticate]: a user of the role among ids 1-4,
    else any user of the role, else user 1; [user_data[0]] on a missing
    user 1 raises. *)
Definition authenticate (db : Db) (role : string) : result User :=
  match find (fun u => (u_role u =? role)%string && (u_id u <=? 4)%Z) (users db) with
  | Some u => Ok u
  | None =>
      match find (fun u => (u_role u =? role)%string) (users db) with
      | Some u => Ok u
      | None =>
          match find (fun u => (u_id u =? 1)%Z) (users db) with
          | Some u => Ok u
          | None => Raise TypeError
          end
      end
  end.

(** [DatabaseApiGateway.get_funds]. *)
Definition gateway_get_funds (db : Db) (current_user : option User)
  : result (list FinancialFund) :=
  match current_user with
  | None => Raise LoginRequired
  | Some u => Ok (get_funds db u)
  end.

End Database.

(* ===================================================================== *)
(** * The MySQL schema shared by the pagination scripts *)
(* ===================================================================== *)

(** A row of [user_hierarchy]; its primary key is
    [(user_id, subordinate_id)]. *)
Record HierarchyEdge : Type := mkEdge {
  h_user_id : Z;
  h_subordinate_id : Z;
  h_depth : Z
}.

(** An element of the ["data"] list of a response: the fund with the name
    and department of its handler. *)
Record FundView : Type := mkView {
  v_fund : FinancialFund;
  v_handler_name : string;
  v_department : string
}.

Record Pagination : Type := mkPagination {
  page : Z;
  page_size : Z;
  total_count : Z;
  total_pages : Z;
  has_next : bool;
  has_prev : bool
}.

Record Response : Type := mkResponse {
  data : list FundView;
  pagination : Pagination
}.

(** What a service returns: the response dict, or [{"error": str(err)}]
    when a [mysql.connector.Error] was caught. *)
Inductive Reply : Type :=
| PageReply (r : Response)
| ErrorReply.

Module MySql.

Record Db : Type := mkDb {
  users : list User;
  user_hierarchy : list HierarchyEdge;
  orders : list Order;
  customers : list Customer;
  financial_funds : list FinancialFund
}.

(** [get_subordinate_ids], [get_order_ids_for_users] and
    [get_customer_ids_for_users]: the three scripts define them alike. *)
Definition get_subordinate_ids (db : Db) (supervisor_id : Z) : list Z :=
  map h_subordinate_id
      (filter (fun e => h_user_id e =? supervisor_id) (user_hierarchy db)).

Definition get_order_ids_for_users (db : Db) (user_ids : list Z) : list Z :=
  match user_ids with
  | [] => []
  | _ => map o_order_id
             (filter (fun o => mem (o_user_id o) user_ids) (orders db))
  end.

Definition get_customer_ids_for_users (db : Db) (user_ids : list Z)
  : list Z :=
  match user_ids with
  | [] => []
  | _ => map c_customer_id
             (filter (fun c => mem (c_admin_user_id c) user_ids)
                     (customers db))
  end.

(** [if supervisor_id not in subordinate_ids:
       subordinate_ids.append(supervisor_id)], after the hierarchy lookup. *)
Definition subordinates_with_self (db : Db) (supervisor_id : Z) : list Z :=
  let subordinate_ids := get_subordinate_ids db supervisor_id in
  if mem supervisor_id subordinate_ids then subordinate_ids
  else subordinate_ids ++ [supervisor_id].

(** [JOIN users u ON f.handle_by = u.id]: a fund whose handler is no user
    yields no row. *)
Definition join_users (us : list User) (rows : list FinancialFund)
  : list FundView :=
  flat_map (fun f =>
              match find (fun u => u_id u =? handle_by f) us with
              | Some u => [mkView f (u_name u) (u_department u)]
              | None => []
              end) rows.

(** [ORDER BY f.{sort_by} {sort_order}]: the text must name a column of
    [financial_funds] and a direction, or the statement fails. *)
Definition fund_column (sort_by : string) : option (FinancialFund -> Z) :=
  let s := upper sort_by in
  if (s =? "FUND_ID")%string then Some fund_id
  else if (s =? "HANDLE_BY")%string then Some handle_by
  else if (s =? "ORDER_ID")%string then Some order_id
  else if (s =? "CUSTOMER_ID")%string then Some customer_id
  else if (s =? "AMOUNT")%string then Some amount
  else None.

Definition sort_direction (sort_order : string) : option bool :=
  let s := upper sort_order in
  if (s =? "ASC")%string then Some false
  else if (s =? "DESC")%string then Some true
  else if (s =? "")%string then Some false
  else None.

Definition order_by {A : Type} (proj : A -> FinancialFund)
  (sort_by sort_order : string) (rows : list A) : result (list A) :=
  match fund_column sort_by, sort_direction sort_order with
  | Some col, Some reverse =>
      Ok (stable_sort (fun r => col (proj r)) reverse rows)
  | _, _ => Raise DatabaseError
  end.

(** [LIMIT n OFFSET m]: negative values are rejected by the server. *)
Definition limit_offset {A : Type} (limit offset : Z) (rows : list A)
  : result (list A) :=
  if (limit <? 0) || (offset <? 0) then Raise DatabaseError
  else Ok (firstn (Z.to_nat limit) (skipn (Z.to_nat offset) rows)).

(** The ["pagination"] entry every service computes the same way;
    [//] is floor division and raises on a zero divisor. *)
Definition make_pagination (page page_size total_count : Z)
  : result Pagination :=
  total_pages <-
    (if 0 <? total_count then
       if page_size =? 0 then Raise ZeroDivisionError
       else Ok ((total_count + page_size - 1) / page_size)
     else Ok 1) ;;
  Ok (mkPagination page page_size total_count total_pages
                   (page <? total_pages) (1 <? page)).

(** [except mysql.connector.Error as err: return {"error": str(err)}]. *)
Definition catch_database_error (r : result Reply) : result Reply :=
  match r with
  | Raise DatabaseError => Ok ErrorReply
  | other => other
  end.

End MySql.

(* ===================================================================== *)
(** * [accurate_pagination.py] *)
(* ===================================================================== *)

Module Accurate.
Import MySql.



Definition batch_size : Z := 1000.




End Accurate.

(* ===================================================================== *)
(** * [optimized_cursor_pagination.py] *)
(* ===================================================================== *)

Module Optimized.
Import MySql.

(** [estimate_total_count]. [COUNT( * )] returns one row, so its
    [LIMIT 10000] changes nothing. The float product
    [int(sample_count * (total_ids / sample_ids))] is taken here in exact
    arithmetic. *)
Definition estimate_total_count (db : Db)
  (handle_by_ids order_ids customer_ids : list Z) : Z :=
  let sample_size :=
    Z.min 100 (Z.min (len handle_by_ids)
                     (Z.min (len order_ids) (len customer_ids))) in
  if sample_size =? 0 then 0
  else
    let sample_handle_by := take sample_size handle_by_ids in
    let sample_order_ids := take sample_size order_ids in
    let sample_customer_ids := take sample_size customer_ids in
    let sample_count :=
      len (filter (in_scope sample_handle_by sample_order_ids
                            sample_customer_ids)
                  (financial_funds db)) in
    let total_ids := len handle_by_ids + len order_ids + len customer_ids in
    let sample_ids := len sample_handle_by + len sample_order_ids
                      + len sample_customer_ids in
    if 0 <? sample_ids then (sample_count * total_ids) / sample_ids else 0.

(** [ids[start_idx:end_idx] if start_idx < len(ids) else []]. *)
Definition batch_of (ids : list Z) (start_idx end_idx : Z) : list Z :=
  if start_idx <? len ids then py_slice ids start_idx end_idx else [].

(** [if not conditions]: the three batches are all empty. *)
Definition no_conditions (bh bo bc : list Z) : bool :=
  match bh, bo, bc with
  | [], [], [] => true
  | _, _, _ => false
  end.

(** The [for batch_idx in range(total_batches)] loop; its state is
    [all_results] and [current_offset]. The three id lists are cut at the
    same positions and their batches are joined by [OR] in one statement. *)
Fixpoint batch_loop (db : Db) (hs os cs : list Z) (batch_size : Z)
  (page_size offset : Z) (sort_by sort_order : string)
  (batch_idxs : list nat) (all_results : list FundView)
  (current_offset : Z) : result (list FundView) :=
  match batch_idxs with
  | [] => Ok all_results
  | batch_idx :: rest =>
      let start_idx := Z.of_nat batch_idx * batch_size in
      let end_idx := start_idx + batch_size in
      let bh := batch_of hs start_idx end_idx in
      let bo := batch_of os start_idx end_idx in
      let bc := batch_of cs start_idx end_idx in
      let continue := batch_loop db hs os cs batch_size page_size offset
                        sort_by sort_order rest in
      if no_conditions bh bo bc then continue all_results current_offset
      else
        let matching := filter (in_scope bh bo bc) (financial_funds db) in
        let batch_count := len matching in
        if (current_offset <? offset)
           && (current_offset + batch_count <=? offset)
        then continue all_results (current_offset + batch_count)
        else
          let skip_in_batch :=
            if current_offset <? offset then offset - current_offset
            else 0 in
          let current_offset' :=
            if current_offset <? offset then offset else current_offset in
          let remaining_needed := page_size - len all_results in
          if remaining_needed <=? 0 then Ok all_results
          else
            sorted <- order_by v_fund sort_by sort_order
                        (join_users (users db) matching) ;;
            batch_results <- limit_offset remaining_needed skip_in_batch
                               sorted ;;
            let all_results' := all_results ++ batch_results in
            if page_size <=? len all_results'
            then Ok (py_slice all_results' 0 page_size)
            else continue all_results' current_offset'
  end.

(** [get_financial_funds_optimized_pagination]. *)
Definition get_financial_funds_optimized_pagination (db : Db)
  (handle_by_ids order_ids customer_ids : list Z) (page page_size : Z)
  (sort_by sort_order : string) (estimate_total : bool)
  : result (list FundView * Z) :=
  let batch_size := if page <=? 10 then 500 else 1000 in
  let offset := (page - 1) * page_size in
  let total_count :=
    if (page =? 1) && estimate_total
    then estimate_total_count db handle_by_ids order_ids customer_ids
    else 0 in
  let max_ids := Z.max (len handle_by_ids)
                   (Z.max (len order_ids) (len customer_ids)) in
  let total_batches :=
    if 0 <? max_ids then (max_ids + batch_size - 1) / batch_size else 0 in
  all_results <- batch_loop db handle_by_ids order_ids customer_ids
                   batch_size page_size offset sort_by sort_order
                   (seq 0 (Z.to_nat total_batches)) [] 0 ;;
  Ok (all_results, total_count).

(** [smart_pagination_service]. *)
Definition smart_pagination_service (db : Db) (supervisor_id : Z)
  (page page_size : Z) (sort_by sort_order : string) : result Reply :=
  catch_database_error (
    let subordinate_ids := subordinates_with_self db supervisor_id in
    let order_ids := get_order_ids_for_users db subordinate_ids in
    let customer_ids := get_customer_ids_for_users db subordinate_ids in
    rc <- get_financial_funds_optimized_pagination db subordinate_ids
            order_ids customer_ids page page_size sort_by sort_order
            (page =? 1) ;;
    pg <- make_pagination page page_size (snd rc) ;;
    Ok (PageReply (mkResponse (fst rc) pg))).

End Optimized.

(* ===================================================================== *)
(** * [alternative_permission_with_pagination.py]: the [last_id] variant *)
(* ===================================================================== *)

Module Alternative.
Import MySql.

(** The [conditions] list: one [IN (...)] test per non-empty id list. *)
Definition conditions (handle_by_ids order_ids customer_ids : list Z)
  : list (FinancialFund -> bool) :=
  (match handle_by_ids with
   | [] => []
   | _ => [fun f => mem (handle_by f) handle_by_ids]
   end)
  ++ (match order_ids with
      | [] => []
      | _ => [fun f => mem (order_id f) order_ids]
      end)
  ++ (match customer_ids with
      | [] => []
      | _ => [fun f => mem (customer_id f) customer_ids]
      end).

(** [' OR '.join(conditions)], to which [" AND f.{sort_by} > %s"] is
    appended as text when a cursor is given. In SQL [AND] binds tighter
    than [OR], so the cursor test joins the last condition only. *)
Definition where_clause (conds : list (FinancialFund -> bool))
  (cursor : option (FinancialFund -> bool)) (f : FinancialFund) : bool :=
  match cursor with
  | None => existsb (fun c => c f) conds
  | Some after =>
      existsb (fun c => c f) (removelast conds)
      || (last conds (fun _ => false) f && after f)
  end.

(** [get_financial_funds_with_pagination_v3]. *)
Definition get_financial_funds_with_pagination_v3 (db : Db)
  (handle_by_ids order_ids customer_ids : list Z) (last_id page_size : Z)
  (sort_by sort_order : string) : result (list FundView * bool) :=
  match conditions handle_by_ids order_ids customer_ids with
  | [] => Ok ([], false)
  | conds =>
      match fund_column sort_by, sort_direction sort_order with
      | Some col, Some reverse =>
          let cursor :=
            if 0 <? last_id then
              Some (if (upper sort_order =? "ASC")%string
                    then fun f => last_id <? col f
                    else fun f => col f <? last_id)
            else None in
          let rows :=
            stable_sort (fun r => col (v_fund r)) reverse
              (join_users (users db)
                 (filter (where_clause conds cursor) (financial_funds db))) in
          results <- limit_offset (page_size + 1) 0 rows ;;
          let has_next := page_size <? Z.of_nat (length results) in
          Ok (if has_next then removelast results else results, has_next)
      | _, _ => Raise DatabaseError
      end
  end.

(** The caller's loop of the streaming scheme: ask for a page, and while
    it reports a next page, ask again with the sort key of the last row
    received. [fuel] bounds the number of requests. *)
Fixpoint stream_pages (fuel : nat) (db : Db)
  (handle_by_ids order_ids customer_ids : list Z) (last_id page_size : Z)
  (sort_by sort_order : string) : result (list FundView) :=
  match fuel with
  | O => OutOfFuel
  | S fuel' =>
      r <- get_financial_funds_with_pagination_v3 db handle_by_ids order_ids
             customer_ids last_id page_size sort_by sort_order ;;
      if snd r then
        match fund_column sort_by, rev (fst r) with
        | Some col, last_row :: _ =>
            rest <- stream_pages fuel' db handle_by_ids order_ids
                      customer_ids (col (v_fund last_row)) page_size
                      sort_by sort_order ;;
            Ok (fst r ++ rest)
        | _, _ => Raise TypeError
        end
      else Ok (fst r)
  end.

End Alternative.

(* ===================================================================== *)
(** * [high_concurrency_pagination.py] *)
(* ===================================================================== *)

Module HighConcurrency.
Import MySql.

(** The cached permission dict (its ["timestamp"] is left out). *)
Record Permissions : Type := mkPermissions {
  subordinate_ids : list Z;
  order_ids : list Z;
  customer_ids : list Z
}.

(** The permission cache, keyed by supervisor: the cache key
    ["finance_permission:{id}:permissions"] determines the id. *)
Definition Cache : Type := list (Z * Permissions).

(** [d[k] = v]. *)
Fixpoint dict_set {A : Type} (k : Z) (v : A) (d : list (Z * A))
  : list (Z * A) :=
  match d with
  | [] => [(k, v)]
  | (k', v') :: r =>
      if k =? k' then (k, v) :: r else (k', v') :: dict_set k v r
  end.

Definition query_permissions (db : Db) (supervisor_id : Z) : Permissions :=
  let subs := subordinates_with_self db supervisor_id in
  mkPermissions subs (get_order_ids_for_users db subs)
                (get_customer_ids_for_users db subs).

(** [get_user_permissions]: the cached value when there is one, else the
    queried one, which is then cached. *)
Definition get_user_permissions (cache : Cache) (db : Db)
  (supervisor_id : Z) : Permissions * Cache :=
  match lookup supervisor_id cache with
  | Some cached_permissions => (cached_permissions, cache)
  | None =>
      let permissions_data := query_permissions db supervisor_id in
      (permissions_data, dict_set supervisor_id permissions_data cache)
  end.

(** Which statements the server fails: the dimension and the parameters of
    a batch query on which [cursor.execute] raises. *)
Definition Faults : Type := Dimension -> list Z -> bool.

Definition no_fault : Faults := fun _ _ => false.

(** The loop of [execute_batch_query]. The first component is the list of
    the statements sent to the server, given by their parameters. *)
Fixpoint run_batches (faults : Faults) (funds : list FinancialFund)
  (d : Dimension) (batches : list (list Z)) (all_results : list FinancialFund)
  : list (list Z) * result (list FinancialFund) :=
  match batches with
  | [] => ([], Ok all_results)
  | batch_params :: rest =>
      if faults d batch_params then ([batch_params], Raise DatabaseError)
      else
        let batch_results :=
          filter (fun f => mem (column d f) batch_params) funds in
        let r := run_batches faults funds d rest
                   (all_results ++ batch_results) in
        (batch_params :: fst r, snd r)
  end.

(** [execute_batch_query(query, params, batch_size)]. *)
Definition execute_batch_query (faults : Faults) (db : Db) (d : Dimension)
  (params : list Z) (batch_size : Z)
  : list (list Z) * result (list FinancialFund) :=
  match params with
  | [] => ([], Ok [])
  | _ =>
      if batch_size =? 0 then ([], Raise ValueError)
      else if batch_size <? 0 then ([], Ok [])
      else run_batches faults (financial_funds db) d
             (chunks batch_size params) []
  end.

(** The futures submitted by [get_financial_funds_parallel]: one per
    non-empty id list, in this order. *)
Definition submit (faults : Faults) (db : Db) (d : Dimension)
  (ids : list Z) : list (result (list FinancialFund)) :=
  match ids with
  | [] => []
  | _ => [snd (execute_batch_query faults db d ids 1000)]
  end.

(** [for future in futures: try: all_funds.extend(future.result())
     except Exception: print(...)]. *)
Fixpoint gather_futures (futures : list (result (list FinancialFund)))
  (all_funds : list FinancialFund) : list FinancialFund :=
  match futures with
  | [] => all_funds
  | Ok results :: rest => gather_futures rest (all_funds ++ results)
  | _ :: rest => gather_futures rest all_funds
  end.

(** [get_financial_funds_parallel]. *)
Definition get_financial_funds_parallel (faults : Faults) (db : Db)
  (handle_by_ids order_ids customer_ids : list Z) : list FinancialFund :=
  let futures := submit faults db ByHandler handle_by_ids
                 ++ submit faults db ByOrder order_ids
                 ++ submit faults db ByCustomer customer_ids in
  unique_by fund_id [] (gather_futures futures []).

(** The sort key chosen from [sort_by]; any other text means [fund_id]. *)
Definition sort_key (sort_by : string) : FinancialFund -> Z :=
  if (sort_by =? "fund_id")%string then fund_id
  else if (sort_by =? "amount")%string then amount
  else if (sort_by =? "handle_by")%string then handle_by
  else fund_id.

(** [user_info.get(fund[1], {"name": "未知", "department": "未知"})]. *)
Definition with_handler (us : list User) (f : FinancialFund) : FundView :=
  match find (fun u => u_id u =? handle_by f) us with
  | Some u => mkView f (u_name u) (u_department u)
  | None => mkView f "未知" "未知"
  end.

(** [get_paginated_financial_data]; the timings of the response are left
    out. *)
Definition get_paginated_financial_data (cache : Cache) (faults : Faults)
  (db : Db) (supervisor_id : Z) (page page_size : Z)
  (sort_by sort_order : string) : result (Response * Cache) :=
  let pc := get_user_permissions cache db supervisor_id in
  let permissions := fst pc in
  let all_funds :=
    stable_sort (sort_key sort_by) (upper sort_order =? "DESC")%string
      (get_financial_funds_parallel faults db (subordinate_ids permissions)
         (order_ids permissions) (customer_ids permissions)) in
  let total_count := Z.of_nat (length all_funds) in
  let start_idx := (page - 1) * page_size in
  let end_idx := start_idx + page_size in
  let page_funds := py_slice all_funds start_idx end_idx in
  let fund_data := map (with_handler (users db)) page_funds in
  pg <- make_pagination page page_size total_count ;;
  Ok (mkResponse fund_data pg, snd pc).

(** The caller's loop over the pages: request [page], and while the
    response reports a next page, request the following one. [fuel] bounds
    the number of requests; the cache is carried from call to call. *)
Fixpoint all_pages (fuel : nat) (cache : Cache) (faults : Faults) (db : Db)
  (supervisor_id : Z) (page page_size : Z) (sort_by sort_order : string)
  : result (list FundView) :=
  match fuel with
  | O => OutOfFuel
  | S fuel' =>
      rc <- get_paginated_financial_data cache faults db supervisor_id
              page page_size sort_by sort_order ;;
      if has_next (pagination (fst rc)) then
        rest <- all_pages fuel' (snd rc) faults db supervisor_id (page + 1)
                  page_size sort_by sort_order ;;
        Ok (data (fst rc) ++ rest)
      else Ok (data (fst rc))
  end.

End HighConcurrency.

(* ===================================================================== *)
(** * [database.py]: the user lookups *)
(* ===================================================================== *)

Module DatabaseUsers.

(** [get_user]: the first row of [SELECT ... WHERE id = ?], or [None]. *)
Definition get_user (db : Database.Db) (user_id : Z) : option User :=
  find (fun u => u_id u =? user_id) (Database.users db).

(** [get_users]: the dict built row by row, [users[row[0]] = User(...)]. *)
Definition get_users (db : Database.Db) : list (Z * User) :=
  fold_left (fun users u => HighConcurrency.dict_set (u_id u) u users)
            (Database.users db) [].

End DatabaseUsers.

(* ===================================================================== *)
(** * [alternative_permission_with_pagination.py]: the counted variants *)
(* ===================================================================== *)

Module AlternativeCounted.
Import MySql Alternative.







(** [get_financial_funds_with_pagination_v2]: the count is [COUNT( * )]
    over the [OR] of the conditions. *)
Definition get_financial_funds_with_pagination_v2 (db : Db)
  (handle_by_ids order_ids customer_ids : list Z) (page page_size : Z)
  (sort_by sort_order : string) : result (list FundView * Z) :=
  match conditions handle_by_ids order_ids customer_ids with
  | [] => Ok ([], 0)
  | conds =>
      let matching := filter (where_clause conds None) (financial_funds db) in
      let total_count := len matching in
      let offset := (page - 1) * page_size in
      sorted <- order_by v_fund sort_by sort_order
                  (join_users (users db) matching) ;;
      results <- limit_offset page_size offset sorted ;;
      Ok (results, total_count)
  end.

End AlternativeCounted.

(* ===================================================================== *)
(** * [high_concurrency_pagination.py]: the connection pool *)
(* ===================================================================== *)

Module Pool.

(** A connection: its identity and what [is_connected()] answers when it
    is handed back. *)
Record Connection : Type := mkConnection {
  conn_id : nat;
  is_connected : bool
}.

(** [ConnectionPool]; [opened] counts the calls of
    [mysql.connector.connect] so far and names the next connection. *)
Record ConnectionPool : Type := mkPool {
  pool_size : Z;
  pool : list Connection;
  opened : nat
}.

(** [__init__] with [_create_pool]: [pool_size] connections are opened. *)
Definition create_pool (size : Z) : ConnectionPool :=
  mkPool size
         (map (fun i => mkConnection i true) (seq 0 (Z.to_nat size)))
         (Z.to_nat size).

(** [get_connection]: [self.pool.pop()], or a new connection when the
    pool is empty. *)
Definition get_connection (p : ConnectionPool)
  : Connection * ConnectionPool :=
  match pool p with
  | [] => (mkConnection (opened p) true,
           mkPool (pool_size p) [] (S (opened p)))
  | _ => (last (pool p) (mkConnection 0 false),
          mkPool (pool_size p) (removelast (pool p)) (opened p))
  end.

(** [return_connection]: the connection goes back when there is room and
    it is connected, else it is closed. *)
Definition return_connection (p : ConnectionPool) (conn : Connection)
  : ConnectionPool :=
  if (len (pool p) <? pool_size p) && is_connected conn
  then mkPool (pool_size p) (pool p ++ [conn]) (opened p)
  else p.

(** What a caller does with the pool. *)
Inductive PoolOp : Type :=
| Get
| Return (conn : Connection).

Definition step (p : ConnectionPool) (op : PoolOp) : ConnectionPool :=
  match op with
  | Get => snd (get_connection p)
  | Return conn => return_connection p conn
  end.

End Pool.

(* ===================================================================== *)
(** * Tables used in the statements *)
(* ===================================================================== *)

Module Tables.
Import Main.

(** A rank that strictly decreases from every user to the users that name
    it as parent: the table has no cycle of [parent_id] references. *)
Definition ranked (rank : Z -> nat) (us : list (Z * User)) : bool :=
  forallb (fun p => match u_parent_id (snd p) with
                    | Some parent => (rank (fst p) <? rank parent)%nat
                    | None => true
                    end) us.

(** Two users that name each other as parent. *)
Definition cyclic_service : PermissionService :=
  mkService [ (1, mkUser 1 "a" "supervisor" "d" (Some 2));
              (2, mkUser 2 "b" "staff" "d" (Some 1)) ] [] [] [].

(** A user that is its own parent. *)
Definition self_parent_service : PermissionService :=
  mkService [ (5, mkUser 5 "e" "supervisor" "d" (Some 5)) ] [] [] [].

(** The rank of the four users of [main.py]: the admin above the
    supervisor above the staff. *)
Definition init_rank (k : Z) : nat :=
  if k =? 1 then 3%nat else if k =? 2 then 2%nat else 1%nat.


(** The same two users, as rows of the SQLite [users] table. *)
Definition cyclic_db : Database.Db :=
  Database.mkDb [ mkUser 1 "a" "supervisor" "d" (Some 2);
                  mkUser 2 "b" "staff" "d" (Some 1) ] [] [] [].

(** The scenario of the specification: supervisor U = 10 with subordinates
    A = 11 and B = 12, an outsider X = 99; A owns order 201, B administers
    customer 301; fund 1 is handled by A, fund 2 belongs to order 201,
    fund 3 to customer 301, fund 4 to nobody of the scope. *)
Definition scenario_users : list User :=
  [ mkUser 10 "U" "supervisor" "east" None;
    mkUser 11 "A" "staff" "east" (Some 10);
    mkUser 12 "B" "staff" "east" (Some 10);
    mkUser 99 "X" "staff" "south" None ].

Definition scenario_orders : list Order :=
  [ mkOrder 201 11; mkOrder 202 99 ].

Definition scenario_customers : list Customer :=
  [ mkCustomer 301 12; mkCustomer 302 99 ].

Definition F1 : FinancialFund := mkFund 1 11 202 302 500.
Definition F2 : FinancialFund := mkFund 2 99 201 302 500.
Definition F3 : FinancialFund := mkFund 3 99 202 301 700.
Definition F4 : FinancialFund := mkFund 4 99 202 302 900.

Definition scenario_service : Main.PermissionService :=
  mkService (map (fun u => (u_id u, u)) scenario_users)
            [F1; F2; F3; F4]
            (map (fun o => (o_order_id o, o)) scenario_orders)
            (map (fun c => (c_customer_id c, c)) scenario_customers).

Definition scenario_db : MySql.Db :=
  MySql.mkDb scenario_users
    [ mkEdge 10 10 0; mkEdge 10 11 1; mkEdge 10 12 1;
      mkEdge 11 11 0; mkEdge 12 12 0; mkEdge 99 99 0 ]
    scenario_orders scenario_customers [F1; F2; F3; F4].

(** A server on which every statement of the order dimension fails. *)
Definition order_fault : HighConcurrency.Faults :=
  fun d _ => match d with ByOrder => true | _ => false end.



(** Every cached permission dict is the one the tables give: the cache
    was filled from the present data. *)
Definition cache_consistent (cache : HighConcurrency.Cache) (db : MySql.Db)
  : Prop :=
  forall k p,
    lookup k cache = Some p -> p = HighConcurrency.query_permissions db k.

(** The sorted, deduplicated rows a request works on. *)
Definition sorted_funds (faults : HighConcurrency.Faults) (db : MySql.Db) (supervisor_id : Z)
  (sort_by sort_order : string) : list FinancialFund :=
  let p := HighConcurrency.query_permissions db supervisor_id in
  stable_sort (HighConcurrency.sort_key sort_by) (upper sort_order =? "DESC")%string
    (HighConcurrency.get_financial_funds_parallel faults db
       (HighConcurrency.subordinate_ids p) (HighConcurrency.order_ids p)
       (HighConcurrency.customer_ids p)).

(** The number of pages of [n] rows. *)
Definition pages_of (n page_size : Z) : Z :=
  if 0 <? n then (n + page_size - 1) / page_size else 1.

(** A staff user with 1001 funds of his own. *)
Definition staff_3 : User := mkUser 3 "s" "staff" "d" None.

Definition busy_db : Database.Db :=
  Database.mkDb [staff_3] [] []
    (map (fun i => mkFund (Z.of_nat i) 3 0 0 0) (seq 1 1001)).

(** The number of rows of the table a dimension query matches. *)
Definition matching (funds : list FinancialFund) (d : Dimension)
  (ids : list Z) : Z :=
  len (filter (fun f => mem (column d f) ids) funds).

(** The rows of the table the batches of a dimension match, batch after
    batch. *)
Definition rows_of (funds : list FinancialFund) (d : Dimension)
  (batches : list (list Z)) : list FinancialFund :=
  flat_map (fun b => filter (fun f => mem (column d f) b) funds) batches.

(** The scenario, as SQLite tables. *)
Definition scenario_sqlite : Database.Db :=
  Database.mkDb scenario_users scenario_orders scenario_customers
    [F1; F2; F3; F4].

Definition user_U : User := mkUser 10 "U" "supervisor" "east" None.

(** One handler, two funds of equal amount and a third one. *)
Definition G1 : FinancialFund := mkFund 1 11 0 0 500.
Definition G2 : FinancialFund := mkFund 2 11 0 0 500.
Definition G3 : FinancialFund := mkFund 3 11 0 0 700.

Definition tie_db : MySql.Db :=
  MySql.mkDb [mkUser 11 "A" "staff" "east" None] [mkEdge 11 11 0] [] []
    [G1; G2; G3].

(** The rows the streaming scheme is to visit: the funds of the scope,
    joined with their handlers. *)
Definition qualifying (db : MySql.Db) (hs os cs : list Z) : list FundView :=
  MySql.join_users (MySql.users db)
    (filter (in_scope hs os cs) (MySql.financial_funds db)).

(** [k] is [root] or a user below it: [descends us root k] follows the
    [parent_id] references of the dict from [k] up to [root]. *)
Inductive descends (us : list (Z * User)) (root : Z) : Z -> Prop :=
| descends_self : descends us root root
| descends_child (p k : Z) (u : User) :
    descends us root p -> In (k, u) us -> u_parent_id u = Some p ->
    descends us root k.


(** Every user is filed under its own id. *)
Definition keyed_by_id (us : list (Z * User)) : bool :=
  forallb (fun p => fst p =? u_id (snd p)) us.


(** What holds at every turn of the loop: stack and set hold the root or
    users below it only, the root is among them, and the children of a
    user of the set are in the set or still on the stack. *)
Definition loop_invariant (us : list (Z * User)) (root : Z)
  (stack subs : list Z) : Prop :=
  (forall x, In x stack \/ In x subs -> descends us root x)
  /\ (In root stack \/ In root subs)
  /\ (forall p c, In p subs -> In c (children us p) ->
                  In c subs \/ In c stack).


(** [k] stands [d] levels below [root] in the SQLite [users] table: [d]
    [parent_id] references lead from [k] up to [root]. *)
Inductive at_depth (us : list User) (root : Z) : Z -> Z -> Prop :=
| at_depth_root : at_depth us root root 0
| at_depth_child (p d : Z) (u : User) :
    at_depth us root p d -> In u us -> u_parent_id u = Some p ->
    at_depth us root (u_id u) (d + 1).

(** A chain of six users, each the parent of the next. *)
Definition chain_db : Database.Db :=
  Database.mkDb
    [ mkUser 1 "a" "supervisor" "d" None;
      mkUser 2 "b" "supervisor" "d" (Some 1);
      mkUser 3 "c" "supervisor" "d" (Some 2);
      mkUser 4 "d" "supervisor" "d" (Some 3);
      mkUser 5 "e" "staff" "d" (Some 4);
      mkUser 6 "f" "staff" "d" (Some 5) ] [] [] [].

(** A row [(id, depth)] of the recursive query that is at most three
    levels down. *)
Definition shallow (us : list User) (root : Z) (row : Z * Z) : Prop :=
  0 <= snd row <= 3 /\ at_depth us root (fst row) (snd row).


(** The sorted, deduplicated rows a request works on, for the permissions
    it was given. *)
Definition request_funds (faults : HighConcurrency.Faults) (db : MySql.Db)
  (p : HighConcurrency.Permissions) (sort_by sort_order : string)
  : list FinancialFund :=
  stable_sort (HighConcurrency.sort_key sort_by)
    (upper sort_order =? "DESC")%string
    (HighConcurrency.get_financial_funds_parallel faults db
       (HighConcurrency.subordinate_ids p) (HighConcurrency.order_ids p)
       (HighConcurrency.customer_ids p)).

(** A pool within its size that holds connected connections only. *)
Definition bounded (p : Pool.ConnectionPool) : Prop :=
  len (Pool.pool p) <= Pool.pool_size p
  /\ Forall (fun c => Pool.is_connected c = true) (Pool.pool p).

End Tables.

(* ===================================================================== *)
(** * Facts about the Python helpers *)
(* ===================================================================== *)

Section ListFacts.

Lemma mem_In (x : Z) (s : list Z) : mem x s = true <-> In x s.
Proof.
  unfold mem. rewrite existsb_exists. split.
  - intros [y [Hy Heq]]. apply Z.eqb_eq in Heq. now subst.
  - intro H. exists x. split; [assumption | apply Z.eqb_refl].
Qed.

Lemma mem_false (x : Z) (s : list Z) : mem x s = false <-> ~ In x s.
Proof.
  rewrite <- mem_In. destruct (mem x s); split; congruence.
Qed.

Lemma mem_app (x : Z) (a b : list Z) : mem x (a ++ b) = mem x a || mem x b.
Proof. unfold mem. apply existsb_app. Qed.

Lemma set_add_In (x y : Z) (s : list Z) :
  In y (set_add x s) <-> y = x \/ In y s.
Proof.
  unfold set_add. destruct (mem x s) eqn:E.
  - apply mem_In in E. split; [now right | intros [-> | H]; assumption].
  - rewrite in_app_iff. simpl. intuition.
Qed.

Lemma set_add_NoDup (x : Z) (s : list Z) : NoDup s -> NoDup (set_add x s).
Proof.
  intro H. unfold set_add. destruct (mem x s) eqn:E; [assumption |].
  apply mem_false in E.
  apply NoDup_rev in H. rewrite <- (rev_involutive (s ++ [x])).
  apply NoDup_rev. rewrite rev_app_distr. simpl. constructor.
  - now rewrite <- in_rev.
  - assumption.
Qed.

Variable A : Type.
Variable key : A -> Z.

Lemma unique_by_incl (seen : list Z) (l : list A) (x : A) :
  In x (unique_by key seen l) -> In x l /\ ~ In (key x) seen.
Proof.
  revert seen. induction l as [| a l IH]; intros seen H; simpl in *.
  - contradiction.
  - destruct (mem (key a) seen) eqn:E.
    + apply IH in H. intuition.
    + destruct H as [-> | H].
      * split; [now left | now apply mem_false].
      * apply IH in H. simpl in H. intuition.
Qed.

Lemma unique_by_keys (seen : list Z) (l : list A) (k : Z) :
  In k (map key (unique_by key seen l)) <->
  In k (map key l) /\ ~ In k seen.
Proof.
  revert seen. induction l as [| a l IH]; intro seen; simpl.
  - intuition.
  - destruct (mem (key a) seen) eqn:E.
    + rewrite IH. apply mem_In in E. split.
      * intuition.
      * intros [[<- | H] Hn]; [contradiction | now split].
    + apply mem_false in E. simpl. rewrite IH. simpl. split.
      * intros [<- | [H Hn]]; [now split; [left |] |]. split; [now right |].
        intro; apply Hn; now right.
      * intros [[<- | H] Hn]; [now left |].
        destruct (Z.eq_dec (key a) k) as [-> | Hne]; [now left | right].
        split; [assumption |]. intros [? | ?]; contradiction.
Qed.

Lemma unique_by_NoDup (seen : list Z) (l : list A) :
  NoDup (map key (unique_by key seen l)).
Proof.
  revert seen. induction l as [| a l IH]; intro seen; simpl.
  - constructor.
  - destruct (mem (key a) seen); [apply IH |].
    simpl. constructor; [| apply IH].
    rewrite unique_by_keys. simpl. intuition.
Qed.

(** When the rows already have distinct keys nothing but the [seen] keys
    is dropped. *)
Lemma unique_by_filter (seen : list Z) (l : list A) :
  NoDup (map key l) ->
  unique_by key seen l = filter (fun x => negb (mem (key x) seen)) l.
Proof.
  revert seen. induction l as [| a l IH]; intros seen H; simpl.
  - reflexivity.
  - inversion H as [| ? ? Hn Hl]; subst.
    destruct (mem (key a) seen) eqn:E; simpl.
    + now apply IH.
    + f_equal. rewrite (IH _ Hl). apply filter_ext_in.
      intros x Hx. simpl.
      destruct (key x =? key a) eqn:Ek; [| reflexivity].
      apply Z.eqb_eq in Ek. exfalso. apply Hn. rewrite <- Ek.
      now apply in_map.
Qed.

Lemma unique_by_In (seen : list Z) (l : list A) (x : A) :
  NoDup (map key l) ->
  (In x (unique_by key seen l) <-> In x l /\ ~ In (key x) seen).
Proof.
  intro H. rewrite (unique_by_filter _ _ H), filter_In.
  rewrite negb_true_iff, mem_false. reflexivity.
Qed.


Lemma NoDup_map_filter (p : A -> bool) (l : list A) :
  NoDup (map key l) -> NoDup (map key (filter p l)).
Proof.
  induction l as [| a l IH]; intro H; simpl; [constructor |].
  simpl in H. inversion H as [| ? ? Hn Hl]; subst.
  destruct (p a); [| now apply IH]. simpl. constructor; [| now apply IH].
  intro Hin. apply Hn. apply in_map_iff in Hin.
  destruct Hin as [y [Hy Hin]]. apply filter_In in Hin.
  rewrite <- Hy. apply in_map. tauto.
Qed.

End ListFacts.

Lemma distinct_NoDup (l : list Z) : distinct l = true <-> NoDup l.
Proof.
  induction l as [| x r IH]; simpl.
  - split; [constructor | reflexivity].
  - rewrite andb_true_iff, negb_true_iff, mem_false, IH. split.
    + intros [H1 H2]. now constructor.
    + intro H. inversion H. now split.
Qed.

Lemma to_set_In (x : Z) (l : list Z) : In x (to_set l) <-> In x l.
Proof.
  unfold to_set.
  pose proof (unique_by_keys Z (fun x => x) [] l x) as H.
  rewrite !map_id in H. rewrite H. simpl. tauto.
Qed.

Lemma to_set_NoDup (l : list Z) : NoDup (to_set l).
Proof.
  unfold to_set. pose proof (unique_by_NoDup Z (fun x => x) [] l) as H.
  now rewrite map_id in H.
Qed.

(* ===================================================================== *)
(** * [main.py]: the subordinate traversal *)
(* ===================================================================== *)

Module MainFacts.
Import Main Tables.

(** One turn of the loop on a stack whose top is [x]. *)
Lemma subordinates_loop_step (fuel : nat) (us : list (Z * User))
  (rest : list Z) (x : Z) (subs : list Z) :
  subordinates_loop (S fuel) us (rest ++ [x]) subs =
  subordinates_loop fuel us (rest ++ children us x) (set_add x subs).
Proof.
  simpl. destruct (rest ++ [x]) eqn:E.
  - now destruct rest.
  - rewrite <- E. now rewrite last_last, removelast_last.
Qed.

(** The set under construction only grows. *)
Lemma subordinates_loop_grows (fuel : nat) (us : list (Z * User)) :
  forall stack subs r,
    subordinates_loop fuel us stack subs = Ok r -> incl subs r.
Proof.
  induction fuel as [| fuel IH]; intros stack subs r H; simpl in H.
  - discriminate.
  - destruct stack as [| a stack'].
    + injection H as <-. apply incl_refl.
    + apply IH in H. intros y Hy. apply H. apply set_add_In. now right.
Qed.

(** Whatever the table, a returned set holds the user asked for. *)
Lemma get_subordinates_self (fuel : nat) (svc : PermissionService)
  (user_id : Z) (r : list Z) :
  get_subordinates fuel svc user_id = Ok r -> In user_id r.
Proof.
  unfold get_subordinates. destruct fuel as [| fuel]; [discriminate |].
  change [user_id] with ([] ++ [user_id]).
  rewrite subordinates_loop_step. intro H.
  apply subordinates_loop_grows in H. apply H. apply set_add_In. now left.
Qed.

Lemma children_rank (rank : Z -> nat) (us : list (Z * User)) (x c : Z) :
  ranked rank us = true -> In c (children us x) -> (rank c < rank x)%nat.
Proof.
  unfold ranked, children. rewrite forallb_forall. intros Hr Hc.
  apply in_map_iff in Hc. destruct Hc as [[k u] [<- Hin]].
  apply filter_In in Hin. destruct Hin as [Hin Hp]. simpl in *.
  specialize (Hr _ Hin). simpl in Hr.
  destruct (u_parent_id u) as [parent |]; simpl in Hp; [| discriminate].
  apply Z.eqb_eq in Hp. subst. now apply Nat.ltb_lt.
Qed.

(** The segment of the stack above [pre] is worked off completely, in a
    bounded number of turns, before [pre] is touched. *)
Lemma subordinates_loop_segment (rank : Z -> nat) (us : list (Z * User)) :
  ranked rank us = true ->
  forall n stack,
    (forall x, In x stack -> (rank x < n)%nat) ->
    forall pre subs,
    exists fuel subs',
      forall extra,
        subordinates_loop (fuel + extra) us (pre ++ stack) subs =
        subordinates_loop extra us pre subs'.
Proof.
  intro Hr. induction n as [| n IHn]; intros stack.
  - intros Hlt pre subs. destruct stack as [| x stack'].
    + exists 0%nat, subs. intro extra. now rewrite app_nil_r.
    + exfalso. specialize (Hlt x (or_introl eq_refl)). lia.
  - induction stack as [| x s IHs] using rev_ind; intros Hlt pre subs.
    + exists 0%nat, subs. intro extra. now rewrite app_nil_r.
    + assert (Hc : forall c, In c (children us x) -> (rank c < n)%nat).
      { intros c Hin. pose proof (children_rank rank us x c Hr Hin).
        assert (rank x < S n)%nat
          by (apply Hlt; apply in_or_app; right; now left).
        lia. }
      destruct (IHn (children us x) Hc (pre ++ s) (set_add x subs))
        as [f1 [subs1 H1]].
      assert (Hs : forall y, In y s -> (rank y < S n)%nat)
        by (intros y Hy; apply Hlt; apply in_or_app; now left).
      destruct (IHs Hs pre subs1) as [f2 [subs2 H2]].
      exists (S (f1 + f2)), subs2. intro extra.
      rewrite app_assoc. simpl Nat.add.
      rewrite subordinates_loop_step, <- Nat.add_assoc, H1. apply H2.
Qed.

Lemma traversal_terminates (rank : Z -> nat)
  (svc : PermissionService) (user_id : Z) :
  ranked rank (users svc) = true ->
  exists fuel r, get_subordinates fuel svc user_id = Ok r.
Proof.
  intro Hr.
  destruct (subordinates_loop_segment rank (users svc) Hr
              (S (rank user_id)) [user_id]) with (pre := @nil Z)
              (subs := @nil Z) as [fuel [r H]].
  - intros x [<- | []]. lia.
  - exists (fuel + 1)%nat, r. unfold get_subordinates.
    simpl app in H. rewrite (H 1%nat). reflexivity.
Qed.

Lemma cyclic_loop_runs_on (fuel : nat) :
  forall rest x subs,
    x = 1 \/ x = 2 ->
    subordinates_loop fuel (users cyclic_service) (rest ++ [x]) subs
    = OutOfFuel.
Proof.
  induction fuel as [| fuel IH]; intros rest x subs Hx; [reflexivity |].
  rewrite subordinates_loop_step.
  destruct Hx as [-> | ->]; simpl children.
  - apply IH. now right.
  - apply IH. now left.
Qed.

Lemma self_parent_loop_runs_on (fuel : nat) :
  forall rest subs,
    subordinates_loop fuel (users self_parent_service) (rest ++ [5]) subs
    = OutOfFuel.
Proof.
  induction fuel as [| fuel IH]; intros rest subs; [reflexivity |].
  rewrite subordinates_loop_step. simpl children. apply IH.
Qed.

End MainFacts.

(* ===================================================================== *)
(** * [database.py] and the hierarchy table: subordinates *)
(* ===================================================================== *)

Module SubordinateFacts.

Lemma unique_by_length {A : Type} (key : A -> Z) (seen : list Z)
  (l : list A) : (length (unique_by key seen l) <= length l)%nat.
Proof.
  revert seen. induction l as [| a l IH]; intro seen; simpl; [lia |].
  destruct (mem (key a) seen); simpl.
  - specialize (IH seen). lia.
  - specialize (IH (key a :: seen)). lia.
Qed.

Lemma recursive_cte_length (limit : nat) (us : list User) :
  forall queue seen,
    (length (Database.recursive_cte limit us queue seen) <= limit)%nat.
Proof.
  induction limit as [| n IH]; intros queue seen; simpl; [lia |].
  destruct queue as [| row q]; simpl; [lia |].
  specialize (IH (q ++ Database.fresh_rows seen
                          (Database.recursive_select us row))
                 (Database.fresh_rows seen
                    (Database.recursive_select us row) ++ seen)).
  lia.
Qed.

Lemma database_subordinates_self (db : Database.Db) (user_id : Z) :
  In user_id (Database.get_subordinates db user_id).
Proof. unfold Database.get_subordinates. apply set_add_In. now left. Qed.

Lemma set_add_to_set_length (x : Z) (l : list Z) :
  (length (set_add x (to_set l)) <= S (length l))%nat.
Proof.
  unfold set_add, to_set.
  pose proof (unique_by_length (fun y => y) [] l) as H.
  destruct (mem x (unique_by (fun y => y) [] l)).
  - lia.
  - rewrite length_app. simpl length. lia.
Qed.

Lemma database_subordinates_bounded (db : Database.Db) (user_id : Z) :
  len (Database.get_subordinates db user_id) <= 1001.
Proof.
  unfold Database.get_subordinates, len.
  pose proof (recursive_cte_length (Z.to_nat 1000) (Database.users db)
                [(user_id, 0)] [(user_id, 0)]) as H.
  revert H.
  generalize (Database.recursive_cte (Z.to_nat 1000) (Database.users db)
                [(user_id, 0)] [(user_id, 0)]).
  intros rows H.
  pose proof (set_add_to_set_length user_id (map fst rows)) as H'.
  rewrite length_map in H'. lia.
Qed.

Lemma subordinates_with_self_In (db : MySql.Db) (supervisor_id : Z) :
  In supervisor_id (MySql.subordinates_with_self db supervisor_id).
Proof.
  unfold MySql.subordinates_with_self.
  destruct (mem supervisor_id (MySql.get_subordinate_ids db supervisor_id))
    eqn:E.
  - now apply mem_In.
  - apply in_or_app. right. now left.
Qed.

End SubordinateFacts.

(* ===================================================================== *)
(** * Resolution of subordinates *)
(* ===================================================================== *)

Module Resolution.
Import Tables MainFacts SubordinateFacts.

(** C3, as stated, fails on the in-memory traversal: for the user that is
    its own parent, no number of turns makes [get_subordinates] return a
    set, so it returns no set that contains the user. *)
Lemma get_subordinates_self_parent_no_result :
  ~ exists fuel r,
      Main.get_subordinates fuel self_parent_service 5 = Ok r /\ In 5 r.
Proof.
  intros [fuel [r [H _]]]. unfold Main.get_subordinates in H.
  change [5] with ([] ++ [5]) in H.
  rewrite self_parent_loop_runs_on in H. discriminate.
Qed.

(** C3 (amended): the resolved set contains the user asked for.  The lookup
    in [user_hierarchy] followed by the append of the supervisor, and the
    SQLite query, return such a set for every table; the in-memory
    traversal returns one for every table without a cycle of [parent_id]
    references, and whenever it returns, the set contains the user. *)
Theorem resolve_contains_self :
  (forall (db : MySql.Db) (supervisor_id : Z),
      In supervisor_id (MySql.subordinates_with_self db supervisor_id))
  /\ (forall (db : Database.Db) (user_id : Z),
         In user_id (Database.get_subordinates db user_id))
  /\ (forall (svc : Main.PermissionService) (user_id : Z) (fuel : nat)
             (r : list Z),
         Main.get_subordinates fuel svc user_id = Ok r -> In user_id r)
  /\ (forall (rank : Z -> nat) (svc : Main.PermissionService) (user_id : Z),
         ranked rank (Main.users svc) = true ->
         exists fuel r,
           Main.get_subordinates fuel svc user_id = Ok r /\ In user_id r).
Proof.
  split; [exact subordinates_with_self_In |].
  split; [exact database_subordinates_self |].
  split; [intros svc user_id fuel r; apply get_subordinates_self |].
  intros rank svc user_id Hr.
  destruct (traversal_terminates rank svc user_id Hr) as [fuel [r H]].
  exists fuel, r. split; [assumption |].
  eapply get_subordinates_self; eassumption.
Qed.

Lemma resolve_contains_self_witness :
  ranked init_rank (Main.users Main.init) = true
  /\ exists fuel r,
       Main.get_subordinates fuel Main.init 2 = Ok r /\ In 2 r.
Proof.
  split; [reflexivity |].
  destruct resolve_contains_self as [_ [_ [_ H]]].
  apply (H init_rank Main.init 2). reflexivity.
Defined.

(** C4, as stated, fails: on the table of two users that are each other's
    parent the traversal is still running after any number of turns. *)
Lemma get_subordinates_cycle_never_returns :
  ~ exists fuel,
      Main.get_subordinates fuel cyclic_service 1 <> OutOfFuel.
Proof.
  intros [fuel H]. apply H. unfold Main.get_subordinates.
  change [1] with ([] ++ [1]). apply cyclic_loop_runs_on. now left.
Qed.

(** C4 (amended): the in-memory traversal, which keeps no visited set,
    terminates with a result on every user table whose [parent_id]
    references form no cycle; the SQLite query returns on every table,
    cyclic or not, with at most 1000 rows of the recursion and the user;
    on the two users that are each other's parent it returns both. *)
Theorem get_subordinates_terminates_without_cycle :
  (forall (rank : Z -> nat) (svc : Main.PermissionService) (user_id : Z),
      ranked rank (Main.users svc) = true ->
      exists fuel r, Main.get_subordinates fuel svc user_id = Ok r)
  /\ (forall (db : Database.Db) (user_id : Z),
         len (Database.get_subordinates db user_id) <= 1001)
  /\ Database.get_subordinates cyclic_db 1 = [1; 2].
Proof.
  split; [exact traversal_terminates |].
  split; [exact database_subordinates_bounded |].
  vm_compute. reflexivity.
Qed.

Lemma get_subordinates_terminates_without_cycle_witness :
  ranked init_rank (Main.users Main.init) = true
  /\ exists fuel r, Main.get_subordinates fuel Main.init 1 = Ok r.
Proof.
  split; [reflexivity |].
  apply (proj1 get_subordinates_terminates_without_cycle init_rank
               Main.init 1).
  reflexivity.
Defined.

End Resolution.

(* ===================================================================== *)
(** * Authentication fallback *)
(* ===================================================================== *)

Module Gateway.

Lemma find_none_of_forallb {A : Type} (p : A -> bool) (l : list A) :
  forallb (fun x => negb (p x)) l = true -> find p l = None.
Proof.
  induction l as [| a l IH]; simpl; [reflexivity |].
  destruct (p a); simpl; [discriminate | exact IH].
Qed.

Lemma find_weaken {A : Type} (p q : A -> bool) (l : list A) :
  find p l = None -> find (fun x => p x && q x) l = None.
Proof.
  induction l as [| a l IH]; simpl; [reflexivity |].
  destruct (p a); simpl; [discriminate | exact IH].
Qed.

(** C10: when no user has the role asked for, [authenticate] makes user 1
    the current user, in [main.py] and in [database.py]; with user 1 an
    admin, the funds are then read with the admin scope: every user, order
    and customer id in [main.py], the [is_admin] mark in [database.py].
    On the table of [main.py] a role other than its three yields all three
    funds. *)
Theorem authenticate_unknown_role_is_admin :
  (forall (gw : Main.ApiGateway) (role : string) (admin : User),
      lookup 1 (Main.users (Main.permission_svc gw)) = Some admin ->
      forallb (fun u => negb (u_role u =? role)%string)
              (values (Main.users (Main.permission_svc gw))) = true ->
      Main.authenticate gw role
      = Ok (Main.mkGateway (Main.permission_svc gw) (Some admin))
      /\ (u_role admin = "admin"%string ->
          forall fuel,
            Main.get_accessible_data_scope fuel (Main.permission_svc gw) admin
            = Ok (mkScope
                    (to_set (map u_id
                       (values (Main.users (Main.permission_svc gw)))))
                    (to_set (map o_order_id
                       (values (Main.orders (Main.permission_svc gw)))))
                    (to_set (map c_customer_id
                       (values (Main.customers (Main.permission_svc gw)))))
                    false)))
  /\ (forall (db : Database.Db) (role : string) (admin : User),
         find (fun u => u_id u =? 1) (Database.users db) = Some admin ->
         forallb (fun u => negb (u_role u =? role)%string)
                 (Database.users db) = true ->
         Database.authenticate db role = Ok admin
         /\ (u_role admin = "admin"%string ->
             sc_is_admin (Database.get_accessible_data_scope db admin)
             = true))
  /\ (forall (role : string) (fuel : nat),
         role <> "admin"%string -> role <> "supervisor"%string ->
         role <> "staff"%string ->
         gw <- Main.authenticate (Main.mkGateway Main.init None) role ;;
         Main.gateway_get_funds fuel gw
         = Ok (Main.financial_funds Main.init)).
Proof.
  split; [| split].
  - intros gw role admin Hl Hf. split.
    + unfold Main.authenticate. rewrite Hl.
      now rewrite (find_none_of_forallb _ _ Hf).
    + intros Hr fuel. unfold Main.get_accessible_data_scope.
      rewrite Hr. reflexivity.
  - intros db role admin H1 Hf. split.
    + unfold Database.authenticate.
      pose proof (find_none_of_forallb _ _ Hf) as Hn.
      rewrite (find_weaken _ (fun u => u_id u <=? 4) _ Hn), Hn, H1.
      reflexivity.
    + intro Hr. unfold Database.get_accessible_data_scope.
      rewrite Hr. reflexivity.
  - intros role fuel H1 H2 H3.
    apply String.eqb_neq in H1, H2, H3.
    unfold Main.authenticate. cbn -[String.eqb].
    rewrite (String.eqb_sym "admin" role), H1.
    rewrite (String.eqb_sym "supervisor" role), H2.
    rewrite (String.eqb_sym "staff" role), H3.
    reflexivity.
Qed.

Lemma authenticate_unknown_role_is_admin_witness :
  lookup 1 (Main.users Main.init)
  = Some (mkUser 1 "超级管理员" "admin" "总部" None)
  /\ forallb (fun u => negb (u_role u =? "guest")%string)
             (values (Main.users Main.init)) = true
  /\ Main.authenticate (Main.mkGateway Main.init None) "guest"
     = Ok (Main.mkGateway Main.init
             (Some (mkUser 1 "超级管理员" "admin" "总部" None))).
Proof.
  split; [reflexivity |]. split; [reflexivity |].
  apply (proj1 authenticate_unknown_role_is_admin
               (Main.mkGateway Main.init None) "guest"%string
               (mkUser 1 "超级管理员" "admin" "总部" None));
    reflexivity.
Defined.

End Gateway.

(* ===================================================================== *)
(** * The union of the three dimensions *)
(* ===================================================================== *)

Module UnionFacts.
Import MySql HighConcurrency.

Lemma NoDup_key_inj {A : Type} (key : A -> Z) (l : list A) (x y : A) :
  NoDup (map key l) -> In x l -> In y l -> key x = key y -> x = y.
Proof.
  induction l as [| a l IH]; intros Hnd Hx Hy Hk; [contradiction |].
  simpl in Hnd. inversion Hnd as [| ? ? Hn Hl]; subst.
  destruct Hx as [-> | Hx], Hy as [-> | Hy].
  - reflexivity.
  - exfalso. apply Hn. rewrite Hk. now apply in_map.
  - exfalso. apply Hn. rewrite <- Hk. now apply in_map.
  - now apply IH.
Qed.

(** The first-kept rows of a list drawn from a table with a primary key
    are exactly the rows of the list. *)
Lemma unique_by_table {A : Type} (key : A -> Z) (table l : list A) :
  NoDup (map key table) -> incl l table ->
  forall x, In x (unique_by key [] l) <-> In x l.
Proof.
  intros Hnd Hincl x. split.
  - intro H. now apply unique_by_incl in H.
  - intro Hx.
    assert (Hk : In (key x) (map key (unique_by key [] l))).
    { apply unique_by_keys. split; [now apply in_map | intros []]. }
    apply in_map_iff in Hk. destruct Hk as [y [Hy Hin]].
    assert (y = x); [| now subst].
    apply (NoDup_key_inj key table); auto.
    apply Hincl. now apply unique_by_incl in Hin.
Qed.

Lemma chunks_fuel_concat {A : Type} (size : nat) (fuel : nat) :
  (0 < size)%nat ->
  forall l : list A,
    (length l <= fuel)%nat -> concat (chunks_fuel fuel size l) = l.
Proof.
  intro Hs. induction fuel as [| fuel IH]; intros l Hl.
  - destruct l; [reflexivity | simpl in Hl; lia].
  - destruct l as [| a l']; [reflexivity |].
    change (chunks_fuel (S fuel) size (a :: l'))
      with (firstn size (a :: l')
            :: chunks_fuel fuel size (skipn size (a :: l'))).
    simpl concat. rewrite IH.
    + apply firstn_skipn.
    + rewrite length_skipn. simpl length in *. lia.
Qed.

Lemma chunks_concat {A : Type} (size : Z) (l : list A) :
  0 < size -> concat (chunks size l) = l.
Proof.
  intro H. unfold chunks. apply chunks_fuel_concat; lia.
Qed.

(** Without faults the batches give, one after the other, the rows of the
    table that match them, and every batch is sent. *)
Lemma run_batches_no_fault (funds : list FinancialFund) (d : Dimension) :
  forall batches acc,
    run_batches no_fault funds d batches acc
    = (batches,
       Ok (acc ++ flat_map
                    (fun b => filter (fun f => mem (column d f) b) funds)
                    batches)).
Proof.
  induction batches as [| b rest IH]; intro acc; simpl.
  - now rewrite app_nil_r.
  - rewrite IH. simpl. now rewrite app_assoc.
Qed.

Lemma In_concat_iff {A : Type} (x : A) (ls : list (list A)) :
  In x (concat ls) <-> exists l, In l ls /\ In x l.
Proof.
  rewrite in_concat. split; intros [l H]; exists l; tauto.
Qed.

Lemma batch_rows_In (funds : list FinancialFund) (d : Dimension)
  (size : Z) (ids : list Z) (f : FinancialFund) :
  0 < size ->
  (In f (flat_map (fun b => filter (fun f => mem (column d f) b) funds)
                  (chunks size ids))
   <-> In f funds /\ mem (column d f) ids = true).
Proof.
  intro Hs. rewrite in_flat_map. split.
  - intros [b [Hb Hf]]. apply filter_In in Hf. destruct Hf as [Hf Hm].
    split; [assumption |]. apply mem_In. apply mem_In in Hm.
    rewrite <- (chunks_concat size ids Hs). apply In_concat_iff. eauto.
  - intros [Hf Hm]. apply mem_In in Hm.
    rewrite <- (chunks_concat size ids Hs) in Hm.
    apply In_concat_iff in Hm. destruct Hm as [b [Hb Hx]].
    exists b. split; [assumption |]. apply filter_In.
    split; [assumption | now apply mem_In].
Qed.

(** The rows one future contributes when nothing fails. *)
Lemma submit_no_fault_In (db : Db) (d : Dimension) (ids : list Z)
  (f : FinancialFund) :
  (exists rows, In (Ok rows) (submit no_fault db d ids) /\ In f rows)
  <-> In f (financial_funds db) /\ mem (column d f) ids = true.
Proof.
  unfold submit, execute_batch_query. destruct ids as [| i ids'].
  - simpl. split; [intros [rows [[] _]] | intros [_ H]; discriminate].
  - change (1000 =? 0) with false. change (1000 <? 0) with false.
    cbv iota. rewrite run_batches_no_fault. simpl snd. simpl app.
    rewrite <- (batch_rows_In (financial_funds db) d 1000 (i :: ids') f)
      by lia.
    split.
    + intros [rows [[Heq | []] Hin]]. injection Heq as <-. assumption.
    + intro H. eexists. split; [now left | assumption].
Qed.

Lemma gather_futures_app (a b : list (result (list FinancialFund))) :
  forall acc,
    gather_futures (a ++ b) acc = gather_futures b (gather_futures a acc).
Proof.
  induction a as [| [rows | e |] a IH]; intro acc; simpl; auto.
Qed.

Lemma gather_futures_In (futures : list (result (list FinancialFund))) :
  forall acc f,
    In f (gather_futures futures acc)
    <-> In f acc \/ exists rows, In (Ok rows) futures /\ In f rows.
Proof.
  induction futures as [| [rows | e |] rest IH]; intros acc f; simpl.
  - split; [now left | intros [H | [rows [[] _]]]; assumption].
  - rewrite IH, in_app_iff. split.
    + intros [[H | H] | [r [Hr Hf]]].
      * now left.
      * right. exists rows. split; [now left | assumption].
      * right. exists r. split; [now right | assumption].
    + intros [H | [r [[Heq | Hr] Hf]]].
      * left. now left.
      * injection Heq as ->. left. now right.
      * right. exists r. now split.
  - rewrite IH. split.
    + intros [H | [r [Hr Hf]]];
        [now left | right; exists r; split; [now right | assumption]].
    + intros [H | [r [[Heq | Hr] Hf]]];
        [now left | discriminate | right; exists r; now split].
  - rewrite IH. split.
    + intros [H | [r [Hr Hf]]];
        [now left | right; exists r; split; [now right | assumption]].
    + intros [H | [r [[Heq | Hr] Hf]]];
        [now left | discriminate | right; exists r; now split].
Qed.

(** The rows gathered without faults: those of the table that match one
    of the three id lists. *)
Lemma gathered_no_fault_In (db : Db) (hs os cs : list Z)
  (f : FinancialFund) :
  In f (gather_futures (submit no_fault db ByHandler hs
                        ++ submit no_fault db ByOrder os
                        ++ submit no_fault db ByCustomer cs) [])
  <-> In f (financial_funds db) /\ in_scope hs os cs f = true.
Proof.
  rewrite gather_futures_In. unfold in_scope.
  rewrite !orb_true_iff.
  pose proof (submit_no_fault_In db ByHandler hs f) as Hh.
  pose proof (submit_no_fault_In db ByOrder os f) as Ho.
  pose proof (submit_no_fault_In db ByCustomer cs f) as Hc.
  simpl column in *. split.
  - intros [[] | [rows [Hin Hf]]].
    rewrite !in_app_iff in Hin. destruct Hin as [H | [H | H]].
    + assert (X : In f (financial_funds db) /\ mem (handle_by f) hs = true)
        by (apply Hh; eauto). tauto.
    + assert (X : In f (financial_funds db) /\ mem (order_id f) os = true)
        by (apply Ho; eauto). tauto.
    + assert (X : In f (financial_funds db)
                  /\ mem (customer_id f) cs = true)
        by (apply Hc; eauto). tauto.
  - intros [Hf [[H | H] | H]]; right.
    + destruct (proj2 Hh (conj Hf H)) as [rows [Hr Hin]].
      exists rows. rewrite !in_app_iff. tauto.
    + destruct (proj2 Ho (conj Hf H)) as [rows [Hr Hin]].
      exists rows. rewrite !in_app_iff. tauto.
    + destruct (proj2 Hc (conj Hf H)) as [rows [Hr Hin]].
      exists rows. rewrite !in_app_iff. tauto.
Qed.

(** The deduplicated union, without faults. *)
Lemma parallel_no_fault (db : Db) (hs os cs : list Z) :
  NoDup (map fund_id (financial_funds db)) ->
  NoDup (map fund_id (get_financial_funds_parallel no_fault db hs os cs))
  /\ forall f,
       In f (get_financial_funds_parallel no_fault db hs os cs)
       <-> In f (financial_funds db) /\ in_scope hs os cs f = true.
Proof.
  intro Hnd. unfold get_financial_funds_parallel. split.
  - apply unique_by_NoDup.
  - intro f.
    rewrite (unique_by_table fund_id (financial_funds db)); auto.
    + apply gathered_no_fault_In.
    + intros g Hg. now apply gathered_no_fault_In in Hg.
Qed.

End UnionFacts.

(* ===================================================================== *)
(** * The authorized set *)
(* ===================================================================== *)

Module AuthorizedSet.
Import Tables UnionFacts.

(** C2: the union of the three dimension queries holds every fund that
    matches a dimension, once.  In [high_concurrency_pagination.py] (all
    three queries answered) and in [main.py], on a table whose fund ids are
    distinct, the result has distinct fund ids and consists of the funds of
    the table that are handled by, ordered by or administered by an id of
    the scope; in the scenario of the specification both return exactly
    F1, F2 and F3. *)
Theorem union_holds_each_matching_fund_once :
  (forall (db : MySql.Db) (hs os cs : list Z),
      distinct (map fund_id (MySql.financial_funds db)) = true ->
      NoDup (map fund_id
               (HighConcurrency.get_financial_funds_parallel
                  HighConcurrency.no_fault db hs os cs))
      /\ forall f,
           In f (HighConcurrency.get_financial_funds_parallel
                   HighConcurrency.no_fault db hs os cs)
           <-> In f (MySql.financial_funds db)
               /\ in_scope hs os cs f = true)
  /\ (forall (fuel : nat) (svc : Main.PermissionService) (user : User)
             (scope : Scope),
         distinct (map fund_id (Main.financial_funds svc)) = true ->
         Main.get_accessible_data_scope fuel svc user = Ok scope ->
         exists funds,
           Main.get_funds fuel svc user = Ok funds
           /\ NoDup (map fund_id funds)
           /\ forall f,
                In f funds
                <-> In f (Main.financial_funds svc)
                    /\ in_scope (sc_handle_by scope) (sc_order_ids scope)
                                (sc_customer_ids scope) f = true)
  /\ Main.get_funds 10 scenario_service (mkUser 10 "U" "supervisor" "east" None)
     = Ok [F1; F2; F3]
  /\ (let p := HighConcurrency.query_permissions scenario_db 10 in
      HighConcurrency.get_financial_funds_parallel HighConcurrency.no_fault
        scenario_db (HighConcurrency.subordinate_ids p)
        (HighConcurrency.order_ids p) (HighConcurrency.customer_ids p))
     = [F1; F2; F3].
Proof.
  split; [| split; [| split]].
  - intros db hs os cs Hd. apply parallel_no_fault.
    now apply distinct_NoDup.
  - intros fuel svc user scope Hd Hs.
    unfold Main.get_funds. rewrite Hs. simpl bind.
    eexists. split; [reflexivity |].
    apply distinct_NoDup in Hd. split.
    + now apply NoDup_map_filter.
    + intro f. apply filter_In.
  - vm_compute. reflexivity.
  - vm_compute. reflexivity.
Qed.

Lemma union_holds_each_matching_fund_once_witness :
  distinct (map fund_id (MySql.financial_funds scenario_db)) = true
  /\ NoDup (map fund_id
              (HighConcurrency.get_financial_funds_parallel
                 HighConcurrency.no_fault scenario_db [10; 11; 12] [201]
                 [301])).
Proof.
  split; [reflexivity |].
  apply (proj1 union_holds_each_matching_fund_once scenario_db
               [10; 11; 12] [201] [301]).
  reflexivity.
Defined.

(** C6, as stated, fails: with every statement of the order dimension
    failing, the page request succeeds and serves the union of the two
    other dimensions, F1 and F3, with a total of 2; fund F2, which the
    same request returns on a healthy server, is missing. *)
Lemma page_served_without_failed_dimension :
  snd (HighConcurrency.execute_batch_query order_fault scenario_db ByOrder
         [201] 1000) = Raise DatabaseError
  /\ (exists resp cache,
         HighConcurrency.get_paginated_financial_data [] order_fault
           scenario_db 10 1 20 "fund_id" "ASC" = Ok (resp, cache)
         /\ map v_fund (data resp) = [F1; F3]
         /\ total_count (pagination resp) = 2)
  /\ (exists resp cache,
         HighConcurrency.get_paginated_financial_data []
           HighConcurrency.no_fault scenario_db 10 1 20 "fund_id" "ASC"
         = Ok (resp, cache)
         /\ map v_fund (data resp) = [F1; F2; F3]).
Proof.
  split; [vm_compute; reflexivity |]. split.
  - eexists. eexists. split; [vm_compute; reflexivity |].
    split; reflexivity.
  - eexists. eexists. split; [vm_compute; reflexivity |]. reflexivity.
Qed.

Lemma submit_failed (faults : HighConcurrency.Faults) (db : MySql.Db)
  (d : Dimension) (ids : list Z) (e : Exn) :
  snd (HighConcurrency.execute_batch_query faults db d ids 1000) = Raise e ->
  forall a b acc,
    HighConcurrency.gather_futures
      (a ++ HighConcurrency.submit faults db d ids ++ b) acc
    = HighConcurrency.gather_futures (a ++ b) acc.
Proof.
  intros H a b acc. rewrite !gather_futures_app.
  unfold HighConcurrency.submit. destruct ids; [reflexivity |].
  rewrite H. reflexivity.
Qed.

(** C6 (amended): a dimension whose batched query fails is dropped; no
    retry is made.  [get_financial_funds_parallel] then returns what it
    returns when the id list of that dimension is empty, the deduplicated
    union of the other dimensions, and the page request does not fail: for
    a page size other than 0 it returns a page whatever statements fail. *)
Theorem failed_dimension_is_dropped :
  forall (faults : HighConcurrency.Faults) (db : MySql.Db)
         (hs os cs : list Z) (e : Exn),
    (snd (HighConcurrency.execute_batch_query faults db ByHandler hs 1000)
     = Raise e ->
     HighConcurrency.get_financial_funds_parallel faults db hs os cs
     = HighConcurrency.get_financial_funds_parallel faults db [] os cs)
    /\ (snd (HighConcurrency.execute_batch_query faults db ByOrder os 1000)
        = Raise e ->
        HighConcurrency.get_financial_funds_parallel faults db hs os cs
        = HighConcurrency.get_financial_funds_parallel faults db hs [] cs)
    /\ (snd (HighConcurrency.execute_batch_query faults db ByCustomer cs 1000)
        = Raise e ->
        HighConcurrency.get_financial_funds_parallel faults db hs os cs
        = HighConcurrency.get_financial_funds_parallel faults db hs os [])
    /\ (forall (cache : HighConcurrency.Cache) (supervisor_id page
                page_size : Z) (sort_by sort_order : string),
           page_size <> 0 ->
           is_ok (HighConcurrency.get_paginated_financial_data cache faults
                    db supervisor_id page page_size sort_by sort_order)
           = true).
Proof.
  intros faults db hs os cs e.
  unfold HighConcurrency.get_financial_funds_parallel.
  split; [| split; [| split]].
  - intro H. f_equal.
    apply (submit_failed faults db ByHandler hs e H []).
  - intro H. f_equal.
    apply (submit_failed faults db ByOrder os e H).
  - intro H. f_equal. rewrite !app_assoc.
    pose proof (submit_failed faults db ByCustomer cs e H
                  (HighConcurrency.submit faults db ByHandler hs
                   ++ HighConcurrency.submit faults db ByOrder os) [] [])
      as G.
    rewrite !app_nil_r in G. rewrite G.
    unfold HighConcurrency.submit at 4. now rewrite app_nil_r.
  - intros cache supervisor_id page page_size sort_by sort_order Hp.
    unfold HighConcurrency.get_paginated_financial_data, MySql.make_pagination.
    apply Z.eqb_neq in Hp. rewrite Hp.
    match goal with |- context [0 <? ?t] => destruct (0 <? t) end;
      reflexivity.
Qed.

Lemma failed_dimension_is_dropped_witness :
  snd (HighConcurrency.execute_batch_query order_fault scenario_db ByOrder
         [201] 1000) = Raise DatabaseError
  /\ HighConcurrency.get_financial_funds_parallel order_fault scenario_db
       [10; 11; 12] [201] [301]
     = HighConcurrency.get_financial_funds_parallel order_fault scenario_db
         [10; 11; 12] [] [301].
Proof.
  split; [reflexivity |].
  apply (proj1 (proj2 (failed_dimension_is_dropped order_fault scenario_db
                         [10; 11; 12] [201] [301] DatabaseError))).
  reflexivity.
Defined.

End AuthorizedSet.

(* ===================================================================== *)
(** * Batches *)
(* ===================================================================== *)

Module BatchFacts.
Import MySql Tables UnionFacts.





(** The temporary table: rows of the table, with distinct fund ids. *)
Section TempTable.

Variable funds : list FinancialFund.
Hypothesis funds_key : NoDup (map fund_id funds).



End TempTable.





End BatchFacts.

(* ===================================================================== *)
(** * The total count of a page *)
(* ===================================================================== *)

Module TotalCount.
Import MySql Tables BatchFacts.


(** With a valid sort column and direction the batch loop of the
    optimized scheme returns a page. *)
Lemma batch_loop_ok (db : Db) (hs os cs : list Z) (batch_size page_size
  offset : Z) (sort_by sort_order : string) (col : FinancialFund -> Z)
  (reverse : bool) :
  fund_column sort_by = Some col ->
  sort_direction sort_order = Some reverse ->
  forall batch_idxs all_results current_offset,
  exists r,
    Optimized.batch_loop db hs os cs batch_size page_size offset sort_by
      sort_order batch_idxs all_results current_offset = Ok r.
Proof.
  intros Hc Hd. induction batch_idxs as [| i rest IH];
    intros all_results current_offset; simpl.
  - eexists. reflexivity.
  - destruct (Optimized.no_conditions _ _ _); [apply IH |].
    destruct ((current_offset <? offset) && _); [apply IH |].
    destruct (page_size - len all_results <=? 0) eqn:Er;
      [eexists; reflexivity |].
    unfold order_by. rewrite Hc, Hd. simpl bind.
    unfold limit_offset.
    replace ((page_size - len all_results <? 0)
             || ((if current_offset <? offset
                  then offset - current_offset else 0) <? 0))
      with false.
    + simpl bind.
      match goal with |- context [if ?c then Ok _ else _] => destruct c end;
        [eexists; reflexivity | apply IH].
    + symmetry. apply orb_false_iff. split.
      * apply Z.ltb_ge. apply Z.leb_gt in Er. lia.
      * destruct (current_offset <? offset) eqn:E.
        -- apply Z.ltb_ge. apply Z.ltb_lt in E. lia.
        -- reflexivity.
Qed.




End TotalCount.

(* ===================================================================== *)
(** * Sorting and slicing *)
(* ===================================================================== *)

Section SortFacts.

Variable A : Type.
Variable key : A -> Z.
Variable reverse : bool.

Lemma insert_sorted_perm (x : A) (l : list A) :
  Permutation (insert_sorted key reverse x l) (x :: l).
Proof.
  induction l as [| y r IH]; simpl; [apply Permutation_refl |].
  destruct (key_lt reverse (key y) (key x)).
  - eapply Permutation_trans; [apply perm_skip, IH | apply perm_swap].
  - apply Permutation_refl.
Qed.

Lemma stable_sort_perm (l : list A) :
  Permutation (stable_sort key reverse l) l.
Proof.
  induction l as [| x r IH]; simpl; [constructor |].
  eapply Permutation_trans; [apply insert_sorted_perm |].
  now apply perm_skip.
Qed.

Lemma stable_sort_length (l : list A) :
  length (stable_sort key reverse l) = length l.
Proof. apply Permutation_length, stable_sort_perm. Qed.

Lemma firstn_min (k : nat) (l : list A) :
  firstn (Nat.min k (length l)) l = firstn k l.
Proof.
  destruct (Nat.le_ge_cases k (length l)) as [H | H].
  - now rewrite Nat.min_l.
  - rewrite Nat.min_r by assumption.
    now rewrite firstn_all, firstn_all2.
Qed.

(** A slice that starts inside the list. *)
Lemma py_slice_page (l : list A) (a size : Z) :
  0 <= a <= len l -> 0 <= size ->
  py_slice l a (a + size)
  = firstn (Z.to_nat size) (skipn (Z.to_nat a) l).
Proof.
  unfold len. intros Ha Hs. unfold py_slice, clamp_index.
  replace (a <? 0) with false by (symmetry; apply Z.ltb_ge; lia).
  replace (a + size <? 0) with false by (symmetry; apply Z.ltb_ge; lia).
  rewrite (Z.min_l a) by lia.
  rewrite <- (firstn_min (Z.to_nat size)), length_skipn.
  f_equal. lia.
Qed.

End SortFacts.

(* ===================================================================== *)
(** * The pages of the live batched union *)
(* ===================================================================== *)

Module PageFacts.
Import MySql HighConcurrency Tables UnionFacts.

Lemma lookup_dict_set {A : Type} (k k' : Z) (v : A) (d : list (Z * A)) :
  lookup k (dict_set k' v d) = if k =? k' then Some v else lookup k d.
Proof.
  induction d as [| [k0 v0] r IH]; simpl.
  - reflexivity.
  - destruct (k' =? k0) eqn:E; simpl.
    + apply Z.eqb_eq in E. subst.
      destruct (k =? k0); reflexivity.
    + rewrite IH. destruct (k =? k') eqn:E'; [| reflexivity].
      apply Z.eqb_eq in E'. subst. now rewrite E.
Qed.

Lemma get_user_permissions_consistent (cache : Cache) (db : Db)
  (supervisor_id : Z) :
  cache_consistent cache db ->
  fst (get_user_permissions cache db supervisor_id)
  = query_permissions db supervisor_id
  /\ cache_consistent (snd (get_user_permissions cache db supervisor_id)) db.
Proof.
  intro H. unfold get_user_permissions.
  destruct (lookup supervisor_id cache) as [p |] eqn:E; simpl.
  - split; [now apply H | assumption].
  - split; [reflexivity |]. intros k p. rewrite lookup_dict_set.
    destruct (k =? supervisor_id) eqn:Ek.
    + apply Z.eqb_eq in Ek. subst. now intros [= <-].
    + apply H.
Qed.

Lemma pages_of_bounds (n page_size : Z) :
  0 <= n -> 1 <= page_size ->
  1 <= pages_of n page_size
  /\ (pages_of n page_size - 1) * page_size <= n
  /\ n <= pages_of n page_size * page_size.
Proof.
  intros Hn Hp. unfold pages_of. destruct (0 <? n) eqn:E.
  - apply Z.ltb_lt in E.
    pose proof (Z.div_mod (n + page_size - 1) page_size ltac:(lia)) as Hdm.
    pose proof (Z.mod_pos_bound (n + page_size - 1) page_size ltac:(lia))
      as Hb.
    set (q := (n + page_size - 1) / page_size) in *.
    set (r := (n + page_size - 1) mod page_size) in *.
    split; [| split]; nia.
  - apply Z.ltb_ge in E. lia.
Qed.

Lemma get_paginated_eq (cache : Cache) (faults : Faults) (db : Db)
  (supervisor_id page page_size : Z) (sort_by sort_order : string) :
  cache_consistent cache db -> page_size <> 0 ->
  let l := sorted_funds faults db supervisor_id sort_by sort_order in
  get_paginated_financial_data cache faults db supervisor_id page page_size
    sort_by sort_order
  = Ok (mkResponse
          (map (with_handler (users db))
               (py_slice l ((page - 1) * page_size)
                         ((page - 1) * page_size + page_size)))
          (mkPagination page page_size (len l)
             (pages_of (len l) page_size)
             (page <? pages_of (len l) page_size) (1 <? page)),
        snd (get_user_permissions cache db supervisor_id)).
Proof.
  intros Hc Hp l. unfold get_paginated_financial_data.
  rewrite (proj1 (get_user_permissions_consistent cache db supervisor_id Hc)).
  fold (sorted_funds faults db supervisor_id sort_by sort_order). fold l.
  unfold make_pagination, pages_of, len.
  apply Z.eqb_neq in Hp. rewrite Hp.
  destruct (0 <? Z.of_nat (length l)); reflexivity.
Qed.

(** From page [page] on, the loop over the pages yields the rest of the
    sorted list. *)
Lemma all_pages_from (faults : Faults) (db : Db) (supervisor_id
  page_size : Z) (sort_by sort_order : string) :
  1 <= page_size ->
  let l := sorted_funds faults db supervisor_id sort_by sort_order in
  forall (fuel : nat) (page : Z) (cache : Cache),
    cache_consistent cache db ->
    1 <= page <= pages_of (len l) page_size ->
    pages_of (len l) page_size - page < Z.of_nat fuel ->
    all_pages fuel cache faults db supervisor_id page page_size sort_by
      sort_order
    = Ok (map (with_handler (users db))
              (skipn (Z.to_nat ((page - 1) * page_size)) l)).
Proof.
  intros Hs l.
  pose proof (pages_of_bounds (len l) page_size ltac:(unfold len; lia) Hs)
    as [B1 [B2 B3]].
  induction fuel as [| fuel IH]; intros page cache Hc Hp Hf; [lia |].
  simpl all_pages.
  rewrite (get_paginated_eq cache faults db supervisor_id page page_size
             sort_by sort_order Hc ltac:(lia)).
  fold l. simpl bind. simpl fst. simpl snd. simpl pagination. simpl has_next.
  simpl data.
  rewrite py_slice_page by nia.
  destruct (page <? pages_of (len l) page_size) eqn:E.
  - apply Z.ltb_lt in E.
    rewrite IH.
    + simpl bind. f_equal. rewrite <- map_app. f_equal.
      replace (Z.to_nat ((page + 1 - 1) * page_size))
        with (Z.to_nat page_size + Z.to_nat ((page - 1) * page_size))%nat
        by nia.
      rewrite <- skipn_skipn. apply firstn_skipn.
    + apply get_user_permissions_consistent, Hc.
    + lia.
    + lia.
  - apply Z.ltb_ge in E. f_equal. f_equal. apply firstn_all2.
    rewrite length_skipn. unfold len in *. nia.
Qed.

(** C7: on unchanged data and a healthy server, for a page size of 1 or
    more, the pages of [get_paginated_financial_data] from page 1 until
    [has_next] is false, put one after the other, are the sorted
    deduplicated list of authorized funds: every fund of the table that
    matches the scope occurs in them, no other fund does, and no fund id
    occurs twice. *)
Theorem pages_concatenate_to_authorized_set :
  forall (cache : Cache) (db : Db) (supervisor_id page_size : Z)
         (sort_by sort_order : string),
    distinct (map fund_id (financial_funds db)) = true ->
    1 <= page_size ->
    cache_consistent cache db ->
    exists fuel items,
      all_pages fuel cache no_fault db supervisor_id 1 page_size sort_by
        sort_order = Ok items
      /\ map v_fund items
         = sorted_funds no_fault db supervisor_id sort_by sort_order
      /\ NoDup (map (fun v => fund_id (v_fund v)) items)
      /\ forall f,
           In f (map v_fund items)
           <-> In f (financial_funds db)
               /\ (let p := query_permissions db supervisor_id in
                   in_scope (subordinate_ids p) (order_ids p)
                            (customer_ids p) f = true).
Proof.
  intros cache db supervisor_id page_size sort_by sort_order Hd Hs Hc.
  apply distinct_NoDup in Hd.
  set (l := sorted_funds no_fault db supervisor_id sort_by sort_order).
  pose proof (pages_of_bounds (len l) page_size ltac:(unfold len; lia) Hs)
    as [B1 _].
  exists (Z.to_nat (pages_of (len l) page_size)).
  exists (map (with_handler (users db)) l).
  assert (Hv : map v_fund (map (with_handler (users db)) l) = l).
  { rewrite map_map. rewrite <- (map_id l) at 2. apply map_ext.
    intro f. unfold with_handler. now destruct (find _ _). }
  destruct (parallel_no_fault db
              (subordinate_ids (query_permissions db supervisor_id))
              (order_ids (query_permissions db supervisor_id))
              (customer_ids (query_permissions db supervisor_id)) Hd)
    as [Hn Hi].
  assert (Hp : Permutation l
                 (get_financial_funds_parallel no_fault db
                    (subordinate_ids (query_permissions db supervisor_id))
                    (order_ids (query_permissions db supervisor_id))
                    (customer_ids (query_permissions db supervisor_id))))
    by apply stable_sort_perm.
  split; [| split; [| split]].
  - rewrite (all_pages_from no_fault db supervisor_id page_size
               sort_by sort_order Hs).
    + reflexivity.
    + assumption.
    + fold l. lia.
    + fold l. lia.
  - exact Hv.
  - rewrite <- (map_map v_fund fund_id), Hv.
    eapply Permutation_NoDup; [| exact Hn].
    apply Permutation_map. now apply Permutation_sym.
  - intro f. rewrite Hv. cbv zeta. rewrite <- Hi. split; intro H.
    + eapply Permutation_in; eassumption.
    + eapply Permutation_in; [apply Permutation_sym |]; eassumption.
Qed.

Lemma pages_concatenate_to_authorized_set_witness :
  distinct (map fund_id (financial_funds scenario_db)) = true
  /\ 1 <= 2
  /\ cache_consistent [] scenario_db
  /\ exists fuel items,
       all_pages fuel [] no_fault scenario_db 10 1 2 "amount" "DESC"
       = Ok items
       /\ map v_fund items
          = sorted_funds no_fault scenario_db 10 "amount" "DESC".
Proof.
  split; [reflexivity |]. split; [lia |].
  split; [intros k p H; discriminate H |].
  destruct (pages_concatenate_to_authorized_set [] scenario_db 10 2
              "amount" "DESC") as [fuel [items [H1 [H2 _]]]].
  - reflexivity.
  - lia.
  - intros k p H. discriminate H.
  - exists fuel, items. split; assumption.
Defined.

End PageFacts.

(* ===================================================================== *)
(** * [database.py]: the fund list *)
(* ===================================================================== *)

Module FundList.
Import Database Tables UnionFacts.

Lemma take_all {A : Type} (n : Z) (l : list A) : len l <= n -> take n l = l.
Proof. unfold len, take. intro H. apply firstn_all2. lia. Qed.

Lemma take_length {A : Type} (n : Z) (l : list A) :
  0 <= n -> len (take n l) <= n.
Proof. unfold len, take. intro H. rewrite length_firstn. lia. Qed.

Lemma take_length_le {A : Type} (n : Z) (l : list A) :
  len (take n l) <= len l.
Proof. unfold len, take. rewrite length_firstn. lia. Qed.

Lemma take_In {A : Type} (n : Z) (l : list A) (x : A) :
  In x (take n l) -> In x l.
Proof.
  unfold take. intro H. rewrite <- (firstn_skipn (Z.to_nat n) l).
  apply in_or_app. now left.
Qed.

Lemma take_NoDup {A : Type} (key : A -> Z) (n : Z) (l : list A) :
  NoDup (map key l) -> NoDup (map key (take n l)).
Proof.
  unfold take. intro H. rewrite <- (firstn_skipn (Z.to_nat n) l) in H.
  rewrite map_app in H. now apply NoDup_app_remove_r in H.
Qed.

(** The final loop keeps the first 1000 funds with a new id. *)
Lemma collect_funds_take (rows : list FinancialFund) :
  forall seen filtered,
    len filtered < 1000 ->
    collect_funds rows seen filtered
    = take 1000 (filtered ++ unique_by fund_id seen rows).
Proof.
  induction rows as [| row rest IH]; intros seen filtered Hl.
  - simpl. rewrite app_nil_r. symmetry. apply take_all. lia.
  - simpl collect_funds. simpl unique_by.
    destruct (mem (fund_id row) seen); [now apply IH |].
    assert (Hlen : len (filtered ++ [row]) = len filtered + 1)
      by (unfold len; rewrite length_app; simpl length; lia).
    replace (filtered ++ row :: unique_by fund_id (fund_id row :: seen) rest)
      with ((filtered ++ [row])
            ++ unique_by fund_id (fund_id row :: seen) rest)
      by (now rewrite <- app_assoc).
    destruct (1000 <=? len (filtered ++ [row])) eqn:E.
    + apply Z.leb_le in E. unfold take. rewrite firstn_app.
      rewrite firstn_all2 by (unfold len in *; lia).
      replace (Z.to_nat 1000 - length (filtered ++ [row]))%nat with 0%nat
        by (unfold len in *; lia).
      simpl firstn. now rewrite app_nil_r.
    + apply Z.leb_gt in E. now apply IH.
Qed.

Lemma get_funds_eq (db : Db) (user : User) :
  get_funds db user
  = take 1000
      (unique_by fund_id []
         (take 2000
            (stable_sort fund_id false
               (if sc_is_admin (get_accessible_data_scope db user)
                then take 1000
                       (stable_sort handle_by false (financial_funds db))
                else gather (financial_funds db)
                       (get_accessible_data_scope db user))))).
Proof.
  unfold get_funds. rewrite collect_funds_take by (unfold len; simpl; lia).
  reflexivity.
Qed.

(** What one dimension yields: rows of the table that match an id. *)
Lemma chunked_loop_In (funds : list FinancialFund) (d : Dimension)
  (batches : list (list Z)) :
  forall acc f,
    In f (chunked_loop funds d batches acc) ->
    In f acc
    \/ (In f funds /\ mem (column d f) (concat batches) = true).
Proof.
  induction batches as [| b rest IH]; intros acc f H; simpl in H.
  - now left.
  - assert (Hq : In f (acc ++ chunk_query funds d b) ->
                 In f acc \/ (In f funds
                              /\ mem (column d f) (concat (b :: rest))
                                 = true)).
    { intro Hin. apply in_app_or in Hin. destruct Hin as [Hin | Hin];
        [now left | right].
      unfold chunk_query in Hin. apply take_In, filter_In in Hin.
      simpl concat. rewrite mem_app, orb_true_iff. tauto. }
    destruct (1000 <=? len (acc ++ chunk_query funds d b)).
    + now apply Hq.
    + apply IH in H. destruct H as [H | [H1 H2]].
      * now apply Hq.
      * right. split; [assumption |].
        simpl concat. rewrite mem_app, orb_true_iff. tauto.
Qed.

Lemma execute_chunked_query_In (funds : list FinancialFund)
  (d : Dimension) (ids : list Z) (f : FinancialFund) :
  In f (execute_chunked_query funds d ids max_vars) ->
  In f funds /\ mem (column d f) ids = true.
Proof.
  unfold execute_chunked_query. intro H.
  apply chunked_loop_In in H. destruct H as [[] | H].
  now rewrite chunks_concat in H by (unfold max_vars; lia).
Qed.

Lemma gather_In (funds : list FinancialFund) (scope : Scope)
  (f : FinancialFund) :
  In f (gather funds scope) ->
  In f funds
  /\ in_scope (sc_handle_by scope) (sc_order_ids scope)
              (sc_customer_ids scope) f = true.
Proof.
  unfold gather, in_scope. rewrite !orb_true_iff.
  pose proof (execute_chunked_query_In funds ByHandler
                (sc_handle_by scope) f) as Hh.
  pose proof (execute_chunked_query_In funds ByOrder
                (sc_order_ids scope) f) as Ho.
  pose proof (execute_chunked_query_In funds ByCustomer
                (sc_customer_ids scope) f) as Hc.
  simpl column in *.
  set (r1 := if nonempty (sc_handle_by scope)
             then execute_chunked_query funds ByHandler
                    (sc_handle_by scope) max_vars
             else []).
  assert (H1 : In f r1 -> In f funds
                          /\ mem (handle_by f) (sc_handle_by scope) = true)
    by (subst r1; destruct (nonempty _); [exact Hh | intros []]).
  set (r2 := if (len r1 <? 1000) && nonempty (sc_order_ids scope)
             then r1 ++ execute_chunked_query funds ByOrder
                          (sc_order_ids scope) max_vars
             else r1).
  assert (H2 : In f r2 ->
               In f funds
               /\ (mem (handle_by f) (sc_handle_by scope) = true
                   \/ mem (order_id f) (sc_order_ids scope) = true)).
  { subst r2.
    destruct ((len r1 <? 1000) && nonempty (sc_order_ids scope)).
    - intro H. apply in_app_or in H. destruct H as [H | H].
      + apply H1 in H. tauto.
      + apply Ho in H. tauto.
    - intro H. apply H1 in H. tauto. }
  destruct ((len r2 <? 1000) && nonempty (sc_customer_ids scope)).
  - intro H. apply in_app_or in H. destruct H as [H | H].
    + apply H2 in H. tauto.
    + apply Hc in H. tauto.
  - intro H. apply H2 in H. tauto.
Qed.

(** ** Completeness below the caps *)

Lemma matching_app (funds : list FinancialFund) (d : Dimension)
  (l1 l2 : list Z) :
  NoDup (l1 ++ l2) ->
  matching funds d (l1 ++ l2) = matching funds d l1 + matching funds d l2.
Proof.
  intro Hnd. unfold matching, len.
  induction funds as [| f funds IH]; [reflexivity |].
  simpl filter. rewrite mem_app.
  destruct (mem (column d f) l1) eqn:E1, (mem (column d f) l2) eqn:E2;
    simpl orb; simpl length; try lia.
  exfalso. apply mem_In in E1, E2.
  clear IH. induction l1 as [| a l1 IHl]; [contradiction |].
  simpl in Hnd. inversion Hnd as [| ? ? Hn Hl]; subst.
  destruct E1 as [-> | E1].
  - apply Hn. apply in_or_app. now right.
  - now apply IHl.
Qed.

Lemma rows_of_count (funds : list FinancialFund) (d : Dimension)
  (batches : list (list Z)) :
  NoDup (concat batches) ->
  len (rows_of funds d batches) = matching funds d (concat batches).
Proof.
  induction batches as [| b rest IH]; intro Hnd.
  - unfold matching, len. simpl.
    induction funds as [| f funds IHf]; [reflexivity | exact IHf].
  - simpl concat in *. rewrite (matching_app _ _ _ _ Hnd).
    rewrite <- IH by (now apply NoDup_app_remove_l in Hnd).
    unfold rows_of, matching, len. simpl flat_map.
    rewrite length_app. lia.
Qed.

Lemma matching_nonneg (funds : list FinancialFund) (d : Dimension)
  (ids : list Z) : 0 <= matching funds d ids.
Proof. unfold matching, len. lia. Qed.

Lemma chunked_loop_small (funds : list FinancialFund) (d : Dimension)
  (batches : list (list Z)) :
  NoDup (concat batches) ->
  forall acc,
    len acc + matching funds d (concat batches) < 1000 ->
    chunked_loop funds d batches acc = acc ++ rows_of funds d batches.
Proof.
  induction batches as [| b rest IH]; intros Hnd acc Hlt.
  - simpl. now rewrite app_nil_r.
  - simpl concat in *. rewrite (matching_app _ _ _ _ Hnd) in Hlt.
    pose proof (matching_nonneg funds d (concat rest)) as Hr.
    simpl chunked_loop. unfold chunk_query.
    rewrite take_all by (unfold matching, len in *; lia).
    replace (1000 <=? len (acc ++ filter (fun f => mem (column d f) b) funds))
      with false.
    + rewrite IH.
      * unfold rows_of. simpl flat_map. now rewrite app_assoc.
      * now apply NoDup_app_remove_l in Hnd.
      * unfold matching, len in *. rewrite length_app. lia.
    + symmetry. apply Z.leb_gt. unfold matching, len in *.
      rewrite length_app. lia.
Qed.

Lemma execute_chunked_query_small (funds : list FinancialFund)
  (d : Dimension) (ids : list Z) :
  NoDup ids -> matching funds d ids < 1000 ->
  execute_chunked_query funds d ids max_vars
  = rows_of funds d (chunks max_vars ids)
  /\ len (rows_of funds d (chunks max_vars ids)) = matching funds d ids.
Proof.
  intros Hnd Hlt.
  assert (Hc : concat (chunks max_vars ids) = ids)
    by (apply chunks_concat; unfold max_vars; lia).
  split.
  - unfold execute_chunked_query.
    rewrite chunked_loop_small; [reflexivity | now rewrite Hc |].
    rewrite Hc. unfold len. simpl. lia.
  - rewrite rows_of_count; now rewrite Hc.
Qed.

Lemma execute_chunked_query_nil (funds : list FinancialFund)
  (d : Dimension) : execute_chunked_query funds d [] max_vars = [].
Proof. reflexivity. Qed.

Lemma guard_nonempty (funds : list FinancialFund) (d : Dimension)
  (ids : list Z) (c : bool) (r : list FinancialFund) :
  c = true ->
  (if c && nonempty ids
   then r ++ execute_chunked_query funds d ids max_vars else r)
  = r ++ execute_chunked_query funds d ids max_vars.
Proof.
  intros ->. destruct ids; simpl andb; cbv iota; [| reflexivity].
  rewrite execute_chunked_query_nil. now rewrite app_nil_r.
Qed.

Lemma gather_small (funds : list FinancialFund) (scope : Scope) :
  NoDup (sc_handle_by scope) -> NoDup (sc_order_ids scope) ->
  NoDup (sc_customer_ids scope) ->
  matching funds ByHandler (sc_handle_by scope)
  + matching funds ByOrder (sc_order_ids scope)
  + matching funds ByCustomer (sc_customer_ids scope) < 1000 ->
  len (gather funds scope) < 1000
  /\ forall f,
       In f funds ->
       in_scope (sc_handle_by scope) (sc_order_ids scope)
                (sc_customer_ids scope) f = true ->
       In f (gather funds scope).
Proof.
  intros Nh No Nc Hlt.
  pose proof (matching_nonneg funds ByHandler (sc_handle_by scope)) as Ph.
  pose proof (matching_nonneg funds ByOrder (sc_order_ids scope)) as Po.
  pose proof (matching_nonneg funds ByCustomer (sc_customer_ids scope))
    as Pc.
  destruct (execute_chunked_query_small funds ByHandler _ Nh ltac:(lia))
    as [Eh Lh].
  destruct (execute_chunked_query_small funds ByOrder _ No ltac:(lia))
    as [Eo Lo].
  destruct (execute_chunked_query_small funds ByCustomer _ Nc ltac:(lia))
    as [Ec Lc].
  unfold gather.
  replace (if nonempty (sc_handle_by scope)
           then execute_chunked_query funds ByHandler (sc_handle_by scope)
                  max_vars
           else [])
    with (execute_chunked_query funds ByHandler (sc_handle_by scope)
            max_vars)
    by (destruct (sc_handle_by scope); reflexivity).
  rewrite Eh.
  rewrite (guard_nonempty funds ByOrder (sc_order_ids scope) _
             (rows_of funds ByHandler
                (chunks max_vars (sc_handle_by scope))))
    by (apply Z.ltb_lt; lia).
  rewrite Eo.
  assert (L2 : len (rows_of funds ByHandler
                      (chunks max_vars (sc_handle_by scope))
                    ++ rows_of funds ByOrder
                         (chunks max_vars (sc_order_ids scope)))
               = matching funds ByHandler (sc_handle_by scope)
                 + matching funds ByOrder (sc_order_ids scope)).
  { rewrite <- Lh, <- Lo. unfold len. rewrite length_app. lia. }
  rewrite guard_nonempty by (apply Z.ltb_lt; lia).
  rewrite Ec. split.
  - replace (len _) with
      (matching funds ByHandler (sc_handle_by scope)
       + matching funds ByOrder (sc_order_ids scope)
       + matching funds ByCustomer (sc_customer_ids scope)); [lia |].
    rewrite <- L2, <- Lc. unfold len. rewrite !length_app. lia.
  - intros f Hf Hs. unfold in_scope in Hs. rewrite !orb_true_iff in Hs.
    rewrite !in_app_iff. unfold rows_of.
    pose proof (batch_rows_In funds ByHandler max_vars
                  (sc_handle_by scope) f) as Bh.
    pose proof (batch_rows_In funds ByOrder max_vars
                  (sc_order_ids scope) f) as Bo.
    pose proof (batch_rows_In funds ByCustomer max_vars
                  (sc_customer_ids scope) f) as Bc.
    simpl column in *. unfold max_vars in *.
    destruct Hs as [[H | H] | H].
    + left. left. apply Bh; [lia | tauto].
    + left. right. apply Bo; [lia | tauto].
    + right. apply Bc; [lia | tauto].
Qed.

Lemma scope_NoDup (db : Db) (user : User) :
  NoDup (sc_handle_by (get_accessible_data_scope db user))
  /\ NoDup (sc_order_ids (get_accessible_data_scope db user))
  /\ NoDup (sc_customer_ids (get_accessible_data_scope db user)).
Proof.
  unfold get_accessible_data_scope.
  destruct (u_role user =? "admin")%string;
    [| destruct (u_role user =? "supervisor")%string;
       [| destruct (u_role user =? "staff")%string]];
    simpl; repeat split;
    try apply to_set_NoDup; try constructor; try constructor;
    try (intros []).
  unfold get_subordinates. apply set_add_NoDup, to_set_NoDup.
Qed.

Lemma sorted_In {A : Type} (key : A -> Z) (reverse : bool) (l : list A)
  (x : A) : In x (stable_sort key reverse l) <-> In x l.
Proof.
  split; intro H.
  - eapply Permutation_in; [apply stable_sort_perm | exact H].
  - eapply Permutation_in;
      [apply Permutation_sym, stable_sort_perm | exact H].
Qed.

Lemma sorted_len {A : Type} (key : A -> Z) (reverse : bool) (l : list A) :
  len (stable_sort key reverse l) = len l.
Proof. unfold len. now rewrite stable_sort_length. Qed.

(** Rows of the table, fewer than the caps, pass the final stage whole. *)
Lemma final_stage_small (table rows : list FinancialFund) :
  NoDup (map fund_id table) -> incl rows table -> len rows <= 1000 ->
  forall f,
    In f rows ->
    In f (take 1000
            (unique_by fund_id []
               (take 2000 (stable_sort fund_id false rows)))).
Proof.
  intros Hnd Hincl Hlen f Hf.
  rewrite (take_all 2000) by (rewrite sorted_len; lia).
  rewrite take_all.
  - apply (unique_by_table fund_id table); auto.
    + intros g Hg. apply Hincl. now apply sorted_In in Hg.
    + now apply sorted_In.
  - pose proof (SubordinateFacts.unique_by_length fund_id []
                  (stable_sort fund_id false rows)) as H.
    pose proof (sorted_len fund_id false rows) as H'.
    unfold len in *. lia.
Qed.

(** C1, as stated, fails: the staff user 3 handles 1001 funds; the call
    returns 1000 of them without an error, and fund 1001, which is in the
    user's scope, is not among them. *)
Lemma get_funds_omits_fund_beyond_cap :
  existsb (fun f => (fund_id f =? 1001) && (handle_by f =? 3))
          (financial_funds busy_db) = true
  /\ mem 3 (sc_handle_by (get_accessible_data_scope busy_db staff_3)) = true
  /\ is_ok (gateway_get_funds busy_db (Some staff_3)) = true
  /\ len (get_funds busy_db staff_3) = 1000
  /\ existsb (fun f => fund_id f =? 1001) (get_funds busy_db staff_3)
     = false.
Proof.
  repeat split; vm_compute; reflexivity.
Qed.

(** C1 (amended): [get_funds] always returns a list, never an error; the
    list has at most 1000 funds, with distinct fund ids, all rows of the
    table, and for a user who is not an admin each of them is handled by,
    ordered by or administered by an id of the scope computed by
    [get_accessible_data_scope].  It holds every fund of the table that
    matches that scope when the rows matching the three dimensions number
    fewer than 1000 together, and for an admin every fund when the table
    has at most 1000; beyond these caps funds are left out. *)
Theorem get_funds_capped_and_scoped :
  forall (db : Db) (user : User),
    distinct (map fund_id (financial_funds db)) = true ->
    let scope := get_accessible_data_scope db user in
    let funds := get_funds db user in
    gateway_get_funds db (Some user) = Ok funds
    /\ len funds <= 1000
    /\ NoDup (map fund_id funds)
    /\ (forall f,
           In f funds ->
           In f (financial_funds db)
           /\ (sc_is_admin scope = false ->
               in_scope (sc_handle_by scope) (sc_order_ids scope)
                        (sc_customer_ids scope) f = true))
    /\ (sc_is_admin scope = false ->
        matching (financial_funds db) ByHandler (sc_handle_by scope)
        + matching (financial_funds db) ByOrder (sc_order_ids scope)
        + matching (financial_funds db) ByCustomer (sc_customer_ids scope)
        < 1000 ->
        forall f,
          In f (financial_funds db) ->
          in_scope (sc_handle_by scope) (sc_order_ids scope)
                   (sc_customer_ids scope) f = true ->
          In f funds)
    /\ (sc_is_admin scope = true ->
        len (financial_funds db) <= 1000 ->
        forall f, In f (financial_funds db) -> In f funds).
Proof.
  intros db user Hd scope funds. apply distinct_NoDup in Hd.
  subst funds. rewrite get_funds_eq. fold scope.
  split; [unfold gateway_get_funds; now rewrite get_funds_eq |].
  split; [apply take_length; lia |].
  split; [apply take_NoDup, unique_by_NoDup |].
  split; [| split].
  - intros f Hf.
    apply take_In, unique_by_incl, proj1, take_In, sorted_In in Hf.
    destruct (sc_is_admin scope).
    + apply take_In, sorted_In in Hf. split; [assumption | discriminate].
    + apply gather_In in Hf. tauto.
  - intros Ha Hlt f Hf Hs. rewrite Ha.
    destruct (scope_NoDup db user) as [Nh [No Nc]]. fold scope in Nh, No, Nc.
    destruct (gather_small (financial_funds db) scope Nh No Nc Hlt)
      as [Hlen Hin].
    apply (final_stage_small (financial_funds db)); auto.
    + intros g Hg. now apply gather_In in Hg.
    + lia.
  - intros Ha Hlen f Hf. rewrite Ha.
    apply (final_stage_small (financial_funds db)); auto.
    + intros g Hg. now apply take_In, sorted_In in Hg.
    + pose proof (take_length_le 1000
                    (stable_sort handle_by false (financial_funds db))).
      rewrite sorted_len in *. lia.
    + rewrite take_all by (rewrite sorted_len; lia). now apply sorted_In.
Qed.

Lemma get_funds_capped_and_scoped_witness :
  distinct (map fund_id (financial_funds scenario_sqlite)) = true
  /\ sc_is_admin (get_accessible_data_scope scenario_sqlite user_U) = false
  /\ In F2 (get_funds scenario_sqlite user_U).
Proof.
  split; [reflexivity |]. split; [reflexivity |].
  destruct (get_funds_capped_and_scoped scenario_sqlite user_U)
    as [_ [_ [_ [_ [H _]]]]].
  - reflexivity.
  - apply H.
    + reflexivity.
    + vm_compute. reflexivity.
    + right. left. reflexivity.
    + reflexivity.
Defined.

End FundList.

(* ===================================================================== *)
(** * Sorted lists and filters *)
(* ===================================================================== *)

Section SortedFacts.

Variable A : Type.
Variable key : A -> Z.
Variable reverse : bool.

Local Abbreviation ordered := (StronglySorted (in_order key reverse)).

Ltac key_lia :=
  unfold in_order, key_lt in *; destruct reverse;
  repeat match goal with
         | H : (_ <? _) = true |- _ => apply Z.ltb_lt in H
         | H : (_ <? _) = false |- _ => apply Z.ltb_ge in H
         end;
  try (apply Z.ltb_lt); try (apply Z.ltb_ge); lia.

Lemma in_order_trans (x y z : A) :
  in_order key reverse x y -> in_order key reverse y z ->
  in_order key reverse x z.
Proof. intros H1 H2. key_lia. Qed.

Lemma in_order_of_lt (x y : A) :
  key_lt reverse (key x) (key y) = true -> in_order key reverse x y.
Proof. intro H. key_lia. Qed.

Lemma lt_of_in_order (x y : A) :
  in_order key reverse x y -> key x <> key y ->
  key_lt reverse (key x) (key y) = true.
Proof. intros H1 H2. key_lia. Qed.

Lemma key_lt_irrefl (x : A) : key_lt reverse (key x) (key x) = false.
Proof. key_lia. Qed.

Lemma insert_sorted_ordered (x : A) (l : list A) :
  ordered l -> ordered (insert_sorted key reverse x l).
Proof.
  induction l as [| y r IH]; intro Hs; simpl.
  - constructor; constructor.
  - inversion Hs as [| ? ? Hr Hy]; subst.
    destruct (key_lt reverse (key y) (key x)) eqn:E.
    + constructor; [now apply IH |].
      apply Forall_forall. intros z Hz.
      apply (Permutation_in _ (insert_sorted_perm A key reverse x r)) in Hz.
      destruct Hz as [<- | Hz].
      * now apply in_order_of_lt.
      * rewrite Forall_forall in Hy. now apply Hy.
    + constructor; [assumption |]. constructor; [exact E |].
      rewrite Forall_forall in *. intros z Hz.
      apply (in_order_trans x y z); [exact E | now apply Hy].
Qed.

Lemma stable_sort_ordered (l : list A) : ordered (stable_sort key reverse l).
Proof.
  induction l as [| x r IH]; simpl; [constructor |].
  now apply insert_sorted_ordered.
Qed.

Lemma insert_sorted_head (x : A) (l : list A) :
  Forall (in_order key reverse x) l ->
  insert_sorted key reverse x l = x :: l.
Proof.
  intro H. destruct l as [| y r]; [reflexivity |]. simpl.
  inversion H as [| ? ? Hy _]; subst. unfold in_order in Hy.
  now rewrite Hy.
Qed.

Lemma filter_insert_sorted (p : A -> bool) (x : A) (l : list A) :
  ordered l ->
  filter p (insert_sorted key reverse x l)
  = if p x then insert_sorted key reverse x (filter p l) else filter p l.
Proof.
  induction l as [| y r IH]; intro Hs.
  - simpl. now destruct (p x).
  - inversion Hs as [| ? ? Hr Hy]; subst. simpl insert_sorted.
    destruct (key_lt reverse (key y) (key x)) eqn:E.
    + simpl filter. rewrite (IH Hr).
      destruct (p x), (p y); simpl; try rewrite E; reflexivity.
    + simpl filter. destruct (p x) eqn:Px; [| reflexivity].
      symmetry. apply insert_sorted_head.
      assert (Hall : Forall (in_order key reverse x) (y :: r)).
      { constructor; [exact E |]. rewrite Forall_forall in *.
        intros z Hz. apply (in_order_trans x y z); [exact E | now apply Hy]. }
      rewrite Forall_forall in *. intros z Hz. apply Hall.
      change (In z (filter p (y :: r))) in Hz.
      now apply filter_In in Hz.
Qed.

(** Filtering before or after the sort gives the same rows. *)
Lemma stable_sort_filter (p : A -> bool) (l : list A) :
  stable_sort key reverse (filter p l)
  = filter p (stable_sort key reverse l).
Proof.
  induction l as [| x r IH]; [reflexivity |].
  simpl stable_sort. rewrite filter_insert_sorted
    by apply stable_sort_ordered.
  simpl filter. destruct (p x); [simpl; now rewrite IH | exact IH].
Qed.

Lemma filter_all (p : A -> bool) (l : list A) :
  Forall (fun x => p x = true) l -> filter p l = l.
Proof.
  induction 1 as [| x r Hx _ IH]; simpl; [reflexivity |].
  now rewrite Hx, IH.
Qed.

Lemma filter_none (p : A -> bool) (l : list A) :
  Forall (fun x => p x = false) l -> filter p l = [].
Proof.
  induction 1 as [| x r Hx _ IH]; simpl; [reflexivity |].
  now rewrite Hx.
Qed.

(** In a sorted list with distinct keys, the rows with a key beyond that
    of [x] are the rows after [x]. *)
Lemma filter_after (s1 s2 : list A) (x : A) :
  ordered (s1 ++ x :: s2) ->
  NoDup (map key (s1 ++ x :: s2)) ->
  filter (fun r => key_lt reverse (key x) (key r)) (s1 ++ x :: s2) = s2.
Proof.
  induction s1 as [| a s1 IH]; intros Hs Hn.
  - simpl app in *. simpl filter. rewrite key_lt_irrefl.
    inversion Hs as [| ? ? _ Hx]; subst.
    simpl in Hn. inversion Hn as [| ? ? Hnx _]; subst.
    apply filter_all. rewrite Forall_forall in *. intros z Hz.
    apply lt_of_in_order; [now apply Hx |].
    intro Heq. apply Hnx. rewrite Heq. now apply in_map.
  - simpl app in *. inversion Hs as [| ? ? Hr Ha]; subst.
    simpl in Hn. inversion Hn as [| ? ? _ Hn']; subst.
    simpl filter.
    assert (Hax : in_order key reverse a x).
    { rewrite Forall_forall in Ha. apply Ha. apply in_or_app.
      right. now left. }
    unfold in_order in Hax. rewrite Hax. now apply IH.
Qed.

End SortedFacts.

(* ===================================================================== *)
(** * The [last_id] stream *)
(* ===================================================================== *)

Module Keyset.
Import MySql Alternative Tables.

Lemma join_users_filter (us : list User) (p : FinancialFund -> bool)
  (l : list FinancialFund) :
  join_users us (filter p l)
  = filter (fun r => p (v_fund r)) (join_users us l).
Proof.
  unfold join_users. induction l as [| f l IH]; [reflexivity |].
  simpl. destruct (p f) eqn:E; simpl;
    destruct (find (fun u => u_id u =? handle_by f) us); simpl;
    rewrite ?E; now rewrite IH.
Qed.

Lemma join_users_fund (us : list User) (l : list FinancialFund)
  (r : FundView) : In r (join_users us l) -> In (v_fund r) l.
Proof.
  unfold join_users. rewrite in_flat_map. intros [f [Hf Hr]].
  destruct (find (fun u => u_id u =? handle_by f) us); [| contradiction].
  destruct Hr as [<- | []]. exact Hf.
Qed.

Lemma join_users_keys (us : list User) (col : FinancialFund -> Z)
  (l : list FinancialFund) :
  NoDup (map col l) ->
  NoDup (map (fun r => col (v_fund r)) (join_users us l)).
Proof.
  induction l as [| f l IH]; intro H; [constructor |].
  simpl in H. inversion H as [| ? ? Hn Hl]; subst.
  unfold join_users. simpl flat_map. fold (join_users us l).
  destruct (find (fun u => u_id u =? handle_by f) us); simpl;
    [| now apply IH].
  constructor; [| now apply IH].
  intro Hin. apply Hn. apply in_map_iff in Hin.
  destruct Hin as [r [Hk Hr]]. simpl in Hk. rewrite <- Hk.
  apply in_map. now apply join_users_fund in Hr.
Qed.

Lemma filter_andb {A : Type} (p q : A -> bool) (l : list A) :
  filter (fun x => p x && q x) l = filter q (filter p l).
Proof.
  induction l as [| x l IH]; [reflexivity |]. simpl.
  destruct (p x); simpl; [destruct (q x) |]; now rewrite IH.
Qed.

(** With one non-empty id list there is one condition, and the cursor
    test joins it. *)
Lemma where_clause_single (hs os cs : list Z)
  (cursor : option (FinancialFund -> bool)) (f : FinancialFund) :
  length (conditions hs os cs) = 1%nat ->
  where_clause (conditions hs os cs) cursor f
  = in_scope hs os cs f
    && match cursor with Some after => after f | None => true end.
Proof.
  intro H. unfold in_scope.
  destruct hs as [| h hs], os as [| o os], cs as [| c cs];
    simpl in H; try discriminate;
    unfold where_clause, conditions; destruct cursor; simpl;
    rewrite ?orb_false_r, ?andb_true_r; reflexivity.
Qed.

(** The page cut from the rows of one request. *)
Lemma page_cut {A : Type} (rows : list A) (page_size : Z) :
  0 <= page_size ->
  (results <- limit_offset (page_size + 1) 0 rows ;;
   Ok (if page_size <? Z.of_nat (length results)
       then removelast results else results,
       page_size <? Z.of_nat (length results)))
  = Ok (if page_size <? len rows
        then (firstn (Z.to_nat page_size) rows, true)
        else (rows, false)).
Proof.
  intro Hp. unfold limit_offset.
  replace ((page_size + 1 <? 0) || (0 <? 0)) with false
    by (symmetry; apply orb_false_iff; split; apply Z.ltb_ge; lia).
  simpl bind. simpl skipn.
  replace (Z.to_nat (page_size + 1)) with (S (Z.to_nat page_size)) by lia.
  destruct (page_size <? len rows) eqn:E.
  - apply Z.ltb_lt in E. unfold len in *.
    replace (page_size
             <? Z.of_nat (length (firstn (S (Z.to_nat page_size)) rows)))
      with true
      by (symmetry; apply Z.ltb_lt; rewrite length_firstn; lia).
    rewrite removelast_firstn by lia. reflexivity.
  - apply Z.ltb_ge in E. unfold len in *.
    rewrite firstn_all2 by lia.
    replace (page_size <? Z.of_nat (length rows)) with false
      by (symmetry; apply Z.ltb_ge; lia).
    reflexivity.
Qed.

Section Stream.

Variable db : Db.
Variables hs os cs : list Z.
Variable page_size : Z.
Variables sort_by sort_order : string.
Variable col : FinancialFund -> Z.
Variable reverse : bool.

Hypothesis column_ok : fund_column sort_by = Some col.
Hypothesis direction_ok : sort_direction sort_order = Some reverse.
Hypothesis cursor_ok :
  forall last_id f,
    (if (upper sort_order =? "ASC")%string
     then last_id <? col f else col f <? last_id)
    = key_lt reverse last_id (col f).
Hypothesis single : length (conditions hs os cs) = 1%nat.
Hypothesis size_ok : 1 <= page_size.

Let keyv (r : FundView) : Z := col (v_fund r).
Let sorted : list FundView :=
  stable_sort keyv reverse (qualifying db hs os cs).

Hypothesis keys_distinct : NoDup (map keyv sorted).
Hypothesis keys_positive : forall r, In r sorted -> 0 < keyv r.

(** One request: the rows beyond the cursor, cut to a page. *)
Lemma request_rows (last_id : Z) :
  get_financial_funds_with_pagination_v3 db hs os cs last_id page_size
    sort_by sort_order
  = let rows :=
      filter (fun r => if 0 <? last_id
                       then key_lt reverse last_id (keyv r) else true)
             sorted in
    Ok (if page_size <? len rows
        then (firstn (Z.to_nat page_size) rows, true)
        else (rows, false)).
Proof.
  unfold get_financial_funds_with_pagination_v3.
  pose proof (fun c f => where_clause_single hs os cs c f single) as Hw.
  destruct (conditions hs os cs) as [| c0 rest] eqn:Ec;
    [discriminate single |].
  rewrite column_ok, direction_ok.
  rewrite (filter_ext _ _ (Hw _)), filter_andb, join_users_filter.
  fold (qualifying db hs os cs).
  rewrite stable_sort_filter. fold keyv. fold sorted.
  rewrite (filter_ext _ (fun r => if 0 <? last_id
                                  then key_lt reverse last_id (keyv r)
                                  else true))
    by (intro r; destruct (0 <? last_id); [| reflexivity];
        pose proof (cursor_ok last_id (v_fund r)) as H;
        destruct (upper sort_order =? "ASC")%string; exact H).
  cbv zeta. now rewrite page_cut by lia.
Qed.

(** The stream, started behind the rows [done], yields the rest. *)
Lemma stream_rest :
  forall (fuel : nat) (rest done : list FundView) (last_id : Z),
    sorted = done ++ rest ->
    (length rest < fuel)%nat ->
    (last_id <= 0 /\ done = [])
    \/ (exists d x, done = d ++ [x] /\ last_id = keyv x) ->
    stream_pages fuel db hs os cs last_id page_size sort_by sort_order
    = Ok rest.
Proof.
  induction fuel as [| fuel IH]; intros rest done last_id Hs Hf Hc; [lia |].
  assert (Hrows :
            filter (fun r => if 0 <? last_id
                             then key_lt reverse last_id (keyv r) else true)
                   sorted = rest).
  { destruct Hc as [[Hl ->] | [d [x [-> ->]]]].
    - replace (0 <? last_id) with false by (symmetry; apply Z.ltb_ge; lia).
      simpl in Hs. rewrite <- Hs. apply filter_all.
      apply Forall_forall. reflexivity.
    - assert (Hx : 0 < keyv x).
      { apply keys_positive. rewrite Hs. apply in_or_app. left.
        apply in_or_app. right. now left. }
      apply Z.ltb_lt in Hx. rewrite Hx.
      rewrite <- app_assoc in Hs. simpl in Hs. rewrite Hs.
      apply filter_after.
      + rewrite <- Hs. apply stable_sort_ordered.
      + rewrite <- Hs. exact keys_distinct. }
  simpl stream_pages. rewrite request_rows. cbv zeta. rewrite Hrows.
  simpl bind. destruct (page_size <? len rest) eqn:E; simpl snd; simpl fst;
    cbv iota; [| reflexivity].
  apply Z.ltb_lt in E. unfold len in E. rewrite column_ok.
  assert (Hne : firstn (Z.to_nat page_size) rest <> []).
  { intro H. apply (f_equal (@length _)) in H.
    rewrite length_firstn in H. simpl in H. lia. }
  destruct (exists_last Hne) as [d' [x' Hd]].
  rewrite Hd at 1. rewrite rev_app_distr. simpl rev. simpl app.
  cbv iota beta. fold keyv.
  rewrite (IH (skipn (Z.to_nat page_size) rest) (done ++ d' ++ [x'])).
  - simpl bind. now rewrite firstn_skipn.
  - rewrite <- Hd. rewrite <- app_assoc. now rewrite firstn_skipn.
  - rewrite length_skipn. lia.
  - right. exists (done ++ d'), x'. split; [| reflexivity].
    now rewrite app_assoc.
Qed.

End Stream.

(** C8, as stated, fails: sorted by amount, one row per page, the stream
    over three funds of one handler returns G1 and G3; G2, whose amount
    equals that of G1, is never visited: the order has no tie-break on the
    fund id and the cursor test is strict. *)
Lemma stream_skips_row_of_equal_key :
  exists items,
    stream_pages 10 tie_db [11] [] [] 0 1 "amount" "ASC" = Ok items
    /\ map v_fund items = [G1; G3]
    /\ map v_fund (qualifying tie_db [11] [] []) = [G1; G2; G3].
Proof.
  eexists. split; [vm_compute; reflexivity |]. split; reflexivity.
Qed.

(** With more than one non-empty id list the cursor test joins the last
    condition only; in the scenario the second request returns the first
    page again, and so on for ever. *)
Lemma stream_repeats_first_page :
  ~ exists fuel,
      stream_pages fuel scenario_db [10; 11; 12] [201] [301] 0 1
        "fund_id" "ASC" <> OutOfFuel.
Proof.
  assert (H1 : forall fuel,
             stream_pages fuel scenario_db [10; 11; 12] [201] [301] 1 1
               "fund_id" "ASC" = OutOfFuel).
  { induction fuel as [| fuel IH]; [reflexivity |].
    change (stream_pages (S fuel) scenario_db [10; 11; 12] [201] [301] 1 1
              "fund_id" "ASC")
      with (r <- get_financial_funds_with_pagination_v3 scenario_db
                   [10; 11; 12] [201] [301] 1 1 "fund_id" "ASC" ;;
            if snd r then
              match fund_column "fund_id", rev (fst r) with
              | Some col, last_row :: _ =>
                  rest <- stream_pages fuel scenario_db [10; 11; 12] [201]
                            [301] (col (v_fund last_row)) 1 "fund_id" "ASC" ;;
                  Ok (fst r ++ rest)
              | _, _ => Raise TypeError
              end
            else Ok (fst r)).
    replace (get_financial_funds_with_pagination_v3 scenario_db
               [10; 11; 12] [201] [301] 1 1 "fund_id" "ASC")
      with (Ok ([mkView F1 "A" "east"], true))
      by (vm_compute; reflexivity).
    simpl bind. simpl snd. simpl fst. cbv iota.
    change (fund_column "fund_id") with (Some fund_id). simpl rev.
    cbv iota beta. change (fund_id (v_fund (mkView F1 "A" "east"))) with 1.
    now rewrite IH. }
  intros [fuel H]. apply H. destruct fuel as [| fuel]; [reflexivity |].
  change (stream_pages (S fuel) scenario_db [10; 11; 12] [201] [301] 0 1
            "fund_id" "ASC")
    with (r <- get_financial_funds_with_pagination_v3 scenario_db
                 [10; 11; 12] [201] [301] 0 1 "fund_id" "ASC" ;;
          if snd r then
            match fund_column "fund_id", rev (fst r) with
            | Some col, last_row :: _ =>
                rest <- stream_pages fuel scenario_db [10; 11; 12] [201]
                          [301] (col (v_fund last_row)) 1 "fund_id" "ASC" ;;
                Ok (fst r ++ rest)
            | _, _ => Raise TypeError
            end
          else Ok (fst r)).
  replace (get_financial_funds_with_pagination_v3 scenario_db
             [10; 11; 12] [201] [301] 0 1 "fund_id" "ASC")
    with (Ok ([mkView F1 "A" "east"], true))
    by (vm_compute; reflexivity).
  simpl bind. simpl snd. simpl fst. cbv iota.
  change (fund_column "fund_id") with (Some fund_id). simpl rev.
  cbv iota beta. change (fund_id (v_fund (mkView F1 "A" "east"))) with 1.
  now rewrite H1.
Qed.

(** C8 (amended): for a scope with one non-empty id list, a sort column
    whose values are distinct and positive on the rows of the scope, the
    direction ASC or DESC and a page size of 1 or more, the stream of
    [get_financial_funds_with_pagination_v3], each request taking the sort
    key of the last row of the page before, returns on unchanged data the
    qualifying rows in sort order: each row once, none skipped. The order
    has no tie-break on the fund id. *)
Theorem stream_visits_each_row_once :
  forall (db : Db) (hs os cs : list Z) (page_size : Z)
         (sort_by sort_order : string) (col : FinancialFund -> Z),
    fund_column sort_by = Some col ->
    (upper sort_order =? "ASC")%string || (upper sort_order =? "DESC")%string
    = true ->
    length (conditions hs os cs) = 1%nat ->
    1 <= page_size ->
    distinct (map col (filter (in_scope hs os cs) (financial_funds db)))
    = true ->
    forallb (fun f => 0 <? col f)
            (filter (in_scope hs os cs) (financial_funds db)) = true ->
    exists fuel items,
      stream_pages fuel db hs os cs 0 page_size sort_by sort_order = Ok items
      /\ items = stable_sort (fun r => col (v_fund r))
                   (upper sort_order =? "DESC")%string
                   (qualifying db hs os cs)
      /\ Permutation items (qualifying db hs os cs)
      /\ NoDup (map (fun r => col (v_fund r)) items).
Proof.
  intros db hs os cs page_size sort_by sort_order col Hcol Hord Hone Hsize
         Hdist Hpos.
  set (reverse := (upper sort_order =? "DESC")%string).
  set (keyv := fun r : FundView => col (v_fund r)).
  set (sorted := stable_sort keyv reverse (qualifying db hs os cs)).
  assert (Hperm : Permutation sorted (qualifying db hs os cs))
    by apply stable_sort_perm.
  assert (Hkeys : NoDup (map keyv sorted)).
  { eapply Permutation_NoDup;
      [apply Permutation_map, Permutation_sym, Hperm |].
    apply join_users_keys. now apply distinct_NoDup. }
  assert (Hdir : sort_direction sort_order = Some reverse).
  { unfold sort_direction, reverse.
    destruct (upper sort_order =? "ASC")%string eqn:E.
    - apply String.eqb_eq in E. now rewrite E.
    - simpl in Hord. now rewrite Hord. }
  assert (Hcur : forall last_id f,
             (if (upper sort_order =? "ASC")%string
              then last_id <? col f else col f <? last_id)
             = key_lt reverse last_id (col f)).
  { intros last_id f. unfold reverse, key_lt.
    destruct (upper sort_order =? "ASC")%string eqn:E.
    - apply String.eqb_eq in E. now rewrite E.
    - simpl in Hord. now rewrite Hord. }
  exists (S (length sorted)), sorted.
  split; [| split; [reflexivity | split; assumption]].
  apply (stream_rest db hs os cs page_size sort_by sort_order col reverse
           Hcol Hdir Hcur Hone Hsize Hkeys) with (done := []).
  - intros r Hr.
    apply (Permutation_in _ Hperm), join_users_fund in Hr.
    rewrite forallb_forall in Hpos. apply Z.ltb_lt. now apply Hpos.
  - reflexivity.
  - lia.
  - left. split; [lia | reflexivity].
Qed.

Lemma stream_visits_each_row_once_witness :
  fund_column "fund_id" = Some fund_id
  /\ length (conditions [11] [] []) = 1%nat
  /\ distinct (map fund_id (filter (in_scope [11] [] [])
                              (financial_funds tie_db))) = true
  /\ exists fuel items,
       stream_pages fuel tie_db [11] [] [] 0 1 "fund_id" "DESC" = Ok items
       /\ Permutation items (qualifying tie_db [11] [] []).
Proof.
  split; [reflexivity |]. split; [reflexivity |]. split; [reflexivity |].
  destruct (stream_visits_each_row_once tie_db [11] [] [] 1 "fund_id" "DESC"
              fund_id) as [fuel [items [H1 [_ [H2 _]]]]];
    try reflexivity; try lia.
  exists fuel, items. split; assumption.
Defined.

End Keyset.

(* ===================================================================== *)
(** * [main.py]: what the traversal and the scope compute *)
(* ===================================================================== *)

Module ClosureFacts.
Import Main Tables MainFacts.

Lemma children_In (us : list (Z * User)) (p c : Z) :
  In c (children us p)
  <-> exists u, In (c, u) us /\ u_parent_id u = Some p.
Proof.
  unfold children. rewrite in_map_iff. split.
  - intros [[k u] [<- H]]. apply filter_In in H. destruct H as [Hin Hp].
    simpl in *. exists u. split; [assumption |].
    destruct (u_parent_id u) as [q |]; simpl in Hp; [| discriminate].
    apply Z.eqb_eq in Hp. now subst.
  - intros [u [Hin Hp]]. exists (c, u). split; [reflexivity |].
    apply filter_In. split; [assumption |]. simpl. rewrite Hp. simpl.
    apply Z.eqb_refl.
Qed.

Lemma loop_invariant_step (us : list (Z * User)) (root : Z)
  (rest : list Z) (x : Z) (subs : list Z) :
  loop_invariant us root (rest ++ [x]) subs ->
  loop_invariant us root (rest ++ children us x) (set_add x subs).
Proof.
  intros [Hd [Hr Hc]]. split; [| split].
  - intros y [Hy | Hy].
    + apply in_app_or in Hy. destruct Hy as [Hy | Hy].
      * apply Hd. left. apply in_or_app. now left.
      * apply children_In in Hy. destruct Hy as [u [Hin Hp]].
        apply (descends_child us root x y u); auto.
        apply Hd. left. apply in_or_app. right. now left.
    + apply set_add_In in Hy. destruct Hy as [-> | Hy].
      * apply Hd. left. apply in_or_app. right. now left.
      * apply Hd. now right.
  - destruct Hr as [Hr | Hr].
    + apply in_app_or in Hr. destruct Hr as [Hr | [<- | []]].
      * left. apply in_or_app. now left.
      * right. apply set_add_In. now left.
    + right. apply set_add_In. now right.
  - intros p c Hp Hch. apply set_add_In in Hp. destruct Hp as [-> | Hp].
    + right. apply in_or_app. now right.
    + destruct (Hc p c Hp Hch) as [H | H].
      * left. apply set_add_In. now right.
      * apply in_app_or in H. destruct H as [H | [<- | []]].
        -- right. apply in_or_app. now left.
        -- left. apply set_add_In. now left.
Qed.

Lemma loop_invariant_end (fuel : nat) (us : list (Z * User)) (root : Z) :
  forall stack subs r,
    subordinates_loop fuel us stack subs = Ok r ->
    loop_invariant us root stack subs ->
    loop_invariant us root [] r.
Proof.
  induction fuel as [| fuel IH]; intros stack subs r H Hinv; [discriminate |].
  destruct stack as [| a s].
  - simpl in H. injection H as <-. exact Hinv.
  - destruct (@exists_last _ (a :: s)) as [rest [x Hx]]; [discriminate |].
    rewrite Hx in *. rewrite subordinates_loop_step in H.
    apply (IH _ _ _ H). now apply loop_invariant_step.
Qed.

(** The traversal of [main.py] returns the root and every user below it,
    at any depth, and nothing else. *)
Theorem get_subordinates_is_closure :
  forall (fuel : nat) (svc : PermissionService) (user_id : Z) (r : list Z),
    get_subordinates fuel svc user_id = Ok r ->
    forall k, In k r <-> descends (users svc) user_id k.
Proof.
  intros fuel svc user_id r H k.
  assert (Hinv : loop_invariant (users svc) user_id [] r).
  { apply (loop_invariant_end fuel (users svc) user_id _ _ _ H).
    split; [| split].
    - intros x [[<- | []] | []]. constructor.
    - left. now left.
    - intros p c []. }
  destruct Hinv as [Hd [Hr Hc]]. split.
  - intro Hk. apply Hd. now right.
  - intro Hk. induction Hk as [| p k' u _ IH Hin Hp].
    + destruct Hr as [[] | Hr]. exact Hr.
    + destruct (Hc p k' IH) as [Hs | []]; [| exact Hs].
      apply children_In. eauto.
Qed.

Lemma get_subordinates_is_closure_witness :
  get_subordinates 10 init 1 = Ok [1; 4; 2; 3]
  /\ (In 3 [1; 4; 2; 3] <-> descends (users init) 1 3).
Proof.
  split; [reflexivity |].
  apply (get_subordinates_is_closure 10 init 1). reflexivity.
Defined.

End ClosureFacts.

(* ===================================================================== *)
(** * [main.py]: the scope of each role *)
(* ===================================================================== *)

Module ScopeFacts.
Import Main Tables MainFacts.









Lemma in_to_set_map {A : Type} (key : A -> Z) (l : list A) (k : Z) :
  mem k (to_set (map key l)) = true <-> exists x, In x l /\ key x = k.
Proof.
  rewrite mem_In, to_set_In, in_map_iff. split; intros [x [H1 H2]]; eauto.
Qed.

Lemma mem_singleton (x y : Z) : mem x [y] = (x =? y).
Proof. unfold mem. simpl. apply orb_false_r. Qed.

(** What an admin, a member of staff and any other role see in [main.py]:
    the admin every fund whose handler, order or customer is on file (a
    fund with none of them on file is hidden even from the admin), the
    staff member the funds that user handles, ordered or administers, a
    user of any other role nothing. *)
Theorem funds_seen_by_role :
  forall (fuel : nat) (svc : PermissionService) (user : User),
    (u_role user = "admin"%string ->
     exists funds,
       get_funds fuel svc user = Ok funds
       /\ forall f,
            In f funds
            <-> In f (financial_funds svc)
                /\ ((exists u, In u (values (users svc))
                               /\ u_id u = handle_by f)
                    \/ (exists o, In o (values (orders svc))
                                  /\ o_order_id o = order_id f)
                    \/ (exists c, In c (values (customers svc))
                                  /\ c_customer_id c = customer_id f)))
    /\ (u_role user = "staff"%string ->
        exists funds,
          get_funds fuel svc user = Ok funds
          /\ forall f,
               In f funds
               <-> In f (financial_funds svc)
                   /\ (handle_by f = u_id user
                       \/ (exists o, In o (values (orders svc))
                                     /\ o_user_id o = u_id user
                                     /\ o_order_id o = order_id f)
                       \/ (exists c, In c (values (customers svc))
                                     /\ c_admin_user_id c = u_id user
                                     /\ c_customer_id c = customer_id f)))
    /\ (u_role user <> "admin"%string ->
        u_role user <> "supervisor"%string ->
        u_role user <> "staff"%string ->
        get_funds fuel svc user = Ok []).
Proof.
  intros fuel svc user. unfold get_funds, get_accessible_data_scope.
  split; [| split].
  - intros ->. simpl. eexists. split; [reflexivity |]. intro f.
    rewrite filter_In. unfold in_scope. simpl.
    rewrite !orb_true_iff, !in_to_set_map. tauto.
  - intro H. rewrite H. simpl. eexists. split; [reflexivity |]. intro f.
    rewrite filter_In. unfold in_scope.
    cbn [sc_handle_by sc_order_ids sc_customer_ids].
    rewrite !orb_true_iff, mem_singleton, !in_to_set_map, Z.eqb_eq.
    assert (Eo : (exists x, In x (filter (fun o => o_user_id o =? u_id user)
                                         (values (orders svc)))
                            /\ o_order_id x = order_id f)
                 <-> (exists o, In o (values (orders svc))
                                /\ o_user_id o = u_id user
                                /\ o_order_id o = order_id f)).
    { split; intros [o Ho]; exists o; rewrite filter_In, Z.eqb_eq in *;
        tauto. }
    assert (Ec : (exists x, In x (filter
                                    (fun c => c_admin_user_id c =? u_id user)
                                    (values (customers svc)))
                            /\ c_customer_id x = customer_id f)
                 <-> (exists c, In c (values (customers svc))
                                /\ c_admin_user_id c = u_id user
                                /\ c_customer_id c = customer_id f)).
    { split; intros [c Hc]; exists c; rewrite filter_In, Z.eqb_eq in *;
        tauto. }
    rewrite Eo, Ec. tauto.
  - intros H1 H2 H3. apply String.eqb_neq in H1, H2, H3.
    rewrite H1, H2, H3. simpl.
    induction (financial_funds svc) as [| f l IH]; [reflexivity |].
    simpl. injection IH as IH. now rewrite IH.
Qed.

Lemma funds_seen_by_role_witness :
  u_role (mkUser 3 "财务专员" "staff" "华东区" (Some 2)) = "staff"%string
  /\ exists funds,
       get_funds 0 init (mkUser 3 "财务专员" "staff" "华东区" (Some 2))
       = Ok funds.
Proof.
  split; [reflexivity |].
  destruct (proj1 (proj2 (funds_seen_by_role 0 init
                            (mkUser 3 "财务专员" "staff" "华东区" (Some 2))))
                  eq_refl) as [funds [H _]].
  exists funds. exact H.
Defined.

End ScopeFacts.

(* ===================================================================== *)
(** * [main.py]: a supervisor and the staff below; authentication *)
(* ===================================================================== *)

Module HierarchyFacts.
Import Main Tables MainFacts ScopeFacts.

Lemma filter_r_In {A : Type} (p : A -> result bool) (l : list A) :
  forall r,
    filter_r p l = Ok r ->
    forall x, In x r <-> In x l /\ p x = Ok true.
Proof.
  induction l as [| a l IH]; intros r H x; simpl in H.
  - injection H as <-. simpl. tauto.
  - destruct (p a) as [b | e |] eqn:Ea; simpl in H; try discriminate.
    destruct (filter_r p l) as [r' | e |]; simpl in H; try discriminate.
    injection H as <-. specialize (IH r' eq_refl x).
    destruct b; simpl; rewrite ?IH; split.
    + intros [<- | [H1 H2]]; [split; [now left | assumption] |].
      split; [now right | assumption].
    + intros [[<- | H1] H2]; [now left | right; now split].
    + intros [H1 H2]. split; [now right | assumption].
    + intros [[<- | H1] H2]; [congruence | now split].
Qed.

Lemma lookup_keyed (us : list (Z * User)) (u : User) :
  keyed_by_id us = true -> In u (values us) ->
  exists u', lookup (u_id u) us = Some u' /\ u_id u' = u_id u.
Proof.
  unfold keyed_by_id, values. induction us as [| [k v] us IH];
    intros Hk Hin; [contradiction |].
  simpl in Hk. apply andb_true_iff in Hk. destruct Hk as [Hkv Hk].
  apply Z.eqb_eq in Hkv. simpl in Hkv. simpl lookup.
  destruct (u_id u =? k) eqn:E.
  - exists v. split; [reflexivity |]. apply Z.eqb_eq in E. lia.
  - destruct Hin as [<- | Hin].
    + simpl in E. rewrite Hkv, Z.eqb_refl in E. discriminate.
    + now apply IH.
Qed.

(** A supervisor sees every fund that a member of staff among the
    subordinates sees, when every user is filed under its own id. *)
Theorem supervisor_sees_staff_funds :
  forall (fuel : nat) (svc : PermissionService) (sup staff : User)
         (subs : list Z) (sup_funds staff_funds : list FinancialFund),
    keyed_by_id (users svc) = true ->
    u_role sup = "supervisor"%string ->
    u_role staff = "staff"%string ->
    get_subordinates fuel svc (u_id sup) = Ok subs ->
    mem (u_id staff) subs = true ->
    In staff (values (users svc)) ->
    get_funds fuel svc sup = Ok sup_funds ->
    get_funds fuel svc staff = Ok staff_funds ->
    incl staff_funds sup_funds.
Proof.
  intros fuel svc sup staff subs sup_funds staff_funds Hkey Hsup Hstaff
         Hsubs Hmem Hin Hfs Hft f Hf.
  destruct (lookup_keyed _ _ Hkey Hin) as [u' [Hl Hu']].
  assert (Hown : owner_in (users svc) subs (u_id staff) = Ok true).
  { unfold owner_in. rewrite Hl, Hu'. now rewrite Hmem. }
  unfold get_funds, get_accessible_data_scope in Hfs, Hft.
  rewrite Hsup, Hsubs in Hfs. simpl bind in Hfs.
  rewrite Hstaff in Hft. simpl in Hft. injection Hft as <-.
  destruct (filter_r (fun o => owner_in (users svc) subs (o_user_id o))
                     (values (orders svc))) as [os | e |] eqn:Eo;
    simpl in Hfs; try discriminate.
  destruct (filter_r (fun c => owner_in (users svc) subs (c_admin_user_id c))
                     (values (customers svc))) as [cs | e |] eqn:Ec;
    simpl in Hfs; try discriminate.
  injection Hfs as <-.
  apply filter_In in Hf. destruct Hf as [Hf Hs].
  apply filter_In. split; [assumption |].
  unfold in_scope in *.
  cbn [sc_handle_by sc_order_ids sc_customer_ids] in *.
  rewrite !orb_true_iff in *. rewrite mem_singleton, Z.eqb_eq in Hs.
  rewrite !in_to_set_map in *.
  destruct Hs as [[Hs | [o [Ho Hid]]] | [c [Hc Hid]]].
  - left. left. exists staff. split; [| now symmetry].
    apply filter_In. split; [assumption | exact Hmem].
  - left. right. exists o. split; [| assumption].
    apply filter_In in Ho. destruct Ho as [Ho Hu]. apply Z.eqb_eq in Hu.
    apply (filter_r_In _ _ _ Eo). split; [assumption |]. now rewrite Hu.
  - right. exists c. split; [| assumption].
    apply filter_In in Hc. destruct Hc as [Hc Hu]. apply Z.eqb_eq in Hu.
    apply (filter_r_In _ _ _ Ec). split; [assumption |]. now rewrite Hu.
Qed.

Lemma supervisor_sees_staff_funds_witness :
  keyed_by_id (users init) = true
  /\ get_subordinates 5 init 2 = Ok [2; 3]
  /\ get_funds 5 init (mkUser 3 "财务专员" "staff" "华东区" (Some 2))
     = Ok [mkFund 1001 3 2001 3001 50000; mkFund 1003 3 2003 3003 60000]
  /\ incl [mkFund 1001 3 2001 3001 50000; mkFund 1003 3 2003 3003 60000]
          [mkFund 1001 3 2001 3001 50000; mkFund 1002 2 2002 3002 80000;
           mkFund 1003 3 2003 3003 60000].
Proof.
  split; [reflexivity |]. split; [reflexivity |]. split; [reflexivity |].
  apply (supervisor_sees_staff_funds 5 init
           (mkUser 2 "财务主管" "supervisor" "华东区" (Some 1))
           (mkUser 3 "财务专员" "staff" "华东区" (Some 2)) [2; 3]);
    try reflexivity.
  simpl. tauto.
Defined.

Lemma find_some_of_existsb {A : Type} (p : A -> bool) (l : list A) :
  existsb p l = true -> exists x, find p l = Some x /\ In x l /\ p x = true.
Proof.
  induction l as [| a l IH]; simpl; [discriminate |].
  destruct (p a) eqn:E; simpl.
  - intros _. exists a. auto.
  - intro H. destruct (IH H) as [x [H1 [H2 H3]]]. exists x. auto.
Qed.

Lemma find_none_of_existsb {A : Type} (p : A -> bool) (l : list A) :
  existsb p l = false -> find p l = None.
Proof.
  induction l as [| a l IH]; simpl; [reflexivity |].
  destruct (p a); simpl; [discriminate | exact IH].
Qed.

(** Whom [authenticate] logs in.  When a user has the role, a user of
    that role, in [database.py] one with an id of 4 or less if there is
    one.  [main.py] needs user 1 on file even then: without it the call
    raises [KeyError] for every role.  [database.py] raises
    ([TypeError]) only when nobody has the role and user 1 is missing. *)
Theorem authenticate_outcomes :
  (forall (gw : ApiGateway) (role : string) (fallback : User),
      lookup 1 (users (permission_svc gw)) = Some fallback ->
      existsb (fun u => (u_role u =? role)%string)
              (values (users (permission_svc gw))) = true ->
      exists u,
        authenticate gw role = Ok (mkGateway (permission_svc gw) (Some u))
        /\ u_role u = role
        /\ In u (values (users (permission_svc gw))))
  /\ (forall (gw : ApiGateway) (role : string),
         lookup 1 (users (permission_svc gw)) = None ->
         authenticate gw role = Raise KeyError)
  /\ (forall (db : Database.Db) (role : string),
         existsb (fun u => (u_role u =? role)%string) (Database.users db)
         = true ->
         exists u,
           Database.authenticate db role = Ok u
           /\ u_role u = role
           /\ In u (Database.users db)
           /\ (existsb (fun u => (u_role u =? role)%string && (u_id u <=? 4))
                       (Database.users db) = true ->
               u_id u <= 4))
  /\ (forall (db : Database.Db) (role : string),
         existsb (fun u => (u_role u =? role)%string) (Database.users db)
         = false ->
         existsb (fun u => u_id u =? 1) (Database.users db) = false ->
         Database.authenticate db role = Raise TypeError).
Proof.
  split; [| split; [| split]].
  - intros gw role fallback Hl He. unfold authenticate. rewrite Hl.
    destruct (find_some_of_existsb _ _ He) as [u [Hf [Hin Hr]]].
    rewrite Hf. exists u. split; [reflexivity |].
    split; [now apply String.eqb_eq | assumption].
  - intros gw role Hl. unfold authenticate. now rewrite Hl.
  - intros db role He. unfold Database.authenticate.
    destruct (find (fun u => (u_role u =? role)%string && (u_id u <=? 4))
                   (Database.users db)) as [u |] eqn:E1.
    + apply find_some in E1. destruct E1 as [Hin Hp].
      apply andb_true_iff in Hp. destruct Hp as [Hr Hi].
      exists u. split; [reflexivity |].
      split; [now apply String.eqb_eq |]. split; [assumption |].
      intros _. now apply Z.leb_le.
    + destruct (find_some_of_existsb _ _ He) as [u [Hf [Hin Hr]]].
      rewrite Hf. exists u. split; [reflexivity |].
      split; [now apply String.eqb_eq |]. split; [assumption |].
      intro H4. destruct (find_some_of_existsb _ _ H4) as [v [Hv _]].
      congruence.
  - intros db role He H1. unfold Database.authenticate.
    pose proof (find_none_of_existsb _ _ He) as Hn.
    rewrite (Gateway.find_weaken _ (fun u => u_id u <=? 4) _ Hn), Hn.
    now rewrite (find_none_of_existsb _ _ H1).
Qed.

Lemma authenticate_outcomes_witness :
  lookup 1 (users cyclic_service)
  = Some (mkUser 1 "a" "supervisor" "d" (Some 2))
  /\ exists u,
       authenticate (mkGateway cyclic_service None) "staff"
       = Ok (mkGateway cyclic_service (Some u))
       /\ u_role u = "staff"%string.
Proof.
  split; [reflexivity |].
  destruct (proj1 authenticate_outcomes (mkGateway cyclic_service None)
                  "staff"%string (mkUser 1 "a" "supervisor" "d" (Some 2)))
    as [u [H1 [H2 _]]]; try reflexivity.
  exists u. split; assumption.
Defined.

End HierarchyFacts.

(* ===================================================================== *)
(** * [database.py]: the depth of the recursive query; the user dict *)
(* ===================================================================== *)

Module DepthFacts.
Import Database Tables.

Lemma recursive_select_shallow (us : list User) (root : Z) (row : Z * Z) :
  shallow us root row ->
  Forall (shallow us root) (recursive_select us row).
Proof.
  intros [Hd Ha]. unfold recursive_select.
  destruct (snd row <? 3) eqn:E; [| constructor].
  apply Z.ltb_lt in E. apply Forall_forall. intros r Hr.
  apply in_map_iff in Hr. destruct Hr as [u [<- Hu]].
  apply filter_In in Hu. destruct Hu as [Hin Hp].
  destruct (u_parent_id u) as [p |] eqn:Ep; simpl in Hp; [| discriminate].
  apply Z.eqb_eq in Hp. subst p. split; simpl; [lia |].
  now apply (at_depth_child us root (fst row) (snd row) u).
Qed.

Lemma fresh_rows_incl (seen rows : list (Z * Z)) (r : Z * Z) :
  In r (fresh_rows seen rows) -> In r rows.
Proof.
  revert seen. induction rows as [| a rows IH]; intros seen H; simpl in *.
  - contradiction.
  - destruct (row_mem a seen).
    + right. eapply IH. eassumption.
    + destruct H as [-> | H]; [now left | right; eapply IH; eassumption].
Qed.

Lemma recursive_cte_shallow (us : list User) (root : Z) (limit : nat) :
  forall queue seen,
    Forall (shallow us root) queue ->
    Forall (shallow us root) (recursive_cte limit us queue seen).
Proof.
  induction limit as [| n IH]; intros queue seen Hq; simpl; [constructor |].
  destruct queue as [| row q]; [constructor |].
  inversion Hq as [| ? ? Hrow Hq']; subst.
  constructor; [assumption |]. apply IH.
  apply Forall_app. split; [assumption |].
  apply Forall_forall. intros r Hr. apply fresh_rows_incl in Hr.
  pose proof (recursive_select_shallow us root row Hrow) as Hs.
  rewrite Forall_forall in Hs. now apply Hs.
Qed.

(** [DatabasePermissionService.get_subordinates] never goes deeper than
    three levels: every id it returns stands at most three [parent_id]
    references below the user. *)
Theorem database_subordinates_within_three_levels :
  forall (db : Db) (user_id k : Z),
    In k (get_subordinates db user_id) ->
    exists d, 0 <= d <= 3 /\ at_depth (users db) user_id k d.
Proof.
  intros db user_id k H. unfold get_subordinates in H.
  apply set_add_In in H. destruct H as [-> | H].
  - exists 0. split; [lia | constructor].
  - apply to_set_In, in_map_iff in H. destruct H as [[k' d] [<- Hin]].
    assert (Hq : Forall (shallow (users db) user_id) [(user_id, 0)]).
    { constructor; [| constructor]. split; simpl; [lia | constructor]. }
    pose proof (recursive_cte_shallow (users db) user_id (Z.to_nat 1000)
                  [(user_id, 0)] [(user_id, 0)] Hq) as Hall.
    rewrite Forall_forall in Hall. destruct (Hall _ Hin) as [Hd Ha].
    exists d. now split.
Qed.

Lemma database_subordinates_within_three_levels_witness :
  get_subordinates chain_db 1 = [1; 2; 3; 4]
  /\ exists d, 0 <= d <= 3 /\ at_depth (users chain_db) 1 4 d.
Proof.
  split; [vm_compute; reflexivity |].
  apply (database_subordinates_within_three_levels chain_db 1 4).
  vm_compute. tauto.
Defined.

End DepthFacts.

Module UserDictFacts.
Import Database DatabaseUsers HighConcurrency PageFacts.

Lemma lookup_fold_dict_set (rows : list User) :
  forall (d : list (Z * User)) (k : Z),
    NoDup (map u_id rows) ->
    (forall u, In u rows -> lookup (u_id u) d = None) ->
    lookup k (fold_left (fun users u => dict_set (u_id u) u users) rows d)
    = match lookup k d with
      | Some v => Some v
      | None => find (fun u => u_id u =? k) rows
      end.
Proof.
  induction rows as [| a rows IH]; intros d k Hnd Hd; simpl.
  - now destruct (lookup k d).
  - simpl in Hnd. inversion Hnd as [| ? ? Hn Hnd']; subst.
    rewrite IH; auto.
    + rewrite lookup_dict_set. rewrite (Z.eqb_sym (u_id a) k).
      destruct (k =? u_id a) eqn:E.
      * apply Z.eqb_eq in E. subst.
        now rewrite (Hd a (or_introl eq_refl)).
      * reflexivity.
    + intros u Hu. rewrite lookup_dict_set.
      destruct (u_id u =? u_id a) eqn:E.
      * exfalso. apply Z.eqb_eq in E. apply Hn. rewrite <- E.
        now apply in_map.
      * apply Hd. now right.
Qed.

(** On a [users] table with distinct ids, the dict of [get_users] holds
    under every id the user [get_user] returns for it, and nothing under
    an id [get_user] does not know. *)
Theorem get_users_agrees_with_get_user :
  forall (db : Db) (k : Z),
    distinct (map u_id (users db)) = true ->
    lookup k (get_users db) = get_user db k.
Proof.
  intros db k Hd. apply distinct_NoDup in Hd. unfold get_users, get_user.
  rewrite lookup_fold_dict_set; auto.
Qed.

Lemma get_users_agrees_with_get_user_witness :
  distinct (map u_id (users Tables.cyclic_db)) = true
  /\ lookup 2 (get_users Tables.cyclic_db) = get_user Tables.cyclic_db 2.
Proof.
  split; [reflexivity |].
  apply (get_users_agrees_with_get_user Tables.cyclic_db 2). reflexivity.
Defined.

End UserDictFacts.

(* ===================================================================== *)
(** * [high_concurrency_pagination.py]: the cache and the page bounds *)
(* ===================================================================== *)

Module PageEdges.
Import MySql HighConcurrency Tables PageFacts.

(** Once the permissions of a supervisor are cached, the next call
    (while the entry lives: the in-memory cache, before its timer drops
    the entry) returns them again and leaves the cache as it is, whatever
    the tables hold by then; the entries of other supervisors are not
    touched. *)
Theorem cached_permissions_are_reused :
  forall (cache : Cache) (db1 db2 : Db) (supervisor_id : Z),
    let r1 := get_user_permissions cache db1 supervisor_id in
    get_user_permissions (snd r1) db2 supervisor_id = (fst r1, snd r1)
    /\ forall k, k <> supervisor_id -> lookup k (snd r1) = lookup k cache.
Proof.
  intros cache db1 db2 supervisor_id. unfold get_user_permissions.
  destruct (lookup supervisor_id cache) as [p |] eqn:E; simpl.
  - rewrite E. split; reflexivity.
  - rewrite lookup_dict_set, Z.eqb_refl. split; [reflexivity |].
    intros k Hk. rewrite lookup_dict_set.
    apply Z.eqb_neq in Hk. now rewrite Hk.
Qed.

Lemma cached_permissions_are_reused_witness :
  get_user_permissions
    (snd (get_user_permissions [] scenario_db 10)) tie_db 10
  = get_user_permissions [] scenario_db 10.
Proof.
  destruct (cached_permissions_are_reused [] scenario_db tie_db 10)
    as [H _].
  cbv zeta in H. rewrite H. now destruct (get_user_permissions _ _ _).
Defined.

Lemma get_paginated_shape (cache : Cache) (faults : Faults) (db : Db)
  (supervisor_id page page_size : Z) (sort_by sort_order : string) :
  page_size <> 0 ->
  let l := request_funds faults db
             (fst (get_user_permissions cache db supervisor_id))
             sort_by sort_order in
  get_paginated_financial_data cache faults db supervisor_id page page_size
    sort_by sort_order
  = Ok (mkResponse
          (map (with_handler (users db))
               (py_slice l ((page - 1) * page_size)
                         ((page - 1) * page_size + page_size)))
          (mkPagination page page_size (len l)
             (pages_of (len l) page_size)
             (page <? pages_of (len l) page_size) (1 <? page)),
        snd (get_user_permissions cache db supervisor_id)).
Proof.
  intros Hp l. unfold get_paginated_financial_data.
  fold (request_funds faults db
          (fst (get_user_permissions cache db supervisor_id))
          sort_by sort_order). fold l.
  unfold make_pagination, pages_of, len.
  apply Z.eqb_neq in Hp. rewrite Hp.
  destruct (0 <? Z.of_nat (length l)); reflexivity.
Qed.

Lemma py_slice_length {A : Type} (l : list A) (a b : Z) :
  a <= b -> len (py_slice l a b) <= b - a.
Proof.
  intro H. unfold len, py_slice, clamp_index.
  rewrite length_firstn, length_skipn.
  destruct (a <? 0) eqn:Ea, (b <? 0) eqn:Eb;
    rewrite ?Z.ltb_lt, ?Z.ltb_ge in *; lia.
Qed.

Lemma py_slice_beyond {A : Type} (l : list A) (a b : Z) :
  len l <= a -> py_slice l a b = [].
Proof.
  intro H. unfold len in H. unfold py_slice, clamp_index.
  replace (a <? 0) with false by (symmetry; apply Z.ltb_ge; lia).
  rewrite (Z.min_r a) by lia.
  rewrite skipn_all2 by lia. apply firstn_nil.
Qed.

Lemma py_slice_to_zero {A : Type} (l : list A) (a : Z) :
  py_slice l a 0 = [].
Proof.
  unfold py_slice, clamp_index. simpl (0 <? 0).
  rewrite (Z.min_l 0) by lia.
  replace (Z.to_nat (0 - _)) with 0%nat; [reflexivity |].
  destruct (a <? 0) eqn:E; rewrite ?Z.ltb_lt, ?Z.ltb_ge in E; lia.
Qed.

(** A page of [get_paginated_financial_data], for a page size of 1 or
    more: it never has more rows than the page size; no page number is
    rejected: a page beyond the last one is empty and reports no next
    page, and page 0 is empty and reports a next page and no previous
    one; the total count is the same on every page. *)
Theorem page_bounds :
  forall (cache : Cache) (faults : Faults) (db : Db)
         (supervisor_id page page_size : Z) (sort_by sort_order : string),
    1 <= page_size ->
    exists resp cache',
      get_paginated_financial_data cache faults db supervisor_id page
        page_size sort_by sort_order = Ok (resp, cache')
      /\ len (data resp) <= page_size
      /\ 1 <= total_pages (pagination resp)
      /\ total_count (pagination resp)
         = len (request_funds faults db
                  (fst (get_user_permissions cache db supervisor_id))
                  sort_by sort_order)
      /\ (total_pages (pagination resp) < page ->
          data resp = [] /\ has_next (pagination resp) = false
          /\ has_prev (pagination resp) = true)
      /\ (page = 0 ->
          data resp = [] /\ has_next (pagination resp) = true
          /\ has_prev (pagination resp) = false).
Proof.
  intros cache faults db supervisor_id page page_size sort_by sort_order Hs.
  rewrite get_paginated_shape by lia. cbv zeta.
  set (l := request_funds faults db
              (fst (get_user_permissions cache db supervisor_id))
              sort_by sort_order).
  pose proof (pages_of_bounds (len l) page_size ltac:(unfold len; lia) Hs)
    as [B1 [B2 B3]].
  eexists. eexists. split; [reflexivity |]. simpl.
  split; [| split; [exact B1 | split; [reflexivity | split]]].
  - pose proof (py_slice_length l ((page - 1) * page_size)
                  ((page - 1) * page_size + page_size) ltac:(lia)) as H.
    unfold len in *. rewrite length_map. lia.
  - intro H. split; [| split].
    + rewrite py_slice_beyond by nia. reflexivity.
    + apply Z.ltb_ge. lia.
    + apply Z.ltb_lt. lia.
  - intros ->. split; [| split].
    + replace ((0 - 1) * page_size + page_size) with 0 by lia.
      now rewrite py_slice_to_zero.
    + apply Z.ltb_lt. lia.
    + reflexivity.
Qed.

Lemma page_bounds_witness :
  1 <= 2
  /\ exists resp cache',
       get_paginated_financial_data [] no_fault scenario_db 10 5 2
         "fund_id" "ASC" = Ok (resp, cache')
       /\ len (data resp) <= 2.
Proof.
  split; [lia |].
  destruct (page_bounds [] no_fault scenario_db 10 5 2 "fund_id" "ASC")
    as [resp [cache' [H1 [H2 _]]]]; [lia |].
  exists resp, cache'. split; assumption.
Defined.

(** A page size of 0: as soon as one fund is authorized the request
    raises [ZeroDivisionError]; with none it returns an empty page of one
    page in all. *)
Theorem page_size_zero :
  forall (cache : Cache) (faults : Faults) (db : Db)
         (supervisor_id page : Z) (sort_by sort_order : string),
    let l := request_funds faults db
               (fst (get_user_permissions cache db supervisor_id))
               sort_by sort_order in
    (l <> [] ->
     get_paginated_financial_data cache faults db supervisor_id page 0
       sort_by sort_order = Raise ZeroDivisionError)
    /\ (l = [] ->
        exists resp cache',
          get_paginated_financial_data cache faults db supervisor_id page 0
            sort_by sort_order = Ok (resp, cache')
          /\ data resp = [] /\ total_pages (pagination resp) = 1
          /\ total_count (pagination resp) = 0).
Proof.
  intros cache faults db supervisor_id page sort_by sort_order l.
  unfold get_paginated_financial_data.
  fold (request_funds faults db
          (fst (get_user_permissions cache db supervisor_id))
          sort_by sort_order). fold l.
  unfold make_pagination. split.
  - intro H. destruct l as [| f l']; [congruence |]. reflexivity.
  - intros ->. eexists. eexists. split; [reflexivity |]. simpl.
    split; [| split; reflexivity].
    rewrite py_slice_beyond; [reflexivity | unfold len; simpl; lia].
Qed.

Lemma page_size_zero_witness :
  request_funds no_fault scenario_db
    (fst (get_user_permissions [] scenario_db 10)) "fund_id" "ASC" <> []
  /\ get_paginated_financial_data [] no_fault scenario_db 10 1 0
       "fund_id" "ASC" = Raise ZeroDivisionError.
Proof.
  split; [vm_compute; discriminate |].
  apply (proj1 (page_size_zero [] no_fault scenario_db 10 1
                  "fund_id" "ASC")).
  vm_compute. discriminate.
Defined.

End PageEdges.

(* ===================================================================== *)
(** * [accurate_pagination.py]: the rows of a page and the error reply *)
(* ===================================================================== *)

Module AccurateFacts.
Import MySql Accurate Tables BatchFacts.



Lemma join_users_In (us : list User) (l : list FinancialFund)
  (r : FundView) :
  In r (join_users us l)
  <-> exists f u,
        In f l /\ find (fun u => u_id u =? handle_by f) us = Some u
        /\ r = mkView f (u_name u) (u_department u).
Proof.
  unfold join_users. rewrite in_flat_map. split.
  - intros [f [Hf Hr]].
    destruct (find (fun u => u_id u =? handle_by f) us) as [u |] eqn:E;
      [| contradiction].
    destruct Hr as [<- | []]. exists f, u. auto.
  - intros [f [u [Hf [Hu ->]]]]. exists f. split; [assumption |].
    rewrite Hu. now left.
Qed.

Lemma firstn_skipn_In {A : Type} (n m : nat) (l : list A) (x : A) :
  In x (firstn n (skipn m l)) -> In x l.
Proof.
  intro H. rewrite <- (firstn_skipn m l). apply in_or_app. right.
  rewrite <- (firstn_skipn n (skipn m l)). apply in_or_app. now left.
Qed.





End AccurateFacts.

(* ===================================================================== *)
(** * [alternative_permission_with_pagination.py]: the three variants *)
(* ===================================================================== *)

Module VariantFacts.
Import MySql Alternative AlternativeCounted Tables Keyset.




Lemma conditions_in_scope (hs os cs : list Z) (f : FinancialFund) :
  where_clause (conditions hs os cs) None f = in_scope hs os cs f.
Proof.
  unfold where_clause, conditions, in_scope. rewrite !existsb_app.
  assert (E : forall (col : FinancialFund -> Z) (ids : list Z),
             existsb (fun c : FinancialFund -> bool => c f)
                     (match ids with
                      | [] => []
                      | _ => [fun g => mem (col g) ids]
                      end)
             = mem (col f) ids).
  { intros col ids. destruct ids; simpl; [reflexivity |].
    now rewrite orb_false_r. }
  rewrite (E handle_by), (E order_id), (E customer_id).
  now rewrite orb_assoc.
Qed.






(** The total count of variant 2, which its comment calls possibly
    inexact, is exact, and counts also the funds whose handler is no user,
    which no page shows: it is the number of funds of the table within
    the scope, and the page has at most [page_size] rows. *)
Theorem variant_2_count_is_exact :
  forall (db : Db) (hs os cs : list Z) (page page_size : Z)
         (sort_by sort_order : string) (rows : list FundView) (total : Z),
    get_financial_funds_with_pagination_v2 db hs os cs page page_size
      sort_by sort_order = Ok (rows, total) ->
    total = len (filter (in_scope hs os cs) (financial_funds db))
    /\ len (qualifying db hs os cs) <= total
    /\ (forall r, In r rows -> In r (qualifying db hs os cs)).
Proof.
  intros db hs os cs page page_size sort_by sort_order rows total H.
  unfold get_financial_funds_with_pagination_v2 in H.
  pose proof (fun f => conditions_in_scope hs os cs f) as Hw.
  assert (Hq : len (qualifying db hs os cs)
               <= len (filter (in_scope hs os cs) (financial_funds db))).
  { unfold qualifying, join_users, len.
    induction (filter (in_scope hs os cs) (financial_funds db))
      as [| f l IH]; simpl; [lia |].
    rewrite length_app.
    destruct (find (fun u => u_id u =? handle_by f) (users db));
      simpl length; lia. }
  destruct (conditions hs os cs) as [| c0 rest] eqn:Ec.
  - injection H as <- <-.
    assert (E : filter (in_scope hs os cs) (financial_funds db) = []).
    { apply filter_none. apply Forall_forall. intros f _.
      now rewrite <- Hw. }
    rewrite E in *. split; [reflexivity |].
    split; [exact Hq | intros r []].
  - rewrite (filter_ext _ _ Hw) in H.
    unfold order_by, limit_offset in H.
    destruct (fund_column sort_by); [| discriminate].
    destruct (sort_direction sort_order); [| discriminate].
    simpl bind in H. destruct (_ || _); [discriminate |].
    simpl in H. injection H as <- <-.
    split; [reflexivity |]. split; [exact Hq |].
    intros r Hr. apply AccurateFacts.firstn_skipn_In in Hr.
    now apply (Permutation_in _ (stable_sort_perm _ _ _ _)) in Hr.
Qed.

Lemma variant_2_count_is_exact_witness :
  get_financial_funds_with_pagination_v2 scenario_db [10; 11; 12] [201]
    [301] 2 2 "fund_id" "ASC" = Ok ([mkView F3 "X" "south"], 3)
  /\ 3 = len (filter (in_scope [10; 11; 12] [201] [301])
                (financial_funds scenario_db)).
Proof.
  split; [vm_compute; reflexivity |].
  eapply (variant_2_count_is_exact scenario_db [10; 11; 12] [201] [301]
            2 2 "fund_id" "ASC").
  vm_compute. reflexivity.
Defined.



End VariantFacts.

(* ===================================================================== *)
(** * [optimized_cursor_pagination.py]: what a page holds *)
(* ===================================================================== *)

Module OptimizedFacts.
Import MySql Optimized Tables TotalCount AccurateFacts.

Lemma py_slice_In {A : Type} (l : list A) (a b : Z) (x : A) :
  In x (py_slice l a b) -> In x l.
Proof. unfold py_slice. apply firstn_skipn_In. Qed.

Lemma batch_of_In (ids : list Z) (a b x : Z) :
  mem x (batch_of ids a b) = true -> mem x ids = true.
Proof.
  rewrite !mem_In. unfold batch_of.
  destruct (a <? len ids); [apply py_slice_In | intros []].
Qed.

Lemma batch_in_scope (hs os cs : list Z) (a b : Z) (f : FinancialFund) :
  in_scope (batch_of hs a b) (batch_of os a b) (batch_of cs a b) f = true ->
  in_scope hs os cs f = true.
Proof.
  unfold in_scope. rewrite !orb_true_iff.
  intros [[H | H] | H]; apply batch_of_In in H; tauto.
Qed.

Lemma batch_rows_qualify (db : Db) (hs os cs : list Z) (a b : Z)
  (r : FundView) :
  In r (join_users (users db)
          (filter (in_scope (batch_of hs a b) (batch_of os a b)
                            (batch_of cs a b)) (financial_funds db))) ->
  In r (qualifying db hs os cs).
Proof.
  unfold qualifying. rewrite !join_users_In.
  intros [f [u [Hf H]]]. exists f, u. split; [| assumption].
  apply filter_In in Hf. apply filter_In.
  split; [tauto |]. apply (batch_in_scope hs os cs a b). tauto.
Qed.

Lemma batch_loop_rows (db : Db) (hs os cs : list Z)
  (batch_size page_size offset : Z) (sort_by sort_order : string) :
  0 <= page_size ->
  forall batch_idxs all_results current_offset rows,
    batch_loop db hs os cs batch_size page_size offset sort_by sort_order
      batch_idxs all_results current_offset = Ok rows ->
    len all_results <= page_size ->
    (forall r, In r all_results -> In r (qualifying db hs os cs)) ->
    len rows <= page_size
    /\ forall r, In r rows -> In r (qualifying db hs os cs).
Proof.
  intro Hp. induction batch_idxs as [| i rest IH];
    intros all_results current_offset rows H Hlen Hin; simpl in H.
  - injection H as <-. now split.
  - destruct (no_conditions _ _ _); [now apply (IH _ _ _ H) |].
    destruct ((current_offset <? offset) && _); [now apply (IH _ _ _ H) |].
    destruct (page_size - len all_results <=? 0);
      [injection H as <-; now split |].
    unfold order_by, limit_offset in H.
    destruct (fund_column sort_by) as [col |]; [| discriminate].
    destruct (sort_direction sort_order) as [reverse |]; [| discriminate].
    simpl bind in H.
    destruct ((page_size - len all_results <? 0) || _) eqn:El;
      [discriminate |].
    apply orb_false_iff in El. destruct El as [El _]. apply Z.ltb_ge in El.
    simpl bind in H.
    match type of H with
    | context [all_results ++ ?b] => set (batch_results := b) in *
    end.
    assert (Hb : len batch_results <= page_size - len all_results).
    { unfold batch_results, len in *. rewrite length_firstn. lia. }
    assert (Hq : forall r, In r (all_results ++ batch_results) ->
                           In r (qualifying db hs os cs)).
    { intros r Hr. apply in_app_or in Hr. destruct Hr as [Hr | Hr];
        [now apply Hin |].
      unfold batch_results in Hr. apply firstn_skipn_In in Hr.
      apply (Permutation_in _ (stable_sort_perm _ _ _ _)) in Hr.
      now apply batch_rows_qualify in Hr. }
    assert (Hl : len (all_results ++ batch_results) <= page_size)
      by (unfold len in *; rewrite length_app; lia).
    destruct (page_size <=? len (all_results ++ batch_results)).
    + injection H as <-. split.
      * pose proof (PageEdges.py_slice_length
                      (all_results ++ batch_results) 0 page_size Hp). lia.
      * intros r Hr. apply py_slice_In in Hr. now apply Hq.
    + now apply (IH _ _ _ H).
Qed.

(** A page of [get_financial_funds_optimized_pagination], for a page size
    of 0 or more: never more rows than the page size, and every row is a
    fund of the scope with its handler. *)
Theorem optimized_page_rows :
  forall (db : Db) (hs os cs : list Z) (page page_size : Z)
         (sort_by sort_order : string) (estimate_total : bool)
         (rows : list FundView) (total : Z),
    0 <= page_size ->
    get_financial_funds_optimized_pagination db hs os cs page page_size
      sort_by sort_order estimate_total = Ok (rows, total) ->
    len rows <= page_size
    /\ forall r, In r rows -> In r (qualifying db hs os cs).
Proof.
  intros db hs os cs page page_size sort_by sort_order estimate_total rows
         total Hp H.
  unfold get_financial_funds_optimized_pagination in H.
  match type of H with
  | context [batch_loop ?a ?b ?c ?d ?e ?f ?g ?h ?i ?j ?k ?l] =>
      destruct (batch_loop a b c d e f g h i j k l) as [res | e' |] eqn:E;
        simpl in H; try discriminate
  end.
  injection H as <- _.
  apply (batch_loop_rows _ _ _ _ _ _ _ _ _ Hp _ _ _ _ E).
  - unfold len. simpl. lia.
  - intros r [].
Qed.

Lemma optimized_page_rows_witness :
  0 <= 2
  /\ get_financial_funds_optimized_pagination scenario_db [10; 11; 12]
       [201] [301] 1 2 "fund_id" "ASC" false
     = Ok ([mkView F1 "A" "east"; mkView F2 "X" "south"], 0)
  /\ len [mkView F1 "A" "east"; mkView F2 "X" "south"] <= 2.
Proof.
  split; [lia |]. split; [vm_compute; reflexivity |].
  eapply (optimized_page_rows scenario_db [10; 11; 12] [201] [301] 1 2
            "fund_id" "ASC" false); [lia | vm_compute; reflexivity].
Defined.

Lemma estimate_zero (db : Db) (hs os cs : list Z) :
  hs = [] \/ os = [] \/ cs = [] -> estimate_total_count db hs os cs = 0.
Proof.
  intro H. unfold estimate_total_count.
  replace (Z.min 100 (Z.min (len hs) (Z.min (len os) (len cs)))) with 0;
    [reflexivity |].
  unfold len. destruct H as [-> | [-> | ->]]; simpl length; lia.
Qed.

(** When the supervisor and the subordinates own no order, or administer
    no customer, the sample of [estimate_total_count] is empty: page 1 of
    [smart_pagination_service] reports a total of 0, one page and no next
    page, however many funds they handle. *)
Theorem smart_total_zero_without_orders_or_customers :
  forall (db : Db) (supervisor_id page_size : Z)
         (sort_by sort_order : string) (col : FinancialFund -> Z)
         (reverse : bool),
    1 <= page_size ->
    fund_column sort_by = Some col ->
    sort_direction sort_order = Some reverse ->
    get_order_ids_for_users db (subordinates_with_self db supervisor_id)
    = []
    \/ get_customer_ids_for_users db
         (subordinates_with_self db supervisor_id) = [] ->
    exists resp,
      smart_pagination_service db supervisor_id 1 page_size sort_by
        sort_order = Ok (PageReply resp)
      /\ total_count (pagination resp) = 0
      /\ total_pages (pagination resp) = 1
      /\ has_next (pagination resp) = false.
Proof.
  intros db supervisor_id page_size sort_by sort_order col reverse Hs Hc Hr
         He.
  unfold smart_pagination_service, get_financial_funds_optimized_pagination.
  match goal with
  | |- context [batch_loop ?a ?b ?c ?d ?e ?f ?g ?h ?i ?j ?k ?l] =>
      destruct (batch_loop_ok a b c d e f g h i col reverse Hc Hr j k l)
        as [r Hl]; rewrite Hl
  end.
  rewrite estimate_zero by tauto.
  simpl. eexists. split; [reflexivity |]. repeat split.
Qed.

Lemma smart_total_zero_without_orders_or_customers_witness :
  get_customer_ids_for_users tie_db (subordinates_with_self tie_db 11) = []
  /\ exists resp,
       smart_pagination_service tie_db 11 1 2 "fund_id" "ASC"
       = Ok (PageReply resp)
       /\ total_count (pagination resp) = 0
       /\ len (data resp) = 2.
Proof.
  split; [reflexivity |].
  destruct (smart_total_zero_without_orders_or_customers tie_db 11 2
              "fund_id" "ASC" fund_id false) as [resp [H1 [H2 _]]];
    try reflexivity; [lia | now right |].
  exists resp. split; [assumption |]. split; [assumption |].
  vm_compute in H1. injection H1 as <-. reflexivity.
Defined.

End OptimizedFacts.

(* ===================================================================== *)
(** * [high_concurrency_pagination.py]: batches, order, and the pool *)
(* ===================================================================== *)

Module BatchOutcome.
Import MySql HighConcurrency Tables UnionFacts FundList.

(** The batches up to the first failing one. *)
Lemma run_batches_outcome (faults : Faults) (funds : list FinancialFund)
  (d : Dimension) (batches : list (list Z)) :
  forall acc,
    (existsb (faults d) batches = false ->
     run_batches faults funds d batches acc
     = (batches, Ok (acc ++ rows_of funds d batches)))
    /\ (existsb (faults d) batches = true ->
        exists sent failing rest,
          batches = sent ++ failing :: rest
          /\ existsb (faults d) sent = false
          /\ faults d failing = true
          /\ run_batches faults funds d batches acc
             = (sent ++ [failing], Raise DatabaseError)).
Proof.
  induction batches as [| b rest IH]; intro acc; simpl.
  - split; [intros _; now rewrite app_nil_r | discriminate].
  - destruct (faults d b) eqn:E; simpl.
    + split; [discriminate |]. intros _.
      exists [], b, rest. auto.
    + destruct (IH (acc ++ filter (fun f => mem (column d f) b) funds))
        as [H1 H2].
      split.
      * intro H. rewrite (H1 H). simpl. unfold rows_of. simpl.
        now rewrite app_assoc.
      * intro H. destruct (H2 H) as [sent [failing [rest' [-> [Hs [Hf Hr]]]]]].
        exists (b :: sent), failing, rest'. simpl. rewrite E, Hr. auto.
Qed.

Lemma rows_of_NoDup (funds : list FinancialFund) (d : Dimension)
  (batches : list (list Z)) :
  NoDup (map fund_id funds) -> NoDup (concat batches) ->
  NoDup (map fund_id (rows_of funds d batches)).
Proof.
  intros Hf. induction batches as [| b rest IH]; intro Hb; simpl.
  - constructor.
  - simpl in Hb. unfold rows_of. simpl flat_map. rewrite map_app.
    apply NoDup_app.
    + now apply NoDup_map_filter.
    + apply IH. now apply NoDup_app_remove_l in Hb.
    + intros k H1 H2. apply in_map_iff in H1, H2.
      destruct H1 as [f1 [Hk1 Hf1]], H2 as [f2 [Hk2 Hf2]].
      apply filter_In in Hf1. destruct Hf1 as [Hin1 Hm1].
      apply in_flat_map in Hf2. destruct Hf2 as [b2 [Hb2 Hf2]].
      apply filter_In in Hf2. destruct Hf2 as [Hin2 Hm2].
      assert (f1 = f2)
        by (apply (NoDup_key_inj fund_id funds); auto; congruence).
      subst f2. apply mem_In in Hm1, Hm2.
      assert (Hc : In (column d f1) (concat rest))
        by (apply in_concat; eauto).
      clear IH Hm2. revert Hb Hm1 Hc. generalize (column d f1).
      intros x Hb Hm1 Hc.
      induction b as [| a b IHb]; [contradiction |].
      simpl in Hb. inversion Hb as [| ? ? Hn Hb']; subst.
      destruct Hm1 as [-> | Hm1]; [| now apply IHb].
      apply Hn. apply in_or_app. now right.
Qed.

(** [execute_batch_query] with a positive batch size.  If no batch
    fails, every batch is sent and the rows of the table matching an id
    come back; with distinct ids and fund ids no fund comes twice, before
    any deduplication.  If a batch fails, the batches before it and the
    failing one are the only statements sent and the call raises: no row
    of the earlier batches is returned. *)
Theorem execute_batch_query_outcome :
  forall (faults : Faults) (db : Db) (d : Dimension) (params : list Z)
         (batch_size : Z),
    0 < batch_size ->
    (existsb (faults d) (chunks batch_size params) = false ->
     exists rows,
       execute_batch_query faults db d params batch_size
       = (chunks batch_size params, Ok rows)
       /\ (forall f, In f rows
                     <-> In f (financial_funds db)
                         /\ mem (column d f) params = true)
       /\ (distinct params = true ->
           distinct (map fund_id (financial_funds db)) = true ->
           NoDup (map fund_id rows)))
    /\ (existsb (faults d) (chunks batch_size params) = true ->
        exists sent failing rest,
          chunks batch_size params = sent ++ failing :: rest
          /\ existsb (faults d) sent = false
          /\ faults d failing = true
          /\ execute_batch_query faults db d params batch_size
             = (sent ++ [failing], Raise DatabaseError)).
Proof.
  intros faults db d params batch_size Hs.
  assert (Hx : params <> [] ->
               execute_batch_query faults db d params batch_size
               = run_batches faults (financial_funds db) d
                   (chunks batch_size params) []).
  { intro Hne. unfold execute_batch_query.
    destruct params; [congruence |].
    replace (batch_size =? 0) with false by (symmetry; apply Z.eqb_neq; lia).
    replace (batch_size <? 0) with false by (symmetry; apply Z.ltb_ge; lia).
    reflexivity. }
  destruct (run_batches_outcome faults (financial_funds db) d
              (chunks batch_size params) []) as [H1 H2].
  split.
  - intro H. exists (rows_of (financial_funds db) d (chunks batch_size params)).
    split; [| split].
    + destruct params as [| p ps]; [reflexivity |].
      rewrite Hx by discriminate. now rewrite (H1 H).
    + intro f. unfold rows_of. now apply batch_rows_In.
    + intros Hp Hf. apply distinct_NoDup in Hp, Hf.
      apply rows_of_NoDup; [assumption |]. now rewrite chunks_concat.
  - intro H. destruct params as [| p ps]; [discriminate |].
    rewrite Hx by discriminate. now apply H2.
Qed.

Lemma execute_batch_query_outcome_witness :
  0 < 2
  /\ existsb (order_fault ByOrder) (chunks 2 [201; 202; 203]) = true
  /\ exists sent failing rest,
       chunks 2 [201; 202; 203] = sent ++ failing :: rest
       /\ execute_batch_query order_fault scenario_db ByOrder
            [201; 202; 203] 2 = (sent ++ [failing], Raise DatabaseError).
Proof.
  split; [lia |]. split; [reflexivity |].
  destruct (proj2 (execute_batch_query_outcome order_fault scenario_db
                     ByOrder [201; 202; 203] 2 ltac:(lia)))
    as [sent [failing [rest [H1 [_ [_ H2]]]]]]; [reflexivity |].
  exists sent, failing, rest. split; assumption.
Defined.

End BatchOutcome.

Module OrderedPages.
Import MySql HighConcurrency Tables PageEdges AccurateFacts.



End OrderedPages.

Module PoolFacts.
Import Pool Tables.

Lemma create_pool_bounded (size : Z) :
  0 <= size -> bounded (create_pool size) /\ pool_size (create_pool size) = size.
Proof.
  intro H. unfold bounded, create_pool, len. simpl.
  rewrite length_map, length_seq. split; [split; [lia |] | reflexivity].
  apply Forall_forall. intros c Hc. apply in_map_iff in Hc.
  now destruct Hc as [i [<- _]].
Qed.

Lemma get_connection_cases (p : ConnectionPool) :
  (pool p = []
   /\ get_connection p
      = (mkConnection (opened p) true,
         mkPool (pool_size p) [] (S (opened p))))
  \/ (exists l a,
        pool p = l ++ [a]
        /\ get_connection p = (a, mkPool (pool_size p) l (opened p))).
Proof.
  unfold get_connection. destruct (pool p) as [| c l] eqn:E.
  - left. now split.
  - right.
    destruct (exists_last (l := c :: l) ltac:(discriminate))
      as [l' [a Hla]].
    exists l', a. rewrite Hla, last_last, removelast_last.
    split; [reflexivity |]. now destruct l'.
Qed.

Lemma step_bounded (p : ConnectionPool) (op : PoolOp) :
  bounded p ->
  bounded (step p op) /\ pool_size (step p op) = pool_size p.
Proof.
  unfold bounded. intros [Hl Hc]. destruct op as [| conn]; simpl.
  - destruct (get_connection_cases p) as [[E ->] | [l [a [E ->]]]]; simpl.
    + split; [split; [unfold len in *; rewrite E in Hl; simpl in *; lia
                     | constructor] | reflexivity].
    + split; [| reflexivity]. rewrite E in Hl, Hc. split.
      * unfold len in *. rewrite length_app in Hl. simpl in *. lia.
      * apply Forall_app in Hc. tauto.
  - unfold return_connection.
    destruct (len (pool p) <? pool_size p) eqn:E1; simpl;
      [| now split].
    destruct (is_connected conn) eqn:E2; simpl; [| now split].
    apply Z.ltb_lt in E1. split; [| reflexivity]. split.
    + unfold len in *. rewrite length_app. simpl. lia.
    + apply Forall_app. split; [assumption |]. now constructor.
Qed.

(** Whatever the callers do, the pool never holds more connections than
    its size, and only connections that were connected when handed back;
    its size does not change. *)
Theorem pool_stays_bounded :
  forall (size : Z) (ops : list PoolOp),
    0 <= size ->
    let p := fold_left step ops (create_pool size) in
    len (pool p) <= size
    /\ pool_size p = size
    /\ Forall (fun c => is_connected c = true) (pool p).
Proof.
  intros size ops Hs.
  destruct (create_pool_bounded size Hs) as [Hb Hz].
  revert Hb Hz. generalize (create_pool size).
  induction ops as [| op ops IH]; intros p Hb Hz; simpl.
  - destruct Hb. now rewrite Hz in *.
  - destruct (step_bounded p op Hb) as [Hb' Hz'].
    apply IH; [assumption | congruence].
Qed.

Lemma pool_stays_bounded_witness :
  0 <= 2
  /\ len (pool (fold_left step
                  [Get; Get; Get; Return (mkConnection 7 true);
                   Return (mkConnection 8 false);
                   Return (mkConnection 9 true);
                   Return (mkConnection 10 true)]
                  (create_pool 2))) <= 2.
Proof.
  split; [lia |].
  apply (pool_stays_bounded 2
           [Get; Get; Get; Return (mkConnection 7 true);
            Return (mkConnection 8 false); Return (mkConnection 9 true);
            Return (mkConnection 10 true)]).
  lia.
Defined.

(** The pool never makes a caller wait and sets no limit to the number of
    connections: [k] requests without a hand-back empty the pool and open
    a new connection for every request beyond its size. *)
Theorem pool_opens_beyond_size :
  forall (size : Z) (k : nat),
    0 <= size ->
    let p := fold_left step (repeat Get k) (create_pool size) in
    Z.of_nat (opened p) = Z.max size (Z.of_nat k)
    /\ len (pool p) = Z.max 0 (size - Z.of_nat k).
Proof.
  intros size k Hs.
  assert (G : forall (k : nat) (p : ConnectionPool),
             Z.of_nat (opened p) >= len (pool p) ->
             let q := fold_left step (repeat Get k) p in
             Z.of_nat (opened q)
             = Z.of_nat (opened p) + Z.max 0 (Z.of_nat k - len (pool p))
             /\ len (pool q) = Z.max 0 (len (pool p) - Z.of_nat k)).
  { clear. induction k as [| k IH]; intros p Hp; cbv zeta.
    - simpl. unfold len in *. lia.
    - change (fold_left step (repeat Get (S k)) p)
        with (fold_left step (repeat Get k) (step p Get)).
      assert (Hstep : Z.of_nat (opened (step p Get))
                      = Z.of_nat (opened p)
                        + (if len (pool p) =? 0 then 1 else 0)
                      /\ len (pool (step p Get))
                         = Z.max 0 (len (pool p) - 1)).
      { simpl. unfold len.
        destruct (get_connection_cases p) as [[E ->] | [l [a [E ->]]]];
          rewrite E; simpl.
        - lia.
        - rewrite length_app. simpl.
          destruct (Z.eqb_spec (Z.of_nat (length l + 1)) 0); lia. }
      destruct Hstep as [H1 H2].
      assert (H0 : 0 <= len (pool p)) by (unfold len; lia).
      destruct (IH (step p Get)) as [I1 I2];
        [rewrite H1, H2; destruct (Z.eqb_spec (len (pool p)) 0); lia |].
      cbv zeta in I1, I2. rewrite I1, I2, H1, H2.
      destruct (Z.eqb_spec (len (pool p)) 0); lia. }
  destruct (G k (create_pool size)) as [G1 G2].
  - unfold create_pool, len. simpl. rewrite length_map, length_seq. lia.
  - cbv zeta in *. rewrite G1, G2. unfold create_pool, len. simpl.
    rewrite length_map, length_seq. lia.
Qed.

Lemma pool_opens_beyond_size_witness :
  0 <= 2
  /\ Z.of_nat (opened (fold_left step (repeat Get 5) (create_pool 2)))
     = Z.max 2 5.
Proof.
  split; [lia |]. apply (pool_opens_beyond_size 2 5). lia.
Defined.

(** A connected connection handed back to a pool with room is the one
    the next request gets, and the pool is then as before; handed back to
    a full pool, or not connected, it is dropped. *)
Theorem pool_hand_back_and_get :
  forall (p : ConnectionPool) (conn : Connection),
    (len (pool p) < pool_size p -> is_connected conn = true ->
     get_connection (return_connection p conn) = (conn, p))
    /\ (pool_size p <= len (pool p) \/ is_connected conn = false ->
        return_connection p conn = p).
Proof.
  intros p conn. unfold return_connection. split.
  - intros Hl Hc. apply Z.ltb_lt in Hl. rewrite Hl, Hc. simpl andb. cbv iota.
    destruct (get_connection_cases
                (mkPool (pool_size p) (pool p ++ [conn]) (opened p)))
      as [[E _] | [l [a [E ->]]]]; simpl in E.
    + now destruct (pool p).
    + apply app_inj_tail in E. destruct E as [<- <-]. simpl.
      now destruct p.
  - intros [H | H].
    + replace (len (pool p) <? pool_size p) with false
        by (symmetry; apply Z.ltb_ge; lia). reflexivity.
    + rewrite H, andb_false_r. reflexivity.
Qed.

Lemma pool_hand_back_and_get_witness :
  len (pool (snd (get_connection (create_pool 2)))) < 2
  /\ get_connection
       (return_connection (snd (get_connection (create_pool 2)))
          (mkConnection 1 true))
     = (mkConnection 1 true, snd (get_connection (create_pool 2))).
Proof.
  split; [vm_compute; reflexivity |].
  apply (proj1 (pool_hand_back_and_get
                  (snd (get_connection (create_pool 2)))
                  (mkConnection 1 true)));
    [vm_compute | ]; reflexivity.
Defined.

End PoolFacts.
